(** * Manifest compiler for OS images: a shallow embedding

    The development follows the Go sources of the image compiler:

    - [pkg/distro/fedora/images.go] and its RHEL 9 sibling: the
      customization merge ([osCustomizations]), the per-image-type
      construction functions and the OSTree commit derivation;
    - the stand-alone build tool: the deterministic OSTree resolver
      ([resolveCommit]) and the manifest writer ([save]), the
      repository filter and conversion, the build names and the steps
      of [makeManifest];
    - the test generator [test/cases/generate-build-config]:
      [serialise] and [filter_builds].

    Go strings are byte strings and are embedded as [string]; a Go slice
    is a [list] (a nil slice and an empty slice are both [[]]); a pointer
    that may be nil is an [option]; a function returning [(T, error)] or
    able to panic returns a [result]. *)

From Stdlib Require Import ZArith NArith List String Ascii Bool Lia DecimalString.
Import ListNotations.

Set Warnings "-register-all".

Local Open Scope string_scope.
Local Open Scope list_scope.

(** ** Outcomes of a Go call *)

(** A call either returns its value, returns a non-nil [error], or
    panics.  Errors and panic values are kept as their text. *)
Inductive result (A : Type) : Type :=
| Ok (a : A)
| Err (e : string)
| Panic (p : string).

Arguments Ok {A} a.
Arguments Err {A} e.
Arguments Panic {A} p.

Definition bind {A B : Type} (m : result A) (k : A -> result B) : result B :=
  match m with
  | Ok a => k a
  | Err e => Err e
  | Panic p => Panic p
  end.

Declare Scope go_scope.
Delimit Scope go_scope with go.
Notation "x <- m ;; k" := (bind m (fun x => k))
  (at level 61, m at next level, right associativity) : go_scope.
Notation "' pat <- m ;; k" := (bind m (fun x => match x with pat => k end))
  (at level 61, pat pattern, m at next level, right associativity) : go_scope.

(** The idiom [v, err := f(...); if err != nil { panic(msg + err) }]. *)
Definition orPanic {A : Type} (msg : string) (m : result A) : result A :=
  match m with
  | Ok a => Ok a
  | Err e => Panic (msg ++ e)
  | Panic p => Panic p
  end.

(** The panic value of the Go runtime when a nil pointer is followed. *)
Definition nilDereference : string :=
  "runtime error: invalid memory address or nil pointer dereference".

(** [s != ""] *)
Definition nonEmpty (s : string) : bool :=
  match s with
  | EmptyString => false
  | String _ _ => true
  end.

(** [append(l, s)] guarded by [if s != ""]. *)
Definition appendNonEmpty (l : list string) (s : string) : list string :=
  if nonEmpty s then l ++ [s] else l.

(** ** The parts of the Go standard library the sources call *)

Module Strings.

(** [strings.Join] *)
Fixpoint Join (elems : list string) (sep : string) : string :=
  match elems with
  | [] => ""
  | [e] => e
  | e :: rest => e ++ sep ++ Join rest sep
  end.

(** [strings.HasPrefix] *)
Definition HasPrefix (s pre : string) : bool := String.prefix pre s.

End Strings.

(** Lower-case hexadecimal digit of a value below sixteen. *)
Definition hexDigit (n : Z) : ascii :=
  nth (Z.to_nat n) (list_ascii_of_string "0123456789abcdef") "0"%char.

(** [fmt.Sprintf("%x", b)] for a byte array [b]: two digits per byte. *)
Fixpoint hexString (bs : list Z) : string :=
  match bs with
  | [] => ""
  | b :: rest =>
      String (hexDigit (Z.shiftr b 4)) (String (hexDigit (Z.land b 15)) (hexString rest))
  end.

(** [crypto/sha256]: words are 32-bit values held in [Z], with the
    wrap-around written out. *)
Module Sha256.
Local Open Scope Z_scope.

Definition bytesOf (s : string) : list Z :=
  map (fun c => Z.of_N (N_of_ascii c)) (list_ascii_of_string s).

Definition mask32 : Z := 0xFFFFFFFF.
Definition add32 (x y : Z) : Z := Z.land (x + y) mask32.
Definition rotr (n x : Z) : Z :=
  Z.lor (Z.shiftr x n) (Z.land (Z.shiftl x (32 - n)) mask32).
Definition not32 (x : Z) : Z := Z.lxor x mask32.

Definition Ch (x y z : Z) : Z := Z.lxor (Z.land x y) (Z.land (not32 x) z).
Definition Maj (x y z : Z) : Z :=
  Z.lxor (Z.lxor (Z.land x y) (Z.land x z)) (Z.land y z).
Definition bigSigma0 (x : Z) : Z :=
  Z.lxor (Z.lxor (rotr 2 x) (rotr 13 x)) (rotr 22 x).
Definition bigSigma1 (x : Z) : Z :=
  Z.lxor (Z.lxor (rotr 6 x) (rotr 11 x)) (rotr 25 x).
Definition smallSigma0 (x : Z) : Z :=
  Z.lxor (Z.lxor (rotr 7 x) (rotr 18 x)) (Z.shiftr x 3).
Definition smallSigma1 (x : Z) : Z :=
  Z.lxor (Z.lxor (rotr 17 x) (rotr 19 x)) (Z.shiftr x 10).

(** The first sixty-four primes. *)
Definition primes : list Z :=
  [2; 3; 5; 7; 11; 13; 17; 19; 23; 29; 31; 37; 41; 43; 47; 53;
   59; 61; 67; 71; 73; 79; 83; 89; 97; 101; 103; 107; 109; 113; 127; 131;
   137; 139; 149; 151; 157; 163; 167; 173; 179; 181; 191; 193; 197; 199; 211; 223;
   227; 229; 233; 239; 241; 251; 257; 263; 269; 271; 277; 281; 283; 293; 307; 311].

(** Integer [k]-th root by bisection: starting from [r], each of the
    [bits] low bits is set when the [k]-th power stays at or below
    [n]. *)
Fixpoint rootBits (k n : Z) (bits : nat) (r : Z) : Z :=
  match bits with
  | O => r
  | S b =>
      let r' := r + 2 ^ Z.of_nat b in
      if r' ^ k <=? n then rootBits k n b r' else rootBits k n b r
  end.

(** The first 32 bits of the fractional part of the [k]-th root of
    [p]. *)
Definition fractionBits (k p : Z) : Z :=
  Z.land (rootBits k (p * 2 ^ (32 * k)) 40 0) mask32.

(** The round constants: from the cube roots of the first sixty-four
    primes. *)
Definition roundConstants : list Z :=
  Eval vm_compute in map (fractionBits 3) primes.

(** The initial hash value: from the square roots of the first eight
    primes. *)
Definition initialState : list Z :=
  Eval vm_compute in map (fractionBits 2) (firstn 8 primes).

(** The [n] low bytes of [x], most significant first. *)
Fixpoint bigEndian (n : nat) (x : Z) : list Z :=
  match n with
  | O => []
  | S k => Z.land (Z.shiftr x (8 * Z.of_nat k)) 0xFF :: bigEndian k x
  end.

(** The message, the byte [0x80], zero bytes up to 56 modulo 64, and
    the length in bits on eight bytes. *)
Definition pad (msg : list Z) : list Z :=
  let len := Z.of_nat (List.length msg) in
  msg ++ [0x80] ++ repeat 0 (Z.to_nat ((55 - len) mod 64)) ++ bigEndian 8 (8 * len).

Fixpoint wordsOf (bs : list Z) : list Z :=
  match bs with
  | b0 :: b1 :: b2 :: b3 :: rest =>
      (Z.shiftl b0 24 + Z.shiftl b1 16 + Z.shiftl b2 8 + b3) :: wordsOf rest
  | _ => []
  end.

Fixpoint blocksOf (n : nat) (ws : list Z) : list (list Z) :=
  match n with
  | O => []
  | S k => firstn 16 ws :: blocksOf k (skipn 16 ws)
  end.

(** Message schedule: [w] holds the words computed so far, [n] more
    are added. *)
Fixpoint schedule (n : nat) (w : list Z) : list Z :=
  match n with
  | O => w
  | S k =>
      let t := List.length w in
      let back (i : nat) := nth (t - i) w 0 in
      schedule k
        (w ++ [add32 (add32 (smallSigma1 (back 2%nat)) (back 7%nat))
                     (add32 (smallSigma0 (back 15%nat)) (back 16%nat))])
  end.

Definition round (st : list Z) (kw : Z * Z) : list Z :=
  match st with
  | [a; b; c; d; e; f; g; h] =>
      let t1 :=
        add32 (add32 (add32 h (bigSigma1 e)) (add32 (Ch e f g) (fst kw))) (snd kw) in
      let t2 := add32 (bigSigma0 a) (Maj a b c) in
      [add32 t1 t2; a; b; c; add32 d t1; e; f; g]
  | _ => st
  end.

Definition compress (st : list Z) (block : list Z) : list Z :=
  let w := schedule 48 block in
  let st' := fold_left round (combine roundConstants w) st in
  map (fun p => add32 (fst p) (snd p)) (combine st st').

(** [sha256.Sum256]: the 32 bytes of the digest. *)
Definition Sum256 (data : string) : list Z :=
  let ws := wordsOf (pad (bytesOf data)) in
  let st := fold_left compress (blocksOf (Nat.div (List.length ws) 16) ws) initialState in
  flat_map (bigEndian 4) st.

End Sha256.

(** [unicode/utf8]: decoding of one multi-byte sequence. *)
Module Utf8.
Local Open Scope N_scope.

Definition RuneError : N := 0xFFFD.

Definition inRange (lo hi b : N) : bool := (lo <=? b) && (b <=? hi).

(** For a lead byte: the length of its sequence and the bounds of the
    second byte; [None] for a byte that starts no sequence. *)
Definition leadInfo (b0 : N) : option (nat * N * N) :=
  if inRange 0xC2 0xDF b0 then Some (2%nat, 0x80, 0xBF)
  else if b0 =? 0xE0 then Some (3%nat, 0xA0, 0xBF)
  else if inRange 0xE1 0xEC b0 then Some (3%nat, 0x80, 0xBF)
  else if b0 =? 0xED then Some (3%nat, 0x80, 0x9F)
  else if inRange 0xEE 0xEF b0 then Some (3%nat, 0x80, 0xBF)
  else if b0 =? 0xF0 then Some (4%nat, 0x90, 0xBF)
  else if inRange 0xF1 0xF3 b0 then Some (4%nat, 0x80, 0xBF)
  else if b0 =? 0xF4 then Some (4%nat, 0x80, 0x8F)
  else None.

Definition cont (b : N) : N := N.land b 0x3F.

(** [utf8.DecodeRuneInString] on a string whose first byte [b0] is at
    least [0x80]; [rest] holds the bytes after it.  The result is the
    rune and the number of bytes it takes. *)
Definition decodeMultiByte (b0 : N) (rest : list N) : N * nat :=
  match leadInfo b0 with
  | None => (RuneError, 1%nat)
  | Some (sz, lo, hi) =>
      match rest with
      | b1 :: rest1 =>
          if negb (inRange lo hi b1) then (RuneError, 1%nat)
          else if (sz <=? 2)%nat then
            (N.lor (N.shiftl (N.land b0 0x1F) 6) (cont b1), 2%nat)
          else
            match rest1 with
            | b2 :: rest2 =>
                if negb (inRange 0x80 0xBF b2) then (RuneError, 1%nat)
                else if (sz <=? 3)%nat then
                  (N.lor (N.lor (N.shiftl (N.land b0 0x0F) 12) (N.shiftl (cont b1) 6))
                         (cont b2), 3%nat)
                else
                  match rest2 with
                  | b3 :: _ =>
                      if negb (inRange 0x80 0xBF b3) then (RuneError, 1%nat)
                      else
                        (N.lor (N.lor (N.lor (N.shiftl (N.land b0 0x07) 18)
                                             (N.shiftl (cont b1) 12))
                                      (N.shiftl (cont b2) 6))
                               (cont b3), 4%nat)
                  | [] => (RuneError, 1%nat)
                  end
            | [] => (RuneError, 1%nat)
            end
      | [] => (RuneError, 1%nat)
      end
  end.

End Utf8.

(** [encoding/json]: the encoder behind [json.MarshalIndent], with the
    HTML escaping that [Marshal] and [MarshalIndent] always apply.

    The document is the JSON value the manifest holds; object members
    are kept in the order in which the encoder meets them.  Numbers are
    integers.

    The releases of the package do not write all strings alike; the
    two points on which they differ are kept as the parameter
    [Toolchain] of the encoder. *)
Module Json.

Inductive value : Type :=
| Null
| Bool (b : bool)
| Number (n : Z)
| Str (s : string)
| Array (elems : list value)
| Object (members : list (string * value)).

Definition chr (b : N) : ascii := ascii_of_N b.

Definition quote : ascii := chr 34.
Definition backslash : ascii := chr 92.
Definition newline : ascii := chr 10.
Definition space : ascii := chr 32.

(** [htmlSafeSet]: the ASCII bytes written as they are. *)
Definition htmlSafe (b : N) : bool :=
  (N.leb 0x20 b) && (N.ltb b 0x80) &&
  negb (N.eqb b 0x22 || N.eqb b 0x26 || N.eqb b 0x3C || N.eqb b 0x3E || N.eqb b 0x5C).

Definition hexN (n : N) : ascii := hexDigit (Z.of_N n).

(** The release of [encoding/json] that the tool is built with.

    - Backspace and form feed: up to Go 1.21 the encoder writes them as
      [\u0008] and [\u000c], from Go 1.22 on as [\b] and [\f].
    - A byte that is no valid UTF-8: written as the six characters
      [\ufffd], or, by the encoder that sits on [encoding/json/v2],
      as the three bytes of the character U+FFFD itself. *)
Class Toolchain : Type := mkToolchain {
  shortControlEscapes : bool;
  rawReplacementCharacter : bool
}.

(** Up to Go 1.21. *)
Definition go121 : Toolchain := mkToolchain false false.

(** From Go 1.22 on. *)
Definition go122 : Toolchain := mkToolchain true false.

(** The encoder on top of [encoding/json/v2]. *)
Definition goJsonV2 : Toolchain := mkToolchain true true.

Section WithToolchain.
Context {tc : Toolchain}.

(** The escape of an ASCII byte outside [htmlSafeSet]. *)
Definition escapeAscii (b : N) : list ascii :=
  if N.eqb b 0x5C || N.eqb b 0x22 then [backslash; chr b]
  else if N.eqb b 0x0A then [backslash; "n"%char]
  else if N.eqb b 0x0D then [backslash; "r"%char]
  else if N.eqb b 0x09 then [backslash; "t"%char]
  else if N.eqb b 0x08 && shortControlEscapes then [backslash; "b"%char]
  else if N.eqb b 0x0C && shortControlEscapes then [backslash; "f"%char]
  else [backslash; "u"%char; "0"%char; "0"%char;
        hexN (N.shiftr b 4); hexN (N.land b 0xF)].

(** What is written for a byte that is no valid UTF-8. *)
Definition replacement : list ascii :=
  if rawReplacementCharacter then [chr 0xEF; chr 0xBF; chr 0xBD]
  else backslash :: list_ascii_of_string "ufffd".

(** The loop of the string encoder.  A multi-byte sequence is dealt
    with at its lead byte; [skip] counts its remaining bytes, which
    the loop steps over. *)
Fixpoint encodeBytes (skip : nat) (src : list N) : list ascii :=
  match src with
  | [] => []
  | b :: rest =>
      match skip with
      | S k => encodeBytes k rest
      | O =>
          if N.ltb b 0x80 then
            (if htmlSafe b then [chr b] else escapeAscii b) ++ encodeBytes 0 rest
          else
            let '(c, size) := Utf8.decodeMultiByte b rest in
            if N.eqb c Utf8.RuneError && Nat.eqb size 1 then
              replacement ++ encodeBytes 0 rest
            else if N.eqb c 0x2028 || N.eqb c 0x2029 then
              [backslash; "u"%char; "2"%char; "0"%char; "2"%char; hexN (N.land c 0xF)]
                ++ encodeBytes (size - 1) rest
            else
              map chr (b :: firstn (size - 1) rest) ++ encodeBytes (size - 1) rest
      end
  end.

Definition encodeString (s : string) : list ascii :=
  quote :: encodeBytes 0 (map N_of_ascii (list_ascii_of_string s)) ++ [quote].

End WithToolchain.

Definition encodeInt (n : Z) : list ascii :=
  list_ascii_of_string (NilZero.string_of_int (Z.to_int n)).

Fixpoint repeatString (n : nat) (s : list ascii) : list ascii :=
  match n with
  | O => []
  | S k => s ++ repeatString k s
  end.

(** A line break followed by the prefix and [depth] indents. *)
Definition lineStart (prefix indent : string) (depth : nat) : list ascii :=
  newline :: list_ascii_of_string prefix
    ++ repeatString depth (list_ascii_of_string indent).

Section Indented.
Context {tc : Toolchain}.

Definition keyColon (k : string) : list ascii :=
  encodeString k ++ [":"%char; space].

Fixpoint encodeIndent (prefix indent : string) (depth : nat) (v : value) : list ascii :=
  match v with
  | Null => list_ascii_of_string "null"
  | Bool true => list_ascii_of_string "true"
  | Bool false => list_ascii_of_string "false"
  | Number n => encodeInt n
  | Str s => encodeString s
  | Array [] => list_ascii_of_string "[]"
  | Array (e :: es) =>
      "["%char :: lineStart prefix indent (S depth)
        ++ encodeIndent prefix indent (S depth) e
        ++ (fix tail (l : list value) : list ascii :=
              match l with
              | [] => []
              | x :: l' =>
                  ","%char :: lineStart prefix indent (S depth)
                    ++ encodeIndent prefix indent (S depth) x ++ tail l'
              end) es
        ++ lineStart prefix indent depth ++ ["]"%char]
  | Object [] => list_ascii_of_string "{}"
  | Object ((k, e) :: ms) =>
      "{"%char :: lineStart prefix indent (S depth)
        ++ keyColon k
        ++ encodeIndent prefix indent (S depth) e
        ++ (fix tail (l : list (string * value)) : list ascii :=
              match l with
              | [] => []
              | (k', x) :: l' =>
                  ","%char :: lineStart prefix indent (S depth)
                    ++ keyColon k'
                    ++ encodeIndent prefix indent (S depth) x ++ tail l'
              end) ms
        ++ lineStart prefix indent depth ++ ["}"%char]
  end.

(** [json.MarshalIndent(v, prefix, indent)]: the bytes and the error.
    The first line carries neither prefix nor indent.  The encoder has
    no failing case on a [value], so the error is always nil. *)
Definition MarshalIndent (v : value) (prefix indent : string) : string * option string :=
  (string_of_list_ascii (encodeIndent prefix indent 0 v), None).

End Indented.

End Json.

(** The layout of the encoding, said directly: used to state what
    [Json.encodeIndent] writes. *)
Module JsonLayout.
Import Json.


Section WithToolchain.
Context {tc : Toolchain}.



End WithToolchain.

(** Neither angle bracket. *)
Definition notAngle (c : ascii) : Prop := c <> "<"%char /\ c <> ">"%char.

(** Neither angle bracket nor line feed. *)
Definition plainChar (c : ascii) : Prop := notAngle c /\ c <> newline.

End JsonLayout.

(** ** Package [ostree] (types used by the construction functions) *)

Module Ostree.

(** [ostree.ImageOptions]: the user's OSTree options. *)
Record ImageOptions : Type := mkImageOptions {
  ImageRef : string;
  ParentRef : string;
  URL : string;
  ContentURL : string;
  RHSM : bool
}.

(** [ostree.SourceSpec]: a commit request. *)
Record SourceSpec : Type := mkSourceSpec {
  srcURL : string;
  srcRef : string;
  srcRHSM : bool
}.

(** The zero value [ostree.SourceSpec{}]. *)
Definition zeroSourceSpec : SourceSpec := mkSourceSpec "" "" false.

(** [ostree.CommitSpec]: a resolved commit. *)
Record CommitSpec : Type := mkCommitSpec {
  Ref : string;
  commitURL : string;
  Checksum : string;
  Secrets : string
}.

End Ostree.

(** ** Package [common]: release comparison *)

Module Common.
Local Open Scope N_scope.

(** A release: the rolling release, or the components of a
    dotted-decimal release string. *)
Inductive version : Type :=
| Rolling
| Dotted (components : list N).

(** The release string of the rolling stream. *)
Definition rollingToken : string := "9-stream".

Definition digitValue (c : ascii) : option N :=
  let n := N_of_ascii c in
  if (48 <=? n) && (n <=? 57) then Some (n - 48) else None.

(** The components of a dotted-decimal string; [cur] is the value of
    the digits read since the last dot, if any. *)
Fixpoint parseComponents (cur : option N) (s : string) : option (list N) :=
  match s with
  | EmptyString =>
      match cur with
      | Some n => Some [n]
      | None => None
      end
  | String c s' =>
      if Ascii.eqb c "."%char then
        match cur with
        | Some n => option_map (cons n) (parseComponents None s')
        | None => None
        end
      else
        match digitValue c with
        | Some d =>
            parseComponents
              (Some (10 * (match cur with Some n => n | None => 0 end) + d)) s'
        | None => None
        end
  end.

Definition parseVersion (s : string) : option version :=
  if String.eqb s rollingToken then Some Rolling
  else option_map Dotted (parseComponents None s).

(** Component-wise comparison, the first difference deciding; a
    proper prefix is the older release. *)
Fixpoint lexLess (a b : list N) : bool :=
  match a, b with
  | _, [] => false
  | [], _ :: _ => true
  | x :: a', y :: b' => (x <? y) || ((x =? y) && lexLess a' b')
  end.

(** The strict order on releases: nothing is newer than the rolling
    release. *)
Definition versionLess (a b : version) : bool :=
  match a, b with
  | Rolling, _ => false
  | Dotted _, Rolling => true
  | Dotted x, Dotted y => lexLess x y
  end.


(** Modelled from the spec: [common.VersionLessThan] is defined in
    [internal/common], which is not among the sources.  Section 4.3:
    version comparison is a total order over dotted-decimal release
    strings with a distinguished rolling token that always compares
    as newest.  A string that is neither has no place in the order;
    the result is then [None]. *)
Definition VersionLessThan (a b : string) : option bool :=
  match parseVersion a, parseVersion b with
  | Some va, Some vb => Some (versionLess va vb)
  | _, _ => None
  end.

(** A call of [VersionLessThan] inside a construction function. *)
Definition versionLessThan (a b : string) : result bool :=
  match VersionLessThan a b with
  | Some r => Ok r
  | None => Panic "malformed version"
  end.

End Common.

(** ** Package [osbuild]: stage options *)

Module Osbuild.

Record FirewallZone : Type := mkFirewallZone {
  Name : string;
  Sources : list string
}.

Record FirewallStageOptions : Type := mkFirewallStageOptions {
  Ports : list string;
  EnabledServices : list string;
  DisabledServices : list string;
  Zones : list FirewallZone
}.

Record ChronyConfigServer : Type := mkChronyConfigServer {
  Hostname : string
}.

Record OscapConfig : Type := mkOscapConfig {
  Datastream : string;
  ProfileID : string
}.

End Osbuild.

(** ** Collaborators outside the source tree

    The construction functions hand values of other packages around
    and call a few of their functions.  Their declarations are not part
    of the sources; they are the members of one interface, and every
    definition below is parametric in it. *)

Class External : Type := {
  (** [blueprint.UserCustomization], [blueprint.GroupCustomization] *)
  UserCustomization : Type;
  GroupCustomization : Type;
  (** [users.User], [users.Group] and the conversions to them *)
  User : Type;
  Group : Type;
  UsersFromBP : list UserCustomization -> list User;
  GroupsFromBP : list GroupCustomization -> list Group;
  (** [rpmmd.RepoConfig], [container.SourceSpec] *)
  RepoConfig : Type;
  ContainerSourceSpec : Type;
  (** directory, file and repository customizations of the blueprint,
      and the file-system nodes and stage options made from them *)
  DirectoryCustomization : Type;
  FileCustomization : Type;
  RepositoryCustomization : Type;
  FsNodeDirectory : Type;
  FsNodeFile : Type;
  YumReposStageOptions : Type;
  DirectoryCustomizationsToFsNodeDirectories :
    list DirectoryCustomization -> result (list FsNodeDirectory);
  FileCustomizationsToFsNodeFiles :
    list FileCustomization -> result (list FsNodeFile);
  (** The first component lists the entries of the returned map in the
      order in which a [range] statement visits them. *)
  RepoCustomizationsToRepoConfigAndGPGKeyFiles :
    list RepositoryCustomization ->
    result (list (string * list RepoConfig) * list FsNodeFile);
  NewYumReposStageOptions : string -> list RepoConfig -> YumReposStageOptions;
  (** [osbuild.OscapRemediationStageOptions] and its constructor *)
  OscapRemediationStageOptions : Type;
  NewOscapRemediationStageOptions : Osbuild.OscapConfig -> OscapRemediationStageOptions;
  (** [oscap.DefaultFedoraDatastream], [oscap.DefaultRHEL9Datastream] *)
  DefaultFedoraDatastream : string;
  DefaultRHEL9Datastream : bool -> string;
  (** [facts.APIType], [subscription.ImageOptions] *)
  APIType : Type;
  SubscriptionImageOptions : Type;
  (** The keys of the package-set map, constants of the distro
      packages. *)
  osPkgsKey : string;
  installerPkgsKey : string;
  containerPkgsKey : string
}.

(** ** Package [blueprint]: the user's customizations *)

Module Blueprint.

Record KernelCustomization : Type := mkKernel {
  Name : string;
  Append : string
}.

Record FirewallServicesCustomization : Type := mkFirewallServices {
  Enabled : list string;
  Disabled : list string
}.

Record FirewallZoneCustomization : Type := mkFirewallZone {
  zoneName : option string;
  zoneSources : list string
}.

Record FirewallCustomization : Type := mkFirewall {
  Ports : list string;
  Services : option FirewallServicesCustomization;
  Zones : list FirewallZoneCustomization
}.

Record OpenSCAPCustomization : Type := mkOpenSCAP {
  DataStream : string;
  ProfileID : string
}.

Section WithExternal.
Context {ext : External}.

(** [*blueprint.Customizations], seen through its accessor methods:
    each field is the value the method of that name returns.  The
    methods are defined on the pointer and also answer for a nil
    one. *)
Record Customizations : Type := mkCustomizations {
  GetKernel : option KernelCustomization;
  GetGroups : list GroupCustomization;
  GetUsers : list UserCustomization;
  GetFirewall : option FirewallCustomization;
  GetPrimaryLocale : option string * option string;
  GetHostname : option string;
  GetTimezoneSettings : option string * list string;
  GetOpenSCAP : option OpenSCAPCustomization;
  GetDirectories : list DirectoryCustomization;
  GetFiles : list FileCustomization;
  GetRepositories : result (list RepositoryCustomization)
}.

End WithExternal.

End Blueprint.

(** ** Package [rpmmd] *)

Module Rpmmd.
Section WithExternal.
Context {ext : External}.

Record PackageSet : Type := mkPackageSet {
  Include : list string;
  Exclude : list string;
  Repositories : list RepoConfig
}.

End WithExternal.
End Rpmmd.

(** ** Package [distro]: default image configuration and build options *)

Module Distro.

Record X11KeymapOptions : Type := mkX11Keymap {
  Layouts : list string
}.

Record KeyboardOptions : Type := mkKeyboard {
  Keymap : string;
  X11Keymap : option X11KeymapOptions
}.

Record TimeSynchronizationOptions : Type := mkTimeSynchronization {
  Servers : list Osbuild.ChronyConfigServer;
  LeapsecTz : option string
}.

Section WithExternal.
Context {ext : External}.

(** [distro.ImageConfig], the default configuration of an image
    type.  The stage-option blocks that the merge copies without
    looking at them ([ShellInit], [Grub2Config], [Sysconfig] and
    the like) are left out. *)
Record ImageConfig : Type := mkImageConfig {
  GPGKeyFiles : list string;
  ExcludeDocs : option bool;
  EnabledServices : list string;
  DisabledServices : list string;
  DefaultTarget : option string;
  Firewall : option Osbuild.FirewallStageOptions;
  Locale : option string;
  Keyboard : option KeyboardOptions;
  Timezone : option string;
  TimeSynchronization : option TimeSynchronizationOptions;
  NoSElinux : option bool;
  YUMRepos : list YumReposStageOptions
}.

Record FactsImageOptions : Type := mkFacts {
  FactsAPIType : APIType
}.

(** [distro.ImageOptions] *)
Record ImageOptions : Type := mkImageOptions {
  OSTree : option Ostree.ImageOptions;
  Facts : option FactsImageOptions;
  Subscription : option SubscriptionImageOptions
}.

End WithExternal.

End Distro.

(** ** Package [manifest]: the normalized OS customizations *)

Module Manifest.
Section WithExternal.
Context {ext : External}.

(** [manifest.OSCustomizations], without the stage-option blocks
    left out of [Distro.ImageConfig]. *)
Record OSCustomizations : Type := mkOSCustomizations {
  KernelName : string;
  KernelOptionsAppend : list string;
  ExtraBasePackages : list string;
  ExcludeBasePackages : list string;
  ExtraBaseRepos : list RepoConfig;
  Containers : list ContainerSourceSpec;
  GPGKeyFiles : list string;
  ExcludeDocs : bool;
  Groups : list Group;
  Users : list User;
  EnabledServices : list string;
  DisabledServices : list string;
  DefaultTarget : string;
  Firewall : option Osbuild.FirewallStageOptions;
  Language : string;
  Keyboard : option string;
  X11KeymapLayouts : list string;
  Hostname : string;
  Timezone : string;
  NTPServers : list Osbuild.ChronyConfigServer;
  LeapSecTZ : option string;
  SElinux : string;
  OpenSCAPConfig : option OscapRemediationStageOptions;
  FactAPIType : option APIType;
  Directories : list FsNodeDirectory;
  Files : list FsNodeFile;
  YUMRepos : list YumReposStageOptions;
  Subscription : option SubscriptionImageOptions
}.

(** [EnabledServices = append(EnabledServices, more...)] *)
Definition appendEnabledServices (osc : OSCustomizations) (more : list string)
    : OSCustomizations :=
  mkOSCustomizations
    (KernelName osc) (KernelOptionsAppend osc) (ExtraBasePackages osc)
    (ExcludeBasePackages osc) (ExtraBaseRepos osc) (Containers osc)
    (GPGKeyFiles osc) (ExcludeDocs osc) (Groups osc) (Users osc)
    (EnabledServices osc ++ more) (DisabledServices osc) (DefaultTarget osc)
    (Firewall osc) (Language osc) (Keyboard osc) (X11KeymapLayouts osc)
    (Hostname osc) (Timezone osc) (NTPServers osc) (LeapSecTZ osc)
    (SElinux osc) (OpenSCAPConfig osc) (FactAPIType osc) (Directories osc)
    (Files osc) (YUMRepos osc) (Subscription osc).

End WithExternal.
End Manifest.

(** ** Package [image]: the image kinds the construction functions fill

    Each record lists the fields the construction functions assign,
    apart from the platform, environment, workload, compression and
    partition table, which are handed over untouched.  A constructor
    [image.NewX] returns the record with every field at its zero
    value. *)

Module Image.

Module AnacondaLiveInstaller.
Section WithExternal.
Context {ext : External}.
Record t : Type := mk {
  AdditionalKernelOpts : list string;
  ExtraBasePackages : Rpmmd.PackageSet;
  ISOLabelTempl : string;
  Product : string;
  OSName : string;
  OSVersion : string;
  Release : string;
  Filename : string
}.
End WithExternal.
End AnacondaLiveInstaller.

Module AnacondaTarInstaller.
Section WithExternal.
Context {ext : External}.
Record t : Type := mk {
  AdditionalAnacondaModules : list string;
  AdditionalKernelOpts : list string;
  AdditionalDracutModules : list string;
  AdditionalDrivers : list string;
  OSCustomizations : Manifest.OSCustomizations;
  ExtraBasePackages : Rpmmd.PackageSet;
  Users : list User;
  Groups : list Group;
  SquashfsCompression : string;
  ISORootKickstart : bool;
  ISOLabelTempl : string;
  Product : string;
  OSName : string;
  OSVersion : string;
  Release : string;
  Filename : string
}.
End WithExternal.
End AnacondaTarInstaller.

Module AnacondaOSTreeInstaller.
Section WithExternal.
Context {ext : External}.
Record t : Type := mk {
  Commit : Ostree.SourceSpec;
  ExtraBasePackages : Rpmmd.PackageSet;
  Users : list User;
  Groups : list Group;
  AdditionalAnacondaModules : list string;
  AdditionalDracutModules : list string;
  AdditionalDrivers : list string;
  SquashfsCompression : string;
  ISOLabelTempl : string;
  Product : string;
  Variant : string;
  OSName : string;
  OSVersion : string;
  Release : string;
  Filename : string
}.
End WithExternal.
End AnacondaOSTreeInstaller.

Module OSTreeArchive.
Section WithExternal.
Context {ext : External}.
Record t : Type := mk {
  CommitRef : string;
  OSCustomizations : Manifest.OSCustomizations;
  OSTreeParent : option Ostree.SourceSpec;
  OSVersion : string;
  Filename : string
}.
End WithExternal.
End OSTreeArchive.

End Image.

(** The Anaconda module that stages users and groups. *)
Definition usersModule : string := "org.fedoraproject.Anaconda.Modules.Users".

(** [fmt.Sprintf("%s %s", a, b)] *)
Definition sprintfPair (a b : string) : string := a ++ " " ++ b.

(** [fmt.Errorf("%s: %s", name, err.Error())] around a call. *)
Definition wrapError {A : Type} (name : string) (m : result A) : result A :=
  match m with
  | Ok a => Ok a
  | Err e => Err (name ++ ": " ++ e)
  | Panic p => Panic p
  end.

(** ** Package [fedora] *)

Module Fedora.
Local Open Scope go_scope.

Section WithExternal.
Context {ext : External}.

(** The distribution an image type belongs to: [Name()],
    [Releasever()] and the fields read through [t.arch.distro]. *)
Record distribution : Type := mkDistribution {
  distroName : string;
  releasever : string;
  product : string;
  osVersion : string;
  isolabelTmpl : string
}.

(** The image type descriptor: [Name()], [Filename()] and
    [OSTreeRef()] are the values of those methods,
    [defaultImageConfig] is what [getDefaultImageConfig()]
    returns. *)
Record imageType : Type := mkImageType {
  name : string;
  filename : string;
  ostreeRef : string;
  bootable : bool;
  rpmOstree : bool;
  bootISO : bool;
  kernelOptions : string;
  defaultImageConfig : Distro.ImageConfig;
  distro : distribution
}.

(** The firewall stage options made from the user's firewall
    customization. *)
Definition firewallOptions (fw : Blueprint.FirewallCustomization)
    : Osbuild.FirewallStageOptions :=
  let options := Osbuild.mkFirewallStageOptions (Blueprint.Ports fw) [] [] [] in
  match Blueprint.Services fw with
  | Some services =>
      Osbuild.mkFirewallStageOptions (Osbuild.Ports options)
        (Blueprint.Enabled services) (Blueprint.Disabled services)
        (Osbuild.Zones options)
  | None => options
  end.

Definition osCustomizations (t : imageType) (osPackageSet : Rpmmd.PackageSet)
    (containers : list ContainerSourceSpec) (c : Blueprint.Customizations)
    : result Manifest.OSCustomizations :=
  let imageConfig := defaultImageConfig t in
  ' (kernelName, kernelOptionsAppend) <-
    (if bootable t || rpmOstree t then
       match Blueprint.GetKernel c with
       | None => Panic nilDereference
       | Some bpKernel =>
           Ok (Blueprint.Name bpKernel,
               appendNonEmpty (appendNonEmpty [] (kernelOptions t))
                 (Blueprint.Append bpKernel))
       end
     else Ok ("", [])) ;;
  let excludeDocs :=
    match Distro.ExcludeDocs imageConfig with
    | Some b => b
    | None => false
    end in
  let '(groups, users) :=
    if negb (bootISO t) then
      (* don't put users and groups in the payload of an installer *)
      (GroupsFromBP (Blueprint.GetGroups c), UsersFromBP (Blueprint.GetUsers c))
    else ([], []) in
  let defaultTarget :=
    match Distro.DefaultTarget imageConfig with
    | Some s => s
    | None => ""
    end in
  let firewall :=
    match Blueprint.GetFirewall c with
    | Some fw => Some (firewallOptions fw)
    | None => None
    end in
  let '(language, keyboard) := Blueprint.GetPrimaryLocale c in
  let oscLanguage :=
    match language with
    | Some l => l
    | None =>
        match Distro.Locale imageConfig with
        | Some l => l
        | None => ""
        end
    end in
  let oscKeyboard :=
    match keyboard with
    | Some k => Some k
    | None =>
        match Distro.Keyboard imageConfig with
        | Some kb => Some (Distro.Keymap kb)
        | None => None
        end
    end in
  let hostname :=
    match Blueprint.GetHostname c with
    | Some h => h
    | None => "localhost.localdomain"
    end in
  let '(timezone, ntpServers) := Blueprint.GetTimezoneSettings c in
  let oscTimezone :=
    match timezone with
    | Some z => z
    | None =>
        match Distro.Timezone imageConfig with
        | Some z => z
        | None => ""
        end
    end in
  let oscNTPServers :=
    if (0 <? List.length ntpServers)%nat then
      map Osbuild.mkChronyConfigServer ntpServers
    else
      match Distro.TimeSynchronization imageConfig with
      | Some ts => Distro.Servers ts
      | None => []
      end in
  (* Relabel the tree, unless the NoSElinux flag is explicitly set to true *)
  let selinux :=
    match Distro.NoSElinux imageConfig with
    | None => "targeted"
    | Some b => if negb b then "targeted" else ""
    end in
  openSCAPConfig <-
    match Blueprint.GetOpenSCAP c with
    | Some oscapConfig =>
        if rpmOstree t then Panic "unexpected oscap options for ostree image type"
        else
          let datastream := Blueprint.DataStream oscapConfig in
          let datastream :=
            if negb (nonEmpty datastream) then DefaultFedoraDatastream
            else datastream in
          Ok (Some (NewOscapRemediationStageOptions
                (Osbuild.mkOscapConfig datastream (Blueprint.ProfileID oscapConfig))))
    | None => Ok None
    end ;;
  directories <-
    orPanic "failed to convert directory customizations to fs node directories: "
      (DirectoryCustomizationsToFsNodeDirectories (Blueprint.GetDirectories c)) ;;
  files <-
    orPanic "failed to convert file customizations to fs node files: "
      (FileCustomizationsToFsNodeFiles (Blueprint.GetFiles c)) ;;
  customRepos <-
    orPanic "failed to get custom repos: " (Blueprint.GetRepositories c) ;;
  ' (yumRepos, gpgKeyFiles) <-
    orPanic "failed to convert inline gpgkeys to fs node files: "
      (RepoCustomizationsToRepoConfigAndGPGKeyFiles customRepos) ;;
  (* add the gpg key files to the list of files to be added to the tree *)
  let files :=
    if (0 <? List.length gpgKeyFiles)%nat then files ++ gpgKeyFiles else files in
  let oscYUMRepos :=
    map (fun entry => NewYumReposStageOptions (fst entry) (snd entry)) yumRepos in
  Ok (Manifest.mkOSCustomizations
        kernelName kernelOptionsAppend
        (Rpmmd.Include osPackageSet) (Rpmmd.Exclude osPackageSet)
        (Rpmmd.Repositories osPackageSet)
        containers
        (Distro.GPGKeyFiles imageConfig) excludeDocs
        groups users
        (Distro.EnabledServices imageConfig) (Distro.DisabledServices imageConfig)
        defaultTarget firewall oscLanguage oscKeyboard [] hostname
        oscTimezone oscNTPServers None selinux openSCAPConfig None
        directories files oscYUMRepos None).

(** [makeOSTreeParentCommit]: the parent commit request, if any, and
    the ref of the commit to be created. *)
Definition makeOSTreeParentCommit (options : option Ostree.ImageOptions)
    (defaultRef : string) : option Ostree.SourceSpec * string :=
  let commitRef := defaultRef in
  match options with
  | None =>
      (* nothing to do *)
      (None, commitRef)
  | Some o =>
      let commitRef :=
        (* user option overrides default commit ref *)
        if nonEmpty (Ostree.ImageRef o) then Ostree.ImageRef o else commitRef in
      if negb (nonEmpty (Ostree.URL o)) then
        (* no parent *)
        (None, commitRef)
      else
        let parentRef := Ostree.ParentRef o in
        let parentRef :=
          (* parent ref not set: use image ref *)
          if negb (nonEmpty parentRef) then commitRef else parentRef in
        (Some (Ostree.mkSourceSpec (Ostree.URL o) parentRef (Ostree.RHSM o)),
         commitRef)
  end.

(** [makeOSTreePayloadCommit]: the payload commit request. *)
Definition makeOSTreePayloadCommit (options : option Ostree.ImageOptions)
    (defaultRef : string) : result Ostree.SourceSpec :=
  match options with
  | None => Err "ostree commit URL required"
  | Some o =>
      if negb (nonEmpty (Ostree.URL o)) then Err "ostree commit URL required"
      else
        let commitRef := defaultRef in
        let commitRef :=
          if nonEmpty (Ostree.ImageRef o) then Ostree.ImageRef o else commitRef in
        Ok (Ostree.mkSourceSpec (Ostree.URL o) commitRef (Ostree.RHSM o))
  end.


Definition imageInstallerImage (t : imageType)
    (customizations : Blueprint.Customizations) (options : Distro.ImageOptions)
    (packageSets : string -> Rpmmd.PackageSet)
    (containers : list ContainerSourceSpec)
    : result Image.AnacondaTarInstaller.t :=
  (* Enable anaconda-webui for Fedora > 38 *)
  webui <-
    (if Strings.HasPrefix (distroName (distro t)) "fedora" then
       older <- Common.versionLessThan (releasever (distro t)) "38" ;;
       Ok (negb older)
     else Ok false) ;;
  let '(additionalAnacondaModules, additionalKernelOpts) :=
    if (webui : bool) then
      (["org.fedoraproject.Anaconda.Modules.Security";
        "org.fedoraproject.Anaconda.Modules.Timezone";
        "org.fedoraproject.Anaconda.Modules.Localization"],
       ["inst.webui"; "inst.webui.remote"])
    else ([], []) in
  let additionalAnacondaModules := additionalAnacondaModules ++ [usersModule] in
  osc <- osCustomizations t (packageSets osPkgsKey) containers customizations ;;
  let d := distro t in
  Ok (Image.AnacondaTarInstaller.mk
        additionalAnacondaModules additionalKernelOpts [] []
        osc
        (packageSets installerPkgsKey)
        (UsersFromBP (Blueprint.GetUsers customizations))
        (GroupsFromBP (Blueprint.GetGroups customizations))
        "lz4" false
        (isolabelTmpl d) (product d) "fedora" (osVersion d)
        (sprintfPair (product d) (osVersion d))
        (filename t)).

Definition iotCommitImage (t : imageType)
    (customizations : Blueprint.Customizations) (options : Distro.ImageOptions)
    (packageSets : string -> Rpmmd.PackageSet)
    (containers : list ContainerSourceSpec)
    : result Image.OSTreeArchive.t :=
  let '(parentCommit, commitRef) :=
    makeOSTreeParentCommit (Distro.OSTree options) (ostreeRef t) in
  osc <- osCustomizations t (packageSets osPkgsKey) containers customizations ;;
  Ok (Image.OSTreeArchive.mk commitRef osc parentCommit
        (osVersion (distro t)) (filename t)).

Definition iotInstallerImage (t : imageType)
    (customizations : Blueprint.Customizations) (options : Distro.ImageOptions)
    (packageSets : string -> Rpmmd.PackageSet)
    (containers : list ContainerSourceSpec)
    : result Image.AnacondaOSTreeInstaller.t :=
  let d := distro t in
  commit <-
    wrapError (name t) (makeOSTreePayloadCommit (Distro.OSTree options) (ostreeRef t)) ;;
  Ok (Image.AnacondaOSTreeInstaller.mk
        commit
        (packageSets installerPkgsKey)
        (UsersFromBP (Blueprint.GetUsers customizations))
        (GroupsFromBP (Blueprint.GetGroups customizations))
        ["org.fedoraproject.Anaconda.Modules.Timezone";
         "org.fedoraproject.Anaconda.Modules.Localization";
         "org.fedoraproject.Anaconda.Modules.Users"]
        [] []
        "lz4"
        (isolabelTmpl d) (product d) "IoT" "fedora" (osVersion d)
        (sprintfPair (product d) (osVersion d))
        (filename t)).

End WithExternal.
End Fedora.

(** ** Package [rhel9] *)

Module Rhel9.
Local Open Scope go_scope.

Section WithExternal.
Context {ext : External}.

(** The distribution: the fields read through [t.arch.distro] and
    the value of its method [isRHEL()]. *)
Record distribution : Type := mkDistribution {
  product : string;
  osVersion : string;
  isolabelTmpl : string;
  isRHEL : bool
}.

Record imageType : Type := mkImageType {
  name : string;
  filename : string;
  ostreeRef : string;
  bootable : bool;
  rpmOstree : bool;
  bootISO : bool;
  kernelOptions : string;
  defaultImageConfig : Distro.ImageConfig;
  distro : distribution
}.

(** The loop over the user's firewall zones; a zone without a name
    stops it with the runtime panic of [*z.Name]. *)
Fixpoint firewallZones (zones : list Blueprint.FirewallZoneCustomization)
    (acc : list Osbuild.FirewallZone) : result (list Osbuild.FirewallZone) :=
  match zones with
  | [] => Ok acc
  | z :: rest =>
      match Blueprint.zoneName z with
      | None => Panic nilDereference
      | Some n =>
          firewallZones rest
            (acc ++ [Osbuild.mkFirewallZone n (Blueprint.zoneSources z)])
      end
  end.

(** The firewall stage options made from the user's firewall
    customization. *)
Definition firewallOptions (fw : Blueprint.FirewallCustomization)
    : result Osbuild.FirewallStageOptions :=
  let options := Osbuild.mkFirewallStageOptions (Blueprint.Ports fw) [] [] [] in
  let options :=
    match Blueprint.Services fw with
    | Some services =>
        Osbuild.mkFirewallStageOptions (Osbuild.Ports options)
          (Blueprint.Enabled services) (Blueprint.Disabled services)
          (Osbuild.Zones options)
    | None => options
    end in
  zones <- firewallZones (Blueprint.Zones fw) (Osbuild.Zones options) ;;
  Ok (Osbuild.mkFirewallStageOptions (Osbuild.Ports options)
        (Osbuild.EnabledServices options) (Osbuild.DisabledServices options)
        zones).

Definition osCustomizations (t : imageType) (osPackageSet : Rpmmd.PackageSet)
    (options : Distro.ImageOptions)
    (containers : list ContainerSourceSpec) (c : Blueprint.Customizations)
    : result Manifest.OSCustomizations :=
  let imageConfig := defaultImageConfig t in
  ' (kernelName, kernelOptionsAppend) <-
    (if bootable t || rpmOstree t then
       match Blueprint.GetKernel c with
       | None => Panic nilDereference
       | Some bpKernel =>
           Ok (Blueprint.Name bpKernel,
               appendNonEmpty (appendNonEmpty [] (kernelOptions t))
                 (Blueprint.Append bpKernel))
       end
     else Ok ("", [])) ;;
  let excludeDocs :=
    match Distro.ExcludeDocs imageConfig with
    | Some b => b
    | None => false
    end in
  let '(groups, users) :=
    if negb (bootISO t) then
      (* don't put users and groups in the payload of an installer *)
      (GroupsFromBP (Blueprint.GetGroups c), UsersFromBP (Blueprint.GetUsers c))
    else ([], []) in
  let defaultTarget :=
    match Distro.DefaultTarget imageConfig with
    | Some s => s
    | None => ""
    end in
  firewall <-
    match Blueprint.GetFirewall c with
    | Some fw =>
        fwOptions <- firewallOptions fw ;;
        Ok (Some fwOptions)
    | None => Ok (Distro.Firewall imageConfig)
    end ;;
  let '(language, keyboard) := Blueprint.GetPrimaryLocale c in
  let oscLanguage :=
    match language with
    | Some l => l
    | None =>
        match Distro.Locale imageConfig with
        | Some l => l
        | None => ""
        end
    end in
  let '(oscKeyboard, x11KeymapLayouts) :=
    match keyboard with
    | Some k => (Some k, [])
    | None =>
        match Distro.Keyboard imageConfig with
        | Some kb =>
            (Some (Distro.Keymap kb),
             match Distro.X11Keymap kb with
             | Some x11 => Distro.Layouts x11
             | None => []
             end)
        | None => (None, [])
        end
    end in
  let hostname :=
    match Blueprint.GetHostname c with
    | Some h => h
    | None => ""
    end in
  let '(timezone, ntpServers) := Blueprint.GetTimezoneSettings c in
  let oscTimezone :=
    match timezone with
    | Some z => z
    | None =>
        match Distro.Timezone imageConfig with
        | Some z => z
        | None => ""
        end
    end in
  let '(oscNTPServers, leapSecTZ) :=
    if (0 <? List.length ntpServers)%nat then
      (map Osbuild.mkChronyConfigServer ntpServers, None)
    else
      match Distro.TimeSynchronization imageConfig with
      | Some ts => (Distro.Servers ts, Distro.LeapsecTz ts)
      | None => ([], None)
      end in
  (* Relabel the tree, unless the NoSElinux flag is explicitly set to true *)
  let selinux :=
    match Distro.NoSElinux imageConfig with
    | None => "targeted"
    | Some b => if negb b then "targeted" else ""
    end in
  openSCAPConfig <-
    match Blueprint.GetOpenSCAP c with
    | Some oscapConfig =>
        if rpmOstree t then Panic "unexpected oscap options for ostree image type"
        else
          let datastream := Blueprint.DataStream oscapConfig in
          let datastream :=
            if negb (nonEmpty datastream) then
              DefaultRHEL9Datastream (isRHEL (distro t))
            else datastream in
          Ok (Some (NewOscapRemediationStageOptions
                (Osbuild.mkOscapConfig datastream (Blueprint.ProfileID oscapConfig))))
    | None => Ok None
    end ;;
  let factAPIType :=
    if isRHEL (distro t) then
      match Distro.Facts options with
      | Some facts => Some (Distro.FactsAPIType facts)
      | None => None
      end
    else None in
  directories <-
    orPanic "failed to convert directory customizations to fs node directories: "
      (DirectoryCustomizationsToFsNodeDirectories (Blueprint.GetDirectories c)) ;;
  files <-
    orPanic "failed to convert file customizations to fs node files: "
      (FileCustomizationsToFsNodeFiles (Blueprint.GetFiles c)) ;;
  (* set yum repos first, so it doesn't get overridden by imageConfig.YUMRepos *)
  let oscYUMRepos := Distro.YUMRepos imageConfig in
  customRepos <-
    orPanic "failed to get custom repos: " (Blueprint.GetRepositories c) ;;
  ' (yumRepos, gpgKeyFiles) <-
    orPanic "failed to convert inline gpgkeys to fs node files: "
      (RepoCustomizationsToRepoConfigAndGPGKeyFiles customRepos) ;;
  (* add the gpg key files to the list of files to be added to the tree *)
  let files :=
    if (0 <? List.length gpgKeyFiles)%nat then files ++ gpgKeyFiles else files in
  let oscYUMRepos :=
    oscYUMRepos ++
    map (fun entry => NewYumReposStageOptions (fst entry) (snd entry)) yumRepos in
  Ok (Manifest.mkOSCustomizations
        kernelName kernelOptionsAppend
        (Rpmmd.Include osPackageSet) (Rpmmd.Exclude osPackageSet)
        (Rpmmd.Repositories osPackageSet)
        containers
        (Distro.GPGKeyFiles imageConfig) excludeDocs
        groups users
        (Distro.EnabledServices imageConfig) (Distro.DisabledServices imageConfig)
        defaultTarget firewall oscLanguage oscKeyboard x11KeymapLayouts hostname
        oscTimezone oscNTPServers leapSecTZ selinux openSCAPConfig factAPIType
        directories files oscYUMRepos (Distro.Subscription options)).

(** [makeOSTreeParentCommit], as in package [fedora]. *)
Definition makeOSTreeParentCommit (options : option Ostree.ImageOptions)
    (defaultRef : string) : option Ostree.SourceSpec * string :=
  let commitRef := defaultRef in
  match options with
  | None => (None, commitRef)
  | Some o =>
      let commitRef :=
        if nonEmpty (Ostree.ImageRef o) then Ostree.ImageRef o else commitRef in
      if negb (nonEmpty (Ostree.URL o)) then (None, commitRef)
      else
        let parentRef := Ostree.ParentRef o in
        let parentRef :=
          if negb (nonEmpty parentRef) then commitRef else parentRef in
        (Some (Ostree.mkSourceSpec (Ostree.URL o) parentRef (Ostree.RHSM o)),
         commitRef)
  end.

(** [makeOSTreePayloadCommit], as in package [fedora]. *)
Definition makeOSTreePayloadCommit (options : option Ostree.ImageOptions)
    (defaultRef : string) : result Ostree.SourceSpec :=
  match options with
  | None => Err "ostree commit URL required"
  | Some o =>
      if negb (nonEmpty (Ostree.URL o)) then Err "ostree commit URL required"
      else
        let commitRef := defaultRef in
        let commitRef :=
          if nonEmpty (Ostree.ImageRef o) then Ostree.ImageRef o else commitRef in
        Ok (Ostree.mkSourceSpec (Ostree.URL o) commitRef (Ostree.RHSM o))
  end.

(** The gate of the features introduced with release 9.2:
    [!common.VersionLessThan(osVersion, "9.2") || osVersion == "9-stream"]. *)
Definition since92 (t : imageType) : result bool :=
  older <- Common.versionLessThan (osVersion (distro t)) "9.2" ;;
  Ok (negb older || String.eqb (osVersion (distro t)) "9-stream").

Definition edgeCommitImage (t : imageType)
    (customizations : Blueprint.Customizations) (options : Distro.ImageOptions)
    (packageSets : string -> Rpmmd.PackageSet)
    (containers : list ContainerSourceSpec)
    : result Image.OSTreeArchive.t :=
  let '(parentCommit, commitRef) :=
    makeOSTreeParentCommit (Distro.OSTree options) (ostreeRef t) in
  osc <- osCustomizations t (packageSets osPkgsKey) options containers customizations ;;
  enabled <- since92 t ;;
  let osc :=
    if (enabled : bool) then
      Manifest.appendEnabledServices osc
        ["ignition-firstboot-complete.service";
         "coreos-ignition-write-issues.service"]
    else osc in
  Ok (Image.OSTreeArchive.mk commitRef osc parentCommit
        (osVersion (distro t)) (filename t)).

Definition edgeInstallerImage (t : imageType)
    (customizations : Blueprint.Customizations) (options : Distro.ImageOptions)
    (packageSets : string -> Rpmmd.PackageSet)
    (containers : list ContainerSourceSpec)
    : result Image.AnacondaOSTreeInstaller.t :=
  let d := distro t in
  commit <-
    wrapError (name t) (makeOSTreePayloadCommit (Distro.OSTree options) (ostreeRef t)) ;;
  let imgUsers := UsersFromBP (Blueprint.GetUsers customizations) in
  let imgGroups := GroupsFromBP (Blueprint.GetGroups customizations) in
  let additionalAnacondaModules :=
    if (0 <? List.length imgUsers + List.length imgGroups)%nat then
      (* only enable the users module if needed *)
      [usersModule]
    else [] in
  Ok (Image.AnacondaOSTreeInstaller.mk
        commit
        (packageSets installerPkgsKey)
        imgUsers imgGroups
        additionalAnacondaModules
        ["nvdimm"; "prefixdevname"; "prefixdevname-tools"]
        ["cuse"; "ipmi_devintf"; "ipmi_msghandler"]
        "xz"
        (isolabelTmpl d) (product d) "edge" "rhel" (osVersion d)
        (sprintfPair (product d) (osVersion d))
        (filename t)).

Definition imageInstallerImage (t : imageType)
    (customizations : Blueprint.Customizations) (options : Distro.ImageOptions)
    (packageSets : string -> Rpmmd.PackageSet)
    (containers : list ContainerSourceSpec)
    : result Image.AnacondaTarInstaller.t :=
  osc <- osCustomizations t (packageSets osPkgsKey) options containers customizations ;;
  let d := distro t in
  Ok (Image.AnacondaTarInstaller.mk
        [usersModule] []
        ["nvdimm"; "prefixdevname"; "prefixdevname-tools"]
        ["cuse"; "ipmi_devintf"; "ipmi_msghandler"]
        osc
        (packageSets installerPkgsKey)
        (UsersFromBP (Blueprint.GetUsers customizations))
        (GroupsFromBP (Blueprint.GetGroups customizations))
        "xz" true
        (isolabelTmpl d) (product d) "redhat" (osVersion d)
        (sprintfPair (product d) (osVersion d))
        (filename t)).

End WithExternal.
End Rhel9.

(** ** The build tool: OSTree resolver and manifest writer *)

Module BuildTool.

(** [resolveCommit]: "resolve" an ostree commit by hashing the URL
    and the ref, which gives a commit ID in a deterministic way. *)
Definition resolveCommit (commitSource : Ostree.SourceSpec) : Ostree.CommitSpec :=
  let checksum :=
    hexString (Sha256.Sum256 (Ostree.srcURL commitSource ++ Ostree.srcRef commitSource)) in
  let spec :=
    Ostree.mkCommitSpec (Ostree.srcRef commitSource) (Ostree.srcURL commitSource)
      checksum "" in
  if Ostree.srcRHSM commitSource then
    Ostree.mkCommitSpec (Ostree.Ref spec) (Ostree.commitURL spec) (Ostree.Checksum spec)
      "org.osbuild.rhsm.consumer"
  else spec.

(** [resolvePipelineCommits], the map of pipelines given by its
    entries. *)
Definition resolvePipelineCommits
    (commitSources : list (string * list Ostree.SourceSpec))
    : list (string * list Ostree.CommitSpec) :=
  map (fun entry => (fst entry, map resolveCommit (snd entry))) commitSources.

(** What the operating system answers to [save]: the error of
    [os.Create] and the error of [fp.Write], if any. *)
Record osAnswers : Type := mkOsAnswers {
  createError : option string;
  writeError : option string
}.

(** What [save] asks of the operating system. *)
Inductive osCall : Type :=
| Create (fpath : string)
| WriteBytes (fpath : string) (b : string)
| Close (fpath : string).

(** The three failures [save] reports; each keeps the path and the
    text of the error underneath. *)
Inductive saveError : Type :=
| FailedToMarshal (fpath : string) (cause : string)
| FailedToCreate (fpath : string) (cause : string)
| FailedToWrite (fpath : string) (cause : string).

(** [save]: the calls made, in order, and the error returned; the
    bytes are those of the [encoding/json] the tool is built with. *)
Definition save {tc : Json.Toolchain} (ms : Json.value) (fpath : string) (os : osAnswers)
    : list osCall * option saveError :=
  match Json.MarshalIndent ms "" "  " with
  | (_, Some e) => ([], Some (FailedToMarshal fpath e))
  | (b, None) =>
      (* add new line at end of file *)
      let b := (b ++ String Json.newline "")%string in
      match createError os with
      | Some e => ([Create fpath], Some (FailedToCreate fpath e))
      | None =>
          match writeError os with
          | Some e =>
              ([Create fpath; WriteBytes fpath b; Close fpath],
               Some (FailedToWrite fpath e))
          | None => ([Create fpath; WriteBytes fpath b; Close fpath], None)
          end
      end
  end.

End BuildTool.

(** ** A concrete set of collaborators, for running the model

    Users, groups, repositories and file-system nodes are named by a
    string, the conversions keep their argument, and the repository
    conversion returns no repository file and no key file. *)

Definition plainExternal : External := {|
  UserCustomization := string;
  GroupCustomization := string;
  User := string;
  Group := string;
  UsersFromBP := fun l => l;
  GroupsFromBP := fun l => l;
  RepoConfig := string;
  ContainerSourceSpec := string;
  DirectoryCustomization := string;
  FileCustomization := string;
  RepositoryCustomization := string;
  FsNodeDirectory := string;
  FsNodeFile := string;
  YumReposStageOptions := string * list string;
  DirectoryCustomizationsToFsNodeDirectories := fun l => Ok l;
  FileCustomizationsToFsNodeFiles := fun l => Ok l;
  RepoCustomizationsToRepoConfigAndGPGKeyFiles := fun _ => Ok ([], []);
  NewYumReposStageOptions := fun filename repos => (filename, repos);
  OscapRemediationStageOptions := Osbuild.OscapConfig;
  NewOscapRemediationStageOptions := fun cfg => cfg;
  DefaultFedoraDatastream := "/usr/share/xml/scap/ssg/content/ssg-fedora-ds.xml";
  DefaultRHEL9Datastream := fun _ => "/usr/share/xml/scap/ssg/content/ssg-rhel9-ds.xml";
  APIType := nat;
  SubscriptionImageOptions := unit;
  osPkgsKey := "os";
  installerPkgsKey := "installer";
  containerPkgsKey := "container"
|}.

Module Sample.

(** Customizations that set nothing: what the accessors answer for
    a nil pointer, with the default kernel name. *)
Definition noCustomizations : @Blueprint.Customizations plainExternal :=
  Blueprint.mkCustomizations (ext := plainExternal)
    (Some (Blueprint.mkKernel "kernel" "")) [] [] None (None, None) None (None, [])
    None [] [] (Ok []).

(** One user, one group and the kernel append [debug]. *)
Definition someCustomizations : @Blueprint.Customizations plainExternal :=
  Blueprint.mkCustomizations (ext := plainExternal)
    (Some (Blueprint.mkKernel "kernel-rt" "debug")) ["wheel"] ["admin"] None
    (None, None) None (None, []) None [] [] (Ok []).

(** A user firewall that enables [http], opens no port and names one
    zone. *)
Definition httpFirewall : Blueprint.FirewallCustomization :=
  Blueprint.mkFirewall []
    (Some (Blueprint.mkFirewallServices ["http"] []))
    [Blueprint.mkFirewallZone (Some "trusted") ["192.0.2.0/24"]].

Definition firewallCustomizations : @Blueprint.Customizations plainExternal :=
  Blueprint.mkCustomizations (ext := plainExternal)
    (Some (Blueprint.mkKernel "kernel" "")) [] [] (Some httpFirewall)
    (None, None) None (None, []) None [] [] (Ok []).

(** A default firewall that enables [ssh]. *)
Definition sshFirewall : Osbuild.FirewallStageOptions :=
  Osbuild.mkFirewallStageOptions [] ["ssh"] [] [].

Definition imageConfig (fw : option Osbuild.FirewallStageOptions)
    : @Distro.ImageConfig plainExternal :=
  Distro.mkImageConfig (ext := plainExternal)
    [] None [] [] None fw None None None None None [].

Definition noPackages : string -> @Rpmmd.PackageSet plainExternal :=
  fun _ => Rpmmd.mkPackageSet (ext := plainExternal) [] [] [].

Definition noOptions : @Distro.ImageOptions plainExternal :=
  Distro.mkImageOptions (ext := plainExternal) None None None.

Definition ostreeOptions (url : string) : @Distro.ImageOptions plainExternal :=
  Distro.mkImageOptions (ext := plainExternal)
    (Some (Ostree.mkImageOptions "" "" url "" false)) None None.

Definition fedora (release : string) : Fedora.distribution :=
  Fedora.mkDistribution ("fedora-" ++ release) release "Fedora" release
    "Fedora-installer".

(** A Fedora image type with the given flags, default kernel options
    and default firewall. *)
Definition fedoraType (release : string) (bootable rpmOstree bootISO : bool)
    (kernelOptions : string) (fw : option Osbuild.FirewallStageOptions)
    : @Fedora.imageType plainExternal :=
  Fedora.mkImageType (ext := plainExternal)
    "sample" "sample.img" "fedora/stable/x86_64/iot"
    bootable rpmOstree bootISO kernelOptions (imageConfig fw) (fedora release).

Definition rhel (release : string) : Rhel9.distribution :=
  Rhel9.mkDistribution "Red Hat Enterprise Linux" release "RHEL-installer" true.

Definition rhelType (release : string) (bootable rpmOstree bootISO : bool)
    (kernelOptions : string) (fw : option Osbuild.FirewallStageOptions)
    : @Rhel9.imageType plainExternal :=
  Rhel9.mkImageType (ext := plainExternal)
    "sample" "sample.img" "rhel/9/x86_64/edge"
    bootable rpmOstree bootISO kernelOptions (imageConfig fw) (rhel release).

End Sample.

(** ** The build tool: repositories, build names and the build steps *)

(** A Go map as the list of its entries, in the order in which a
    [range] statement visits them. *)
Module GoMap.

(** [m[key] = v] *)
Fixpoint set {V : Type} (m : list (string * V)) (key : string) (v : V)
    : list (string * V) :=
  match m with
  | [] => [(key, v)]
  | (k, w) :: rest =>
      if String.eqb k key then (k, v) :: rest else (k, w) :: set rest key v
  end.

(** [m[key]], if present *)
Fixpoint get {V : Type} (m : list (string * V)) (key : string) : option V :=
  match m with
  | [] => None
  | (k, w) :: rest => if String.eqb k key then Some w else get rest key
  end.

Definition keys {V : Type} (m : list (string * V)) : list string := map fst m.

End GoMap.

Module BuildRepos.

(** [repository]: one entry of the repository file. *)
Record repository : Type := mkRepository {
  Name : string;
  Id : string;
  BaseURL : string;
  Metalink : string;
  MirrorList : string;
  GPGKey : string;
  CheckGPG : bool;
  CheckRepoGPG : bool;
  IgnoreSSL : bool;
  RHSM : bool;
  MetadataExpire : string;
  ImageTypeTags : list string;
  PackageSets : list string
}.

(** [rpmmd.RepoConfig], by the fields of the literal in [convertRepo];
    the three flags are pointers there. *)
Record RepoConfig : Type := mkRepoConfig {
  cfgId : string;
  cfgName : string;
  BaseURLs : list string;
  cfgMetalink : string;
  cfgMirrorList : string;
  GPGKeys : list string;
  cfgCheckGPG : option bool;
  cfgCheckRepoGPG : option bool;
  cfgIgnoreSSL : option bool;
  cfgMetadataExpire : string;
  cfgRHSM : bool;
  cfgImageTypeTags : list string;
  cfgPackageSets : list string
}.

(** The zero value [rpmmd.RepoConfig{}]. *)
Definition zeroRepoConfig : RepoConfig :=
  mkRepoConfig "" "" [] "" "" [] None None None "" false [] [].

Definition convertRepo (r : repository) : RepoConfig :=
  let urls := if nonEmpty (BaseURL r) then [BaseURL r] else [] in
  let keys := if nonEmpty (GPGKey r) then [GPGKey r] else [] in
  mkRepoConfig (Id r) (Name r) urls (Metalink r) (MirrorList r) keys
    (Some (CheckGPG r)) (Some (CheckRepoGPG r)) (Some (IgnoreSSL r))
    (MetadataExpire r) (RHSM r) (ImageTypeTags r) (PackageSets r).

(** [l[idx] = v]; an index outside the slice is a runtime panic. *)
Definition setIndex {A : Type} (l : list A) (idx : nat) (v : A) : result (list A) :=
  if (idx <? List.length l)%nat then Ok (firstn idx l ++ v :: skipn (S idx) l)
  else Panic "runtime error: index out of range".

(** The loop of [convertRepos], from index [idx] on. *)
Fixpoint convertLoop (idx : nat) (rr : list repository) (cr : list RepoConfig)
    : result (list RepoConfig) :=
  match rr with
  | [] => Ok cr
  | r :: rest =>
      bind (setIndex cr idx (convertRepo r)) (convertLoop (S idx) rest)
  end.

Definition convertRepos (rr : list repository) : result (list RepoConfig) :=
  convertLoop 0 rr (repeat zeroRepoConfig (List.length rr)).

(** The inner loop of [filterRepos]: the repository is added at the
    first tag equal to the type name, and the loop stops there. *)
Fixpoint addIfTagged (tags : list string) (typeName : string) (repo : repository)
    (filtered : list repository) : list repository :=
  match tags with
  | [] => filtered
  | tag :: rest =>
      if String.eqb tag typeName then filtered ++ [repo]
      else addIfTagged rest typeName repo filtered
  end.

Definition filterRepos (repos : list repository) (typeName : string) : list repository :=
  fold_left
    (fun filtered repo =>
       if (List.length (ImageTypeTags repo) =? 0)%nat then filtered ++ [repo]
       else addIfTagged (ImageTypeTags repo) typeName repo filtered)
    repos [].

(** The test a kept repository passes: no tag at all, or the type name
    among its tags. *)
Definition matchesType (typeName : string) (repo : repository) : bool :=
  match ImageTypeTags repo with
  | [] => true
  | tags => existsb (fun tag => String.eqb tag typeName) tags
  end.

End BuildRepos.

Module BuildName.

Definition hyphen : ascii := "-"%char.
Definition underscore : ascii := "_"%char.

(** [strings.Replace(s, old, new, -1)] for [old] and [new] of one byte
    each: every such byte is replaced. *)
Fixpoint replaceByte (old new : ascii) (s : string) : string :=
  match s with
  | EmptyString => EmptyString
  | String c rest =>
      String (if Ascii.eqb c old then new else c) (replaceByte old new rest)
  end.

Definition u (s : string) : string := replaceByte hyphen underscore s.

(** [fmt.Sprintf("%s-%s-%s-%s", u(distroName), u(archName),
    u(imgTypeName), u(config.Name))], the build name of [main]. *)
Definition buildName (distroName archName imgTypeName configName : string) : string :=
  u distroName ++ "-" ++ u archName ++ "-" ++ u imgTypeName ++ "-" ++ u configName.

(** The pieces of [s] between the bytes [sep], as [strings.Split] with
    a separator of one byte gives them; [cur] holds the bytes read
    since the last separator, in reverse. *)
Fixpoint splitAt (sep : ascii) (cur : list ascii) (s : string) : list string :=
  match s with
  | EmptyString => [string_of_list_ascii (rev cur)]
  | String c rest =>
      if Ascii.eqb c sep then string_of_list_ascii (rev cur) :: splitAt sep [] rest
      else splitAt sep (c :: cur) rest
  end.

Definition split (sep : ascii) (s : string) : list string := splitAt sep [] s.

Fixpoint hasByte (b : ascii) (s : string) : bool :=
  match s with
  | EmptyString => false
  | String c rest => Ascii.eqb c b || hasByte b rest
  end.

End BuildName.

(** ** The steps of a build

    The image type, the depsolver, the container resolver and the
    serializer are other packages; they are the members of one more
    interface. *)

Class BuildExternal {ext : External} : Type := {
  (** [container.Spec] and the state of a [container.Resolver] *)
  ContainerSpec : Type;
  Resolver : Type;
  NewResolver : string -> Resolver;
  ResolverAdd : Resolver -> ContainerSourceSpec -> Resolver;
  ResolverFinish : Resolver -> result (list ContainerSpec);
  (** [rpmmd.PackageSpec] and the state of a [dnfjson.Solver];
      [NewSolver] takes the module platform id, the release version, the
      architecture, the distro name and the cache directory *)
  PackageSpec : Type;
  Solver : Type;
  NewSolver : string -> string -> string -> string -> string -> Solver;
  SetDNFJSONPath : Solver -> string -> Solver;
  Depsolve : Solver -> list Rpmmd.PackageSet -> result (list PackageSpec) * Solver;
  (** [distro.ImageType], [blueprint.Blueprint] and the manifest an
      image type makes, with the warnings that come with it *)
  ImageType : Type;
  BlueprintValue : Type;
  CrBlueprint : Type;
  zeroBlueprint : BlueprintValue;
  toBlueprint : CrBlueprint -> BlueprintValue;
  AbstractManifest : Type;
  ManifestOf :
    ImageType -> BlueprintValue -> Distro.ImageOptions ->
    list BuildRepos.RepoConfig -> Z -> result (AbstractManifest * list string);
  GetPackageSetChains : AbstractManifest -> list (string * list Rpmmd.PackageSet);
  GetContainerSourceSpecs : AbstractManifest -> list (string * list ContainerSourceSpec);
  GetOSTreeSourceSpecs : AbstractManifest -> list (string * list Ostree.SourceSpec);
  Serialize :
    AbstractManifest -> list (string * list PackageSpec) ->
    list (string * list ContainerSpec) -> list (string * list Ostree.CommitSpec) ->
    result Json.value;
  (** [filepath.Join] and [facts.TEST_APITYPE] *)
  filepathJoin : string -> string -> string;
  TEST_APITYPE : APIType
}.

Module BuildSteps.
Section WithExternal.
Context {ext : External} {build : BuildExternal}.

(** [ostreeOptions]: the OSTree part of a build configuration. *)
Record ostreeOptions : Type := mkOstreeOptions {
  Ref : string;
  URL : string;
  Parent : string;
  RHSM : bool
}.

(** [buildConfig] *)
Record buildConfig : Type := mkBuildConfig {
  Name : string;
  OSTree : option ostreeOptions;
  Blueprint : option CrBlueprint
}.

(** What the build tool asks of a [distro.Distro]. *)
Record distroInfo : Type := mkDistroInfo {
  distroName : string;
  ModulePlatformID : string;
  Releasever : string
}.

Definition resolveContainers (containers : list ContainerSourceSpec) (archName : string)
    : result (list ContainerSpec) :=
  let resolver := NewResolver archName in
  let resolver := fold_left ResolverAdd containers resolver in
  ResolverFinish resolver.

(** The loop of [resolvePipelineContainers]; [containerSpecs] is the
    map filled so far. *)
Fixpoint resolvePipelines (containerSources : list (string * list ContainerSourceSpec))
    (archName : string) (containerSpecs : list (string * list ContainerSpec))
    : result (list (string * list ContainerSpec)) :=
  match containerSources with
  | [] => Ok containerSpecs
  | (plName, sourceSpecs) :: rest =>
      match resolveContainers sourceSpecs archName with
      | Ok specs => resolvePipelines rest archName (GoMap.set containerSpecs plName specs)
      | Err e => Err e
      | Panic p => Panic p
      end
  end.

Definition resolvePipelineContainers
    (containerSources : list (string * list ContainerSourceSpec)) (archName : string)
    : result (list (string * list ContainerSpec)) :=
  resolvePipelines containerSources archName [].

(** The loop of [depsolve]; the result is the map, [None] for a nil
    map. *)
Fixpoint depsolveSets (solver : Solver) (packageSets : list (string * list Rpmmd.PackageSet))
    (depsolvedSets : list (string * list PackageSpec))
    : result (option (list (string * list PackageSpec))) :=
  match packageSets with
  | [] => Ok (Some depsolvedSets)
  | (name, pkgSet) :: rest =>
      match Depsolve solver pkgSet with
      | (Ok res, solver') => depsolveSets solver' rest (GoMap.set depsolvedSets name res)
      | (Err e, _) => Err e
      | (Panic p, _) => Panic p
      end
  end.

Definition depsolve (cacheDir : string)
    (packageSets : list (string * list Rpmmd.PackageSet)) (d : distroInfo) (arch : string)
    : result (option (list (string * list PackageSpec))) :=
  let solver := NewSolver (ModulePlatformID d) (Releasever d) arch (distroName d) cacheDir in
  let solver := SetDNFJSONPath solver "./dnf-json" in
  depsolveSets solver packageSets [].

(** [makeManifest]: what is written to the standard error stream, and
    the manifest or the error. *)
Definition makeManifest (imgType : ImageType) (config : buildConfig)
    (distribution : distroInfo) (repos : list BuildRepos.RepoConfig)
    (archName : string) (seedArg : Z) (cacheRoot : string)
    : list string * result Json.value :=
  let cacheDir := filepathJoin cacheRoot (archName ++ distroName distribution) in
  let options :=
    Distro.mkImageOptions
      (match OSTree config with
       | Some o => Some (Ostree.mkImageOptions (Ref o) (Parent o) (URL o) "" (RHSM o))
       | None => None
       end)
      (* add RHSM fact to detect changes *)
      (Some (Distro.mkFacts TEST_APITYPE))
      None in
  let bp :=
    match Blueprint config with
    | Some b => toBlueprint b
    | None => zeroBlueprint
    end in
  match ManifestOf imgType bp options repos seedArg with
  | Err e => ([], Err ("[ERROR] manifest generation failed: " ++ e))
  | Panic p => ([], Panic p)
  | Ok (manifest, warnings) =>
      let stderr :=
        if (0 <? List.length warnings)%nat then
          [("[WARNING]"
              ++ String Json.newline (Strings.Join warnings (String Json.newline "")))%string]
        else [] in
      match depsolve cacheDir (GetPackageSetChains manifest) distribution archName with
      | Err e => (stderr, Err ("[ERROR] depsolve failed: " ++ e))
      | Panic p => (stderr, Panic p)
      | Ok None => (stderr, Err "[ERROR] depsolve did not return any packages")
      | Ok (Some packageSpecs) =>
          match resolvePipelineContainers (GetContainerSourceSpecs manifest) archName with
          | Err e => (stderr, Err ("[ERROR] container resolution failed: " ++ e))
          | Panic p => (stderr, Panic p)
          | Ok containerSpecs =>
              let commitSpecs :=
                BuildTool.resolvePipelineCommits (GetOSTreeSourceSpecs manifest) in
              match Serialize manifest packageSpecs containerSpecs commitSpecs with
              | Err e => (stderr, Err ("[ERROR] manifest serialization failed: " ++ e))
              | Panic p => (stderr, Panic p)
              | Ok mf => (stderr, Ok mf)
              end
          end
      end
  end.

End WithExternal.
End BuildSteps.

(** ** The other image kinds and their construction functions *)

(** The partition table, the file systems, Ignition and FDO belong to
    other packages. *)
Class RawExternal {ext : External} : Type := {
  (** [blueprint.FilesystemCustomization], [disk.PartitionTable] and
      the state of the [*rand.Rand] handed to [getPartitionTable] *)
  FilesystemCustomization : Type;
  PartitionTable : Type;
  Rand : Type;
  (** the method [getPartitionTable] of the two image type structs *)
  fedoraGetPartitionTable :
    Fedora.imageType -> list FilesystemCustomization -> Distro.ImageOptions -> Rand ->
    result PartitionTable;
  rhel9GetPartitionTable :
    Rhel9.imageType -> list FilesystemCustomization -> Distro.ImageOptions -> Rand ->
    result PartitionTable;
  (** [blueprint.EmbeddedIgnitionCustomization] and
      [ignition.EmbeddedOptionsFromBP] *)
  EmbeddedIgnitionCustomization : Type;
  EmbeddedOptions : Type;
  EmbeddedOptionsFromBP : EmbeddedIgnitionCustomization -> result EmbeddedOptions;
  (** [blueprint.FDOCustomization] and [fdo.FromBP] *)
  FDOCustomization : Type;
  FDOOptions : Type;
  FromBP : FDOCustomization -> FDOOptions
}.

Module RawImages.

(** [ostree.Remote] *)
Record Remote : Type := mkRemote {
  remoteName : string;
  remoteURL : string;
  remoteContentURL : string;
  GPGKeyPaths : list string
}.

(** [blueprint.FirstBootIgnitionCustomization] *)
Record FirstBootIgnitionCustomization : Type := mkFirstBoot {
  ProvisioningURL : string
}.

Section WithExternal.
Context {ext : External} {raw : RawExternal}.

(** [blueprint.IgnitionCustomization] *)
Record IgnitionCustomization : Type := mkIgnition {
  Embedded : option EmbeddedIgnitionCustomization;
  FirstBoot : option FirstBootIgnitionCustomization
}.

(** The pointer [*blueprint.Customizations] with the further accessors
    the raw images use; [InstallationDevice] is a field, read through
    the pointer: [None] stands for a nil pointer. *)
Record Customizations : Type := mkCustomizations {
  accessors : Blueprint.Customizations;
  GetFilesystems : list FilesystemCustomization;
  GetIgnition : option IgnitionCustomization;
  GetFDO : option FDOCustomization;
  InstallationDevice : option string
}.

(** [image.OSTreeRawImage] *)
Record OSTreeRawImage : Type := mkOSTreeRawImage {
  Commit : Ostree.SourceSpec;
  Ignition : bool;
  SysrootReadOnly : bool;
  Users : list User;
  Groups : list Group;
  Directories : list FsNodeDirectory;
  Files : list FsNodeFile;
  KernelOptionsAppend : list string;
  Keyboard : string;
  Locale : string;
  rawRemote : Remote;
  OSName : string;
  rawPartitionTable : PartitionTable;
  Filename : string
}.

(** [image.OSTreeSimplifiedInstaller] *)
Record OSTreeSimplifiedInstaller : Type := mkOSTreeSimplifiedInstaller {
  rawImage : OSTreeRawImage;
  installDevice : string;
  ExtraBasePackages : Rpmmd.PackageSet;
  installerFilename : string;
  FDO : option FDOOptions;
  IgnitionEmbedded : option EmbeddedOptions;
  ISOLabelTempl : string;
  Product : string;
  Variant : string;
  installerOSName : string;
  OSVersion : string;
  AdditionalDracutModules : list string
}.

(** [image.OSTreeContainer] *)
Record OSTreeContainer : Type := mkOSTreeContainer {
  CommitRef : string;
  containerOSCustomizations : Manifest.OSCustomizations;
  ContainerLanguage : string;
  OSTreeParent : option Ostree.SourceSpec;
  containerOSVersion : string;
  ExtraContainerPackages : Rpmmd.PackageSet;
  containerFilename : string
}.

(** [image.LiveImage] *)
Record LiveImage : Type := mkLiveImage {
  liveOSCustomizations : Manifest.OSCustomizations;
  livePartitionTable : PartitionTable;
  liveFilename : string
}.

(** [image.BaseContainer] and [image.Archive] *)
Record PlainImage : Type := mkPlainImage {
  plainOSCustomizations : Manifest.OSCustomizations;
  plainFilename : string
}.

End WithExternal.
End RawImages.

Module FedoraImages.
Local Open Scope go_scope.
Section WithExternal.
Context {ext : External} {raw : RawExternal}.

Definition liveImage (t : Fedora.imageType) (customizations : RawImages.Customizations)
    (options : Distro.ImageOptions) (packageSets : string -> Rpmmd.PackageSet)
    (containers : list ContainerSourceSpec) (rng : Rand) : result RawImages.LiveImage :=
  osc <- Fedora.osCustomizations t (packageSets osPkgsKey) containers
           (RawImages.accessors customizations) ;;
  pt <- fedoraGetPartitionTable t (RawImages.GetFilesystems customizations) options rng ;;
  Ok (RawImages.mkLiveImage osc pt (Fedora.filename t)).

Definition containerImage (t : Fedora.imageType) (c : RawImages.Customizations)
    (options : Distro.ImageOptions) (packageSets : string -> Rpmmd.PackageSet)
    (containers : list ContainerSourceSpec) (rng : Rand) : result RawImages.PlainImage :=
  osc <- Fedora.osCustomizations t (packageSets osPkgsKey) containers
           (RawImages.accessors c) ;;
  Ok (RawImages.mkPlainImage osc (Fedora.filename t)).

Definition iotContainerImage (t : Fedora.imageType)
    (customizations : RawImages.Customizations)
    (options : Distro.ImageOptions) (packageSets : string -> Rpmmd.PackageSet)
    (containers : list ContainerSourceSpec) (rng : Rand)
    : result RawImages.OSTreeContainer :=
  let '(parentCommit, commitRef) :=
    Fedora.makeOSTreeParentCommit (Distro.OSTree options) (Fedora.ostreeRef t) in
  osc <- Fedora.osCustomizations t (packageSets osPkgsKey) containers
           (RawImages.accessors customizations) ;;
  Ok (RawImages.mkOSTreeContainer commitRef osc (Manifest.Language osc) parentCommit
        (Fedora.osVersion (Fedora.distro t)) (packageSets containerPkgsKey)
        (Fedora.filename t)).

Definition iotRawImage (t : Fedora.imageType) (customizations : RawImages.Customizations)
    (options : Distro.ImageOptions) (packageSets : string -> Rpmmd.PackageSet)
    (containers : list ContainerSourceSpec) (rng : Rand)
    : result RawImages.OSTreeRawImage :=
  commit <-
    wrapError (Fedora.name t)
      (Fedora.makeOSTreePayloadCommit (Distro.OSTree options) (Fedora.ostreeRef t)) ;;
  (* Set sysroot read-only only for Fedora 37+ *)
  sysrootReadOnly <-
    (if Strings.HasPrefix (Fedora.distroName (Fedora.distro t)) "fedora" then
       older <- Common.versionLessThan (Fedora.releasever (Fedora.distro t)) "37" ;;
       Ok (negb older)
     else Ok false) ;;
  let c := RawImages.accessors customizations in
  let users := UsersFromBP (Blueprint.GetUsers c) in
  let groups := GroupsFromBP (Blueprint.GetGroups c) in
  directories <- DirectoryCustomizationsToFsNodeDirectories (Blueprint.GetDirectories c) ;;
  files <- FileCustomizationsToFsNodeFiles (Blueprint.GetFiles c) ;;
  (* "rw" kernel option is required when /sysroot is mounted read-only to
     keep stateful parts of the filesystem writeable (/var/ and /etc) *)
  let kernelOptionsAppend := ["modprobe.blacklist=vc4"; "rw"] in
  let remote :=
    RawImages.mkRemote "fedora-iot" "https://ostree.fedoraproject.org/iot"
      "mirrorlist=https://ostree.fedoraproject.org/iot/mirrorlist"
      ["/etc/pki/rpm-gpg/"] in
  pt <- fedoraGetPartitionTable t (RawImages.GetFilesystems customizations) options rng ;;
  Ok (RawImages.mkOSTreeRawImage commit false sysrootReadOnly users groups
        directories files kernelOptionsAppend "us" "C.UTF-8" remote "fedora-iot" pt
        (Fedora.filename t)).

End WithExternal.
End FedoraImages.

Module Rhel9Images.
Local Open Scope go_scope.
Section WithExternal.
Context {ext : External} {raw : RawExternal}.

Definition liveImage (t : Rhel9.imageType) (customizations : RawImages.Customizations)
    (options : Distro.ImageOptions) (packageSets : string -> Rpmmd.PackageSet)
    (containers : list ContainerSourceSpec) (rng : Rand) : result RawImages.LiveImage :=
  osc <- Rhel9.osCustomizations t (packageSets osPkgsKey) options containers
           (RawImages.accessors customizations) ;;
  pt <- rhel9GetPartitionTable t (RawImages.GetFilesystems customizations) options rng ;;
  Ok (RawImages.mkLiveImage osc pt (Rhel9.filename t)).

Definition tarImage (t : Rhel9.imageType) (customizations : RawImages.Customizations)
    (options : Distro.ImageOptions) (packageSets : string -> Rpmmd.PackageSet)
    (containers : list ContainerSourceSpec) (rng : Rand) : result RawImages.PlainImage :=
  osc <- Rhel9.osCustomizations t (packageSets osPkgsKey) options containers
           (RawImages.accessors customizations) ;;
  Ok (RawImages.mkPlainImage osc (Rhel9.filename t)).

Definition edgeContainerImage (t : Rhel9.imageType)
    (customizations : RawImages.Customizations)
    (options : Distro.ImageOptions) (packageSets : string -> Rpmmd.PackageSet)
    (containers : list ContainerSourceSpec) (rng : Rand)
    : result RawImages.OSTreeContainer :=
  let '(parentCommit, commitRef) :=
    Rhel9.makeOSTreeParentCommit (Distro.OSTree options) (Rhel9.ostreeRef t) in
  osc <- Rhel9.osCustomizations t (packageSets osPkgsKey) options containers
           (RawImages.accessors customizations) ;;
  let containerLanguage := Manifest.Language osc in
  enabled <- Rhel9.since92 t ;;
  let osc :=
    if (enabled : bool) then
      Manifest.appendEnabledServices osc
        ["ignition-firstboot-complete.service";
         "coreos-ignition-write-issues.service"]
    else osc in
  Ok (RawImages.mkOSTreeContainer commitRef osc containerLanguage parentCommit
        (Rhel9.osVersion (Rhel9.distro t)) (packageSets containerPkgsKey)
        (Rhel9.filename t)).

(** [options.OSTree.URL] and [options.OSTree.ContentURL]: the remote of
    a raw image; the pointer is followed without a test. *)
Definition edgeRemote (options : Distro.ImageOptions) : result RawImages.Remote :=
  match Distro.OSTree options with
  | None => Panic nilDereference
  | Some o => Ok (RawImages.mkRemote "rhel-edge" (Ostree.URL o) (Ostree.ContentURL o) [])
  end.

(** The Ignition provisioning URL of the blueprint as a kernel
    option. *)
Definition appendProvisioningURL (customizations : RawImages.Customizations)
    (kernelOptionsAppend : list string) : list string :=
  match RawImages.GetIgnition customizations with
  | Some bpIgnition =>
      match RawImages.FirstBoot bpIgnition with
      | Some firstBoot =>
          if nonEmpty (RawImages.ProvisioningURL firstBoot) then
            kernelOptionsAppend
              ++ [("ignition.config.url=" ++ RawImages.ProvisioningURL firstBoot)%string]
          else kernelOptionsAppend
      | None => kernelOptionsAppend
      end
  | None => kernelOptionsAppend
  end.

(** The kernel append string of the blueprint as a kernel option. *)
Definition appendUserKernelOptions (customizations : RawImages.Customizations)
    (kernelOptionsAppend : list string) : list string :=
  match Blueprint.GetKernel (RawImages.accessors customizations) with
  | Some kopts => appendNonEmpty kernelOptionsAppend (Blueprint.Append kopts)
  | None => kernelOptionsAppend
  end.

Definition edgeRawImage (t : Rhel9.imageType) (customizations : RawImages.Customizations)
    (options : Distro.ImageOptions) (packageSets : string -> Rpmmd.PackageSet)
    (containers : list ContainerSourceSpec) (rng : Rand)
    : result RawImages.OSTreeRawImage :=
  commit <-
    wrapError (Rhel9.name t)
      (Rhel9.makeOSTreePayloadCommit (Distro.OSTree options) (Rhel9.ostreeRef t)) ;;
  ignition <- Rhel9.since92 t ;;
  let c := RawImages.accessors customizations in
  let users := UsersFromBP (Blueprint.GetUsers c) in
  let groups := GroupsFromBP (Blueprint.GetGroups c) in
  let kernelOptionsAppend := ["modprobe.blacklist=vc4"] in
  sysrootReadOnly <- Rhel9.since92 t ;;
  let kernelOptionsAppend :=
    if (sysrootReadOnly : bool) then kernelOptionsAppend ++ ["rw"]
    else kernelOptionsAppend in
  remote <- edgeRemote options ;;
  let kernelOptionsAppend := appendProvisioningURL customizations kernelOptionsAppend in
  (* 92+ only *)
  let kernelOptionsAppend := appendUserKernelOptions customizations kernelOptionsAppend in
  pt <- rhel9GetPartitionTable t (RawImages.GetFilesystems customizations) options rng ;;
  Ok (RawImages.mkOSTreeRawImage commit ignition sysrootReadOnly users groups [] []
        kernelOptionsAppend "us" "C.UTF-8" remote "redhat" pt (Rhel9.filename t)).

Definition edgeSimplifiedInstallerImage (t : Rhel9.imageType)
    (customizations : RawImages.Customizations)
    (options : Distro.ImageOptions) (packageSets : string -> Rpmmd.PackageSet)
    (containers : list ContainerSourceSpec) (rng : Rand)
    : result RawImages.OSTreeSimplifiedInstaller :=
  commit <-
    wrapError (Rhel9.name t)
      (Rhel9.makeOSTreePayloadCommit (Distro.OSTree options) (Rhel9.ostreeRef t)) ;;
  ignition <- Rhel9.since92 t ;;
  let c := RawImages.accessors customizations in
  let users := UsersFromBP (Blueprint.GetUsers c) in
  let groups := GroupsFromBP (Blueprint.GetGroups c) in
  let kernelOptionsAppend := ["modprobe.blacklist=vc4"] in
  sysrootReadOnly <- Rhel9.since92 t ;;
  let kernelOptionsAppend :=
    if (sysrootReadOnly : bool) then kernelOptionsAppend ++ ["rw"]
    else kernelOptionsAppend in
  remote <- edgeRemote options ;;
  pt <- rhel9GetPartitionTable t (RawImages.GetFilesystems customizations) options rng ;;
  let kernelOptionsAppend := appendProvisioningURL customizations kernelOptionsAppend in
  (* 92+ only *)
  let kernelOptionsAppend := appendUserKernelOptions customizations kernelOptionsAppend in
  let rawImg :=
    RawImages.mkOSTreeRawImage commit ignition sysrootReadOnly users groups [] []
      kernelOptionsAppend "us" "C.UTF-8" remote "redhat" pt (Rhel9.filename t) in
  device <-
    match RawImages.InstallationDevice customizations with
    | Some device => Ok device
    | None => Panic nilDereference
    end ;;
  let fdoOptions := option_map FromBP (RawImages.GetFDO customizations) in
  (* ignition configs from blueprint *)
  ignitionEmbedded <-
    match RawImages.GetIgnition customizations with
    | Some bpIgnition =>
        match RawImages.Embedded bpIgnition with
        | Some embedded =>
            options <- EmbeddedOptionsFromBP embedded ;;
            Ok (Some options)
        | None => Ok None
        end
    | None => Ok None
    end ;;
  let d := Rhel9.distro t in
  Ok (RawImages.mkOSTreeSimplifiedInstaller rawImg device (packageSets installerPkgsKey)
        (Rhel9.filename t) fdoOptions ignitionEmbedded
        (Rhel9.isolabelTmpl d) (Rhel9.product d) "edge" "redhat" (Rhel9.osVersion d)
        ["prefixdevname"; "prefixdevname-tools"]).

End WithExternal.
End Rhel9Images.

(** The kernel options of a RHEL 9 raw image, given the answer of the
    9.2 gate: used to state what the raw images carry. *)
Definition edgeKernelOptions {ext : External} {raw : RawExternal}
    (customizations : RawImages.Customizations) (sysrootReadOnly : bool) : list string :=
  Rhel9Images.appendUserKernelOptions customizations
    (Rhel9Images.appendProvisioningURL customizations
       (if sysrootReadOnly then ["modprobe.blacklist=vc4"; "rw"]
        else ["modprobe.blacklist=vc4"])).

(** ** More sample collaborators *)

(** As [plainExternal], with a conversion of directories that accepts
    absolute paths only, and with a conversion of repositories that
    gives each repository its file and its key file. *)
Definition strictExternal : External := {|
  UserCustomization := string;
  GroupCustomization := string;
  User := string;
  Group := string;
  UsersFromBP := fun l => l;
  GroupsFromBP := fun l => l;
  RepoConfig := string;
  ContainerSourceSpec := string;
  DirectoryCustomization := string;
  FileCustomization := string;
  RepositoryCustomization := string;
  FsNodeDirectory := string;
  FsNodeFile := string;
  YumReposStageOptions := string * list string;
  DirectoryCustomizationsToFsNodeDirectories :=
    fun l => if forallb (fun p => Strings.HasPrefix p "/") l then Ok l
             else Err "path must be absolute";
  FileCustomizationsToFsNodeFiles := fun l => Ok l;
  RepoCustomizationsToRepoConfigAndGPGKeyFiles := fun repos : list string =>
    Ok (map (fun id => (id ++ ".repo", [id])%string) repos,
        map (fun id => ("/etc/pki/rpm-gpg/RPM-GPG-KEY-" ++ id)%string) repos);
  NewYumReposStageOptions := fun filename repos => (filename, repos);
  OscapRemediationStageOptions := Osbuild.OscapConfig;
  NewOscapRemediationStageOptions := fun cfg => cfg;
  DefaultFedoraDatastream := "/usr/share/xml/scap/ssg/content/ssg-fedora-ds.xml";
  DefaultRHEL9Datastream := fun _ => "/usr/share/xml/scap/ssg/content/ssg-rhel9-ds.xml";
  APIType := nat;
  SubscriptionImageOptions := unit;
  osPkgsKey := "os";
  installerPkgsKey := "installer";
  containerPkgsKey := "container"
|}.

(** Partition tables as the list of their mount points, each of which
    has to be absolute; Ignition and FDO options as strings. *)
Definition plainRaw (ext : External) : @RawExternal ext := {|
  FilesystemCustomization := string;
  PartitionTable := list string;
  Rand := N;
  fedoraGetPartitionTable := fun _ mountpoints _ _ =>
    if forallb (fun p => Strings.HasPrefix p "/") mountpoints then Ok ("/" :: mountpoints)
    else Err "invalid mountpoint";
  rhel9GetPartitionTable := fun _ mountpoints _ _ =>
    if forallb (fun p => Strings.HasPrefix p "/") mountpoints then Ok ("/" :: mountpoints)
    else Err "invalid mountpoint";
  EmbeddedIgnitionCustomization := string;
  EmbeddedOptions := string;
  EmbeddedOptionsFromBP := fun config =>
    if nonEmpty config then Ok config else Err "invalid ignition configuration";
  FDOCustomization := string;
  FDOOptions := string;
  FromBP := fun url => url
|}.

Module RawSample.

(** The customizations of a raw image around the plain ones: no file
    system, no Ignition, no FDO, and the installation device. *)
Definition customizations (ext : External) (c : @Blueprint.Customizations ext)
    (device : option string) : @RawImages.Customizations ext (plainRaw ext) :=
  RawImages.mkCustomizations (ext := ext) (raw := plainRaw ext) c [] None None device.

(** Customizations with one directory, under [strictExternal]. *)
Definition withDirectory (path : string) : @Blueprint.Customizations strictExternal :=
  Blueprint.mkCustomizations (ext := strictExternal)
    (Some (Blueprint.mkKernel "kernel" "")) [] [] None (None, None) None (None, [])
    None [path] [] (Ok []).

(** Customizations with two files and two custom repositories, under
    [strictExternal]. *)
Definition withRepositories : @Blueprint.Customizations strictExternal :=
  Blueprint.mkCustomizations (ext := strictExternal)
    (Some (Blueprint.mkKernel "kernel" "")) [] [] None (None, None) None (None, [])
    None [] ["/etc/motd"; "/etc/issue"] (Ok ["custom"; "extra"]).

Definition strictImageConfig : @Distro.ImageConfig strictExternal :=
  Distro.mkImageConfig (ext := strictExternal)
    [] None [] [] None None None None None None None [].

Definition strictFedoraType (release : string) : @Fedora.imageType strictExternal :=
  Fedora.mkImageType (ext := strictExternal)
    "sample" "sample.img" "fedora/stable/x86_64/iot"
    true true false "" strictImageConfig (Sample.fedora release).

Definition strictOptions (url : string) : @Distro.ImageOptions strictExternal :=
  Distro.mkImageOptions (ext := strictExternal)
    (Some (Ostree.mkImageOptions "" "" url "" false)) None None.

Definition strictPackages : string -> @Rpmmd.PackageSet strictExternal :=
  fun _ => Rpmmd.mkPackageSet (ext := strictExternal) [] [] [].

End RawSample.

(** The user's value, else the default of the image type, else the
    zero value. *)
Definition userThenDefault (user default : option string) : string :=
  match user with
  | Some v => v
  | None => match default with Some v => v | None => "" end
  end.

(** A pipeline and its resolved containers. *)
Definition resolvedAs {ext : External} {build : BuildExternal} (archName : string)
    (source : string * list ContainerSourceSpec) (out : string * list ContainerSpec)
    : Prop :=
  fst out = fst source /\
  BuildSteps.resolveContainers (snd source) archName = Ok (snd out).

(** ** The test generator [test/cases/generate-build-config] *)

(** Python's [json.dumps(data, indent=...)] with its defaults
    ([ensure_ascii] on, the separators [","] and [": "]) on the
    documents [json.load] returns.  A [str] is the list of its code
    points, a [dict] the list of its items in insertion order.
    Numbers are integers. *)
Module PyJson.
Local Open Scope N_scope.

Inductive value : Type :=
| PyNone
| PyBool (b : bool)
| PyInt (n : Z)
| PyStr (s : list N)
| PyList (elems : list value)
| PyDict (items : list (list N * value)).

(** ['\\u{0:04x}'.format(n)] *)
Definition escapeUnicode (n : N) : list ascii :=
  [Json.backslash; "u"%char;
   Json.hexN (N.land (N.shiftr n 12) 0xF); Json.hexN (N.land (N.shiftr n 8) 0xF);
   Json.hexN (N.land (N.shiftr n 4) 0xF); Json.hexN (N.land n 0xF)].

(** What [ESCAPE_ASCII.sub(replace, s)] writes for one code point:
    the characters from the space to the tilde other than the quote
    and the backslash stay, [ESCAPE_DCT] has the short escapes, and
    everything else becomes [\uXXXX], as a surrogate pair from
    [0x10000] on. *)
Definition escapeChar (c : N) : list ascii :=
  if N.eqb c 0x5C then [Json.backslash; Json.backslash]
  else if N.eqb c 0x22 then [Json.backslash; Json.quote]
  else if N.eqb c 0x08 then [Json.backslash; "b"%char]
  else if N.eqb c 0x0C then [Json.backslash; "f"%char]
  else if N.eqb c 0x0A then [Json.backslash; "n"%char]
  else if N.eqb c 0x0D then [Json.backslash; "r"%char]
  else if N.eqb c 0x09 then [Json.backslash; "t"%char]
  else if N.leb 0x20 c && N.leb c 0x7E then [Json.chr c]
  else if N.ltb c 0x10000 then escapeUnicode c
  else
    let n := c - 0x10000 in
    let s1 := N.lor 0xD800 (N.land (N.shiftr n 10) 0x3FF) in
    let s2 := N.lor 0xDC00 (N.land n 0x3FF) in
    escapeUnicode s1 ++ escapeUnicode s2.

(** [py_encode_basestring_ascii] *)
Definition encode_basestring_ascii (s : list N) : list ascii :=
  Json.quote :: flat_map escapeChar s ++ [Json.quote].

(** [int.__repr__] *)
Definition intstr (n : Z) : list ascii :=
  list_ascii_of_string (NilZero.string_of_int (Z.to_int n)).

(** ['\n' + _indent * _current_indent_level] *)
Definition newline_indent (indent : list ascii) (level : nat) : list ascii :=
  Json.newline :: Json.repeatString level indent.

(** [_iterencode] with its two helpers for lists and dictionaries,
    the chunks joined. *)
Fixpoint iterencode (indent : list ascii) (level : nat) (o : value) : list ascii :=
  match o with
  | PyStr s => encode_basestring_ascii s
  | PyNone => list_ascii_of_string "null"
  | PyBool true => list_ascii_of_string "true"
  | PyBool false => list_ascii_of_string "false"
  | PyInt n => intstr n
  | PyList [] => list_ascii_of_string "[]"
  | PyList (x :: xs) =>
      "["%char :: newline_indent indent (S level)
        ++ iterencode indent (S level) x
        ++ (fix rest (l : list value) : list ascii :=
              match l with
              | [] => []
              | y :: l' =>
                  (","%char :: newline_indent indent (S level))
                    ++ iterencode indent (S level) y ++ rest l'
              end) xs
        ++ newline_indent indent level ++ ["]"%char]
  | PyDict [] => list_ascii_of_string "{}"
  | PyDict ((k, x) :: items) =>
      "{"%char :: newline_indent indent (S level)
        ++ encode_basestring_ascii k ++ [":"%char; Json.space]
        ++ iterencode indent (S level) x
        ++ (fix rest (l : list (list N * value)) : list ascii :=
              match l with
              | [] => []
              | (k', y) :: l' =>
                  (","%char :: newline_indent indent (S level))
                    ++ encode_basestring_ascii k' ++ [":"%char; Json.space]
                    ++ iterencode indent (S level) y ++ rest l'
              end) items
        ++ newline_indent indent level ++ ["}"%char]
  end.

Definition dumps (data : value) (indent : string) : list ascii :=
  iterencode (list_ascii_of_string indent) 0 data.

(** [str.replace(old, new)] for a pattern of one character. *)
Definition replace (old : ascii) (new : string) (s : list ascii) : list ascii :=
  flat_map (fun c => if Ascii.eqb c old then list_ascii_of_string new else [c]) s.

End PyJson.

Module BuildConfig.

(** [serialise]: the text; [json.dumps] left ASCII only, so the text
    is also the bytes that [filter_builds] hashes. *)
Definition serialise (data : PyJson.value) : string :=
  let serialised := PyJson.dumps data "  " ++ [Json.newline] in
  string_of_list_ascii
    (PyJson.replace ">"%char (String Json.backslash "u003e")
       (PyJson.replace "<"%char (String Json.backslash "u003c") serialised)).

(** [manifest_hash] in [filter_builds] *)
Definition manifest_hash (manifest_data : PyJson.value) : string :=
  hexString (Sha256.Sum256 (serialise manifest_data)).

End BuildConfig.

(** The two encoders side by side: the Go document as Python holds it
    after [json.load], and the strings on which the encoders can be
    compared. *)
Module JsonAgreement.
Local Open Scope N_scope.

Definition codePoints (s : string) : list N := map N_of_ascii (list_ascii_of_string s).

(** The Python document for the text of a Go document whose strings
    are ASCII: the same tree, each byte of a string a code point. *)
Fixpoint load (v : Json.value) : PyJson.value :=
  match v with
  | Json.Null => PyJson.PyNone
  | Json.Bool b => PyJson.PyBool b
  | Json.Number n => PyJson.PyInt n
  | Json.Str s => PyJson.PyStr (codePoints s)
  | Json.Array elems => PyJson.PyList (map load elems)
  | Json.Object members =>
      PyJson.PyDict (map (fun kv => (codePoints (fst kv), load (snd kv))) members)
  end.

(** Every string of the document, keys included, passes [p]. *)
Fixpoint allStrings (p : string -> bool) (v : Json.value) : bool :=
  match v with
  | Json.Str s => p s
  | Json.Array elems => forallb (allStrings p) elems
  | Json.Object members => forallb (fun kv => p (fst kv) && allStrings p (snd kv)) members
  | _ => true
  end.

Definition asciiByte (b : N) : bool := N.ltb b 0x80.

(** The ASCII bytes that the Go and the Python encoder write alike:
    all but the ampersand and the delete character, and, when the Go
    encoder writes backspace and form feed as [\u0008] and [\u000c],
    all but these two as well. *)
Definition sharedByte {tc : Json.Toolchain} (b : N) : bool :=
  N.ltb b 0x7F && negb (N.eqb b 0x26)
  && (Json.shortControlEscapes || negb (N.eqb b 0x08 || N.eqb b 0x0C)).

Definition asciiOnly : Json.value -> bool :=
  allStrings (fun s => forallb asciiByte (codePoints s)).

Definition sharedOnly {tc : Json.Toolchain} : Json.value -> bool :=
  allStrings (fun s => forallb sharedByte (codePoints s)).

(** No text starts with both [a] and [b]. *)
Definition Apart (a b : list ascii) : Prop := forall k1 k2, a ++ k1 <> b ++ k2.

(** [a] and [b] are the same text, or apart. *)
Definition Rel (same : bool) (a b : list ascii) : Prop :=
  if same then a = b else Apart a b.

(** The first or the second character tells [a] and [b] apart. *)
Definition differEarly (a b : list ascii) : bool :=
  match a, b with
  | x :: a', y :: b' =>
      if Ascii.eqb x y then
        match a', b' with
        | x2 :: _, y2 :: _ => negb (Ascii.eqb x2 y2)
        | _, _ => false
        end
      else true
  | _, _ => false
  end.

(** The two replacements of [serialise]. *)
Definition angles (s : list ascii) : list ascii :=
  PyJson.replace ">"%char (String Json.backslash "u003e")
    (PyJson.replace "<"%char (String Json.backslash "u003c") s).

(** What the Go encoder writes for an ASCII byte. *)
Definition goByte {tc : Json.Toolchain} (b : N) : list ascii :=
  if Json.htmlSafe b then [Json.chr b] else Json.escapeAscii b.

(** The comparison of the two encoders on one byte below [0x80]. *)
Definition byteChecked {tc : Json.Toolchain} (n : nat) : bool :=
  let b := N.of_nat n in
  if sharedByte b then
    String.eqb (string_of_list_ascii (angles (PyJson.escapeChar b)))
               (string_of_list_ascii (goByte b))
  else differEarly (angles (PyJson.escapeChar b)) (goByte b).

(** The indent of [serialise]. *)
Definition ind : list ascii := list_ascii_of_string "  ".

(** The comparison of the two encoders on one value, at every depth. *)
Definition related {tc : Json.Toolchain} (v : Json.value) : Prop :=
  forall d, asciiOnly v = true ->
    Rel (sharedOnly v) (angles (PyJson.iterencode ind d (load v)))
        (Json.encodeIndent "" "  " d v).

End JsonAgreement.

(** ** Sample collaborators of the build tool *)

(** A resolver that collects the sources and pins each to the
    architecture, a solver that returns the included packages and
    counts its calls, and an image type whose manifest has one
    pipeline, [os], with the blueprint as its one container. *)
Definition plainBuild : @BuildExternal plainExternal :=
  @Build_BuildExternal plainExternal
    (* ContainerSpec, Resolver *)
    string (string * list string)
    (* NewResolver, ResolverAdd, ResolverFinish *)
    (fun arch => (arch, []))
    (fun (r : string * list string) (c : string) => (fst r, snd r ++ [c]))
    (fun (r : string * list string) =>
       if forallb nonEmpty (snd r)
       then Ok (map (fun s => s ++ "@" ++ fst r)%string (snd r))
       else Err "empty container source")
    (* PackageSpec, Solver *)
    string nat
    (* NewSolver, SetDNFJSONPath, Depsolve *)
    (fun _ _ _ _ _ => 0%nat)
    (fun s _ => s)
    (fun (s : nat) (sets : list (@Rpmmd.PackageSet plainExternal)) =>
       (Ok (flat_map (Rpmmd.Include (ext := plainExternal)) sets), S s))
    (* ImageType, BlueprintValue, CrBlueprint, zeroBlueprint, toBlueprint *)
    string string string "" (fun b => b)
    (* AbstractManifest, ManifestOf *)
    (string * string)%type
    (fun (t bp : string) _ _ _ =>
       if nonEmpty t then Ok ((t, bp), []) else Err "unknown image type")
    (* GetPackageSetChains, GetContainerSourceSpecs, GetOSTreeSourceSpecs *)
    (fun (m : string * string) =>
       [("os", [Rpmmd.mkPackageSet (ext := plainExternal) [fst m] [] []])])
    (fun (m : string * string) => [("os", [snd m])])
    (fun _ => [])
    (* Serialize *)
    (fun (m : string * string) (packages containers : list (string * list string)) _ =>
       Ok (Json.Object
             [("packages", Json.Array (map Json.Str (flat_map snd packages)));
              ("containers", Json.Array (map Json.Str (flat_map snd containers)))]))
    (* filepathJoin, TEST_APITYPE *)
    (fun a b => (a ++ "/" ++ b)%string)
    0%nat.

Module BuildSample.

Definition config (blueprint : option string)
    : @BuildSteps.buildConfig plainExternal plainBuild :=
  BuildSteps.mkBuildConfig (ext := plainExternal) (build := plainBuild)
    "sample" None blueprint.

Definition fedora38 : BuildSteps.distroInfo :=
  BuildSteps.mkDistroInfo "fedora-38" "platform:f38" "38".

(** User settings for the locale, the time and the host name. *)
Definition localeCustomizations : @Blueprint.Customizations plainExternal :=
  Blueprint.mkCustomizations (ext := plainExternal)
    (Some (Blueprint.mkKernel "kernel" "")) [] [] None
    (Some "de_DE.UTF-8", Some "de") (Some "edge-01")
    (Some "Europe/Berlin", ["ntp1.example.org"; "ntp2.example.org"])
    None [] ["/etc/motd"] (Ok []).

(** OpenSCAP options. *)
Definition oscapCustomizations : @Blueprint.Customizations plainExternal :=
  Blueprint.mkCustomizations (ext := plainExternal)
    (Some (Blueprint.mkKernel "kernel" "")) [] [] None (None, None) None (None, [])
    (Some (Blueprint.mkOpenSCAP "" "xccdf_org.ssgproject.content_profile_ospp"))
    [] [] (Ok []).

(** A file system the sample partition table refuses. *)
Definition badFilesystem (c : @Blueprint.Customizations plainExternal)
    : @RawImages.Customizations plainExternal (plainRaw plainExternal) :=
  RawImages.mkCustomizations (ext := plainExternal) (raw := plainRaw plainExternal)
    c ["var/data"] None None None.

(** Customizations of a raw image with a kernel append and an
    Ignition provisioning URL. *)
Definition ignitionCustomizations
    : @RawImages.Customizations plainExternal (plainRaw plainExternal) :=
  RawImages.mkCustomizations (ext := plainExternal) (raw := plainRaw plainExternal)
    Sample.someCustomizations []
    (Some (RawImages.mkIgnition (ext := plainExternal) (raw := plainRaw plainExternal)
             None (Some (RawImages.mkFirstBoot "https://ignition.example.org/config"))))
    None (Some "/dev/sda").

End BuildSample.

(** [filter_builds] of the test generator: which of the generated
    manifests are scheduled for a build.

    What the function asks of its surroundings is given to it: the
    outcome of making and syncing the download directory and of
    listing the manifest directory, each entry of the listing by what
    opening, loading and reading it gives, and the synced directory by
    what testing, opening and loading a path gives.  An exception is
    kept as its text; the values read from a manifest file are strings,
    as the manifest generator writes them. *)
Module FilterBuilds.

(** skip image types that we can't test right now *)
Definition SKIPS : list string :=
  ["edge-ami"; "edge-vsphere"; "edge-installer"; "edge-raw-image";
   "edge-simplified-installer"; "iot-installer"; "iot-raw-image";
   "iot-simplified-installer"].

Definition endsWithSlash (s : string) : bool :=
  match rev (list_ascii_of_string s) with
  | "/"%char :: _ => true
  | _ => false
  end.

(** One round of the loop of [posixpath.join]. *)
Definition joinOne (path b : string) : string :=
  if Strings.HasPrefix b "/" then b
  else if negb (nonEmpty path) || endsWithSlash path then (path ++ b)%string
  else (path ++ "/" ++ b)%string.

(** [os.path.join(a, *p)] *)
Definition path_join (a : string) (p : list string) : string := fold_left joinOne p a.

(** [data["build-request"]], by the keys that are read.  The name of
    the configuration, [build_request["config"]["name"]], is read only
    when a result does not parse; it is given by what reading it
    gives. *)
Record BuildRequest : Type := mkBuildRequest {
  distro : string;
  arch : string;
  image_type : string;
  config_name : result string
}.

(** A manifest file: [data["manifest"]] and [data["build-request"]]. *)
Record ManifestFile : Type := mkManifestFile {
  manifest_data : PyJson.value;
  build_request : BuildRequest
}.

(** An entry of the manifest directory: its manifest file, or the
    exception that opening it, loading it or reading [manifest],
    [build-request], [distro], [arch] or [image-type] raises (the entry
    is a directory, holds no JSON, lacks a key). *)
Inductive Listed : Type :=
| Loaded (m : ManifestFile)
| Unloadable (exc : string).

(** A path of the synced directory: no file; a file that [json.load]
    refuses with the message of its [JSONDecodeError]; the document of
    the file; or a path that exists and whose opening or loading
    raises another exception (a directory, a file that may not be
    read, bytes that are no UTF-8). *)
Inductive Cached : Type :=
| NoFile
| Unparsable (msg : string)
| Parsed (dl_config : PyJson.value)
| Raises (exc : string).

(** [dl_config["commit"]]: the item of a dictionary, [KeyError]
    without it, [TypeError] on anything else. *)
Definition getitem_commit (dl_config : PyJson.value) : result PyJson.value :=
  match dl_config with
  | PyJson.PyDict items =>
      match
        find (fun kv =>
                if list_eq_dec N.eq_dec (fst kv) (JsonAgreement.codePoints "commit")
                then true else false) items
      with
      | Some kv => Ok (snd kv)
      | None => Err "KeyError: 'commit'"
      end
  | _ => Err "TypeError"
  end.

Definition dl_config_path (dl_path : string) (m : ManifestFile) : string :=
  let filename := (BuildConfig.manifest_hash (manifest_data m) ++ ".json")%string in
  path_join dl_path
    ["builds"; distro (build_request m); arch (build_request m); filename].

Definition lf : string := String Json.newline "".

(** The entry of [errors] for a file that does not parse. *)
Definition parseError (path msg : string) (r : BuildRequest) (name : string) : string :=
  ("failed to parse " ++ path ++ lf
    ++ msg ++ lf
    ++ "Scheduling config for rebuild" ++ lf
    ++ "Config: " ++ distro r ++ "/" ++ arch r ++ "/" ++ image_type r ++ "/"
    ++ name ++ lf)%string.

(** [image_type in SKIPS] *)
Definition skipped (m : ManifestFile) : bool :=
  existsb (String.eqb (image_type (build_request m))) SKIPS.

(** The loop over the manifest files.  An exception that is not
    caught ends it: the only one caught is the [JSONDecodeError] of a
    result. *)
Fixpoint filterLoop (dl_path : string) (fs : string -> Cached)
    (entries : list Listed)
    (build_requests : list BuildRequest) (errors : list string)
    : result (list BuildRequest * list string) :=
  match entries with
  | [] => Ok (build_requests, errors)
  | Unloadable exc :: _ => Err exc
  | Loaded m :: rest =>
      if skipped m then filterLoop dl_path fs rest build_requests errors
      else
        (* check if the file exists in the synced directory *)
        match fs (dl_config_path dl_path m) with
        | Parsed dl_config =>
            match getitem_commit dl_config with
            | Ok _ => filterLoop dl_path fs rest build_requests errors
            | Err e => Err e
            | Panic p => Panic p
            end
        | Raises exc => Err exc
        | Unparsable msg =>
            match config_name (build_request m) with
            | Ok name =>
                filterLoop dl_path fs rest
                  (build_requests ++ [build_request m])
                  (errors ++ [parseError (dl_config_path dl_path m) msg
                                (build_request m) name])
            | Err e => Err e
            | Panic p => Panic p
            end
        | NoFile =>
            filterLoop dl_path fs rest (build_requests ++ [build_request m]) errors
        end
  end.

(** [filter_builds]: the build requests and the errors that are
    printed at the end.  [listing] is the outcome of [os.makedirs],
    [dl_s3_configs] and [os.listdir]: the entries of the manifest
    directory, or the exception one of the three raises. *)
Definition filter_builds (dl_path : string) (fs : string -> Cached)
    (listing : result (list Listed)) : result (list BuildRequest * list string) :=
  match listing with
  | Ok entries => filterLoop dl_path fs entries [] []
  | Err exc => Err exc
  | Panic p => Panic p
  end.





End FilterBuilds.

Module FilterSample.
Import FilterBuilds.

Definition qcow2 : ManifestFile :=
  mkManifestFile (PyJson.PyDict [(JsonAgreement.codePoints "version", PyJson.PyStr [50%N])])
    (mkBuildRequest "fedora-38" "x86_64" "qcow2" (Ok "empty")).

Definition ami : ManifestFile :=
  mkManifestFile (PyJson.PyDict [(JsonAgreement.codePoints "version", PyJson.PyStr [51%N])])
    (mkBuildRequest "fedora-38" "x86_64" "ami" (Ok "empty")).

Definition iotRaw : ManifestFile :=
  mkManifestFile (PyJson.PyDict [])
    (mkBuildRequest "fedora-38" "aarch64" "iot-raw-image" (Ok "empty")).

Definition container : ManifestFile :=
  mkManifestFile (PyJson.PyList [])
    (mkBuildRequest "rhel-9.2" "x86_64" "container" (Ok "empty")).

Definition vmdk : ManifestFile :=
  mkManifestFile (PyJson.PyList [PyJson.PyInt 1])
    (mkBuildRequest "rhel-9.2" "x86_64" "vmdk" (Ok "empty")).

(** The synced directory: a result for [qcow2], a broken file for
    [container], a directory in the place of the result of [vmdk],
    nothing else. *)
Definition synced (path : string) : Cached :=
  if String.eqb path (dl_config_path "/cache/s3configs" qcow2) then
    Parsed (PyJson.PyDict [(JsonAgreement.codePoints "commit", PyJson.PyStr [97%N])])
  else if String.eqb path (dl_config_path "/cache/s3configs" container) then
    Unparsable "Expecting value"
  else if String.eqb path (dl_config_path "/cache/s3configs" vmdk) then
    Raises "IsADirectoryError"
  else NoFile.

End FilterSample.

(** * Properties *)

(** ** Small facts used throughout *)

Lemma nonEmpty_true (s : string) : nonEmpty s = true <-> s <> "".
Proof. destruct s; simpl; split; intros; congruence. Qed.

Lemma nonEmpty_false (s : string) : nonEmpty s = false <-> s = "".
Proof. destruct s; simpl; split; intros; congruence. Qed.

Lemma appendNonEmpty_filter (d u : string) :
  appendNonEmpty (appendNonEmpty [] d) u = filter nonEmpty [d; u].
Proof. unfold appendNonEmpty; simpl. destruct (nonEmpty d), (nonEmpty u); reflexivity. Qed.

Lemma append_nil_r_local (s : string) : (s ++ "")%string = s.
Proof. induction s; simpl; congruence. Qed.

Lemma bind_Ok {A B : Type} (m : result A) (k : A -> result B) (b : B) :
  bind m k = Ok b -> exists a, m = Ok a /\ k a = Ok b.
Proof. destruct m; simpl; intros H; try discriminate. eauto. Qed.

Lemma orPanic_Ok {A : Type} (msg : string) (m : result A) (a : A) :
  orPanic msg m = Ok a -> m = Ok a.
Proof. destruct m; simpl; congruence. Qed.

(** Takes a successful run of a monadic computation apart, one bind
    at a time. *)
Ltac unbind H :=
  repeat match type of H with
  | bind _ _ = Ok _ =>
      let a := fresh "v" in
      let Ha := fresh "Hv" in
      apply bind_Ok in H; destruct H as (a & Ha & H)
  | (let '(_, _) := ?p in _) = Ok _ => destruct p
  | match ?p with (_, _) => _ end = Ok _ => destruct p
  end.

Section Merge.
Context {ext : External}.

(** What a successful Fedora merge says about the kernel, the users
    and the groups. *)
Lemma fedora_merge_kernel_users t ps cs c osc :
  Fedora.osCustomizations t ps cs c = Ok osc ->
  (if Fedora.bootable t || Fedora.rpmOstree t
   then exists k, Blueprint.GetKernel c = Some k /\
          Manifest.KernelName osc = Blueprint.Name k /\
          Manifest.KernelOptionsAppend osc =
            filter nonEmpty [Fedora.kernelOptions t; Blueprint.Append k]
   else Manifest.KernelName osc = "" /\ Manifest.KernelOptionsAppend osc = []) /\
  (if Fedora.bootISO t
   then Manifest.Users osc = [] /\ Manifest.Groups osc = []
   else Manifest.Users osc = UsersFromBP (Blueprint.GetUsers c) /\
        Manifest.Groups osc = GroupsFromBP (Blueprint.GetGroups c)) /\
  Manifest.Firewall osc = option_map Fedora.firewallOptions (Blueprint.GetFirewall c).
Proof.
  unfold Fedora.osCustomizations. intros H.
  apply bind_Ok in H. destruct H as ([kn ko] & Hk & H).
  destruct (Fedora.bootISO t) eqn:Hiso; simpl in H;
  destruct (Blueprint.GetPrimaryLocale c) as [language keyboard];
  destruct (Blueprint.GetTimezoneSettings c) as [timezone ntp];
  unbind H; injection H as <-; simpl;
  (split; [| split; [auto | destruct (Blueprint.GetFirewall c); reflexivity]]);
  (destruct (Fedora.bootable t || Fedora.rpmOstree t);
   [ destruct (Blueprint.GetKernel c) as [k|]; [| discriminate];
     injection Hk as <- <-; exists k; rewrite appendNonEmpty_filter; auto
   | injection Hk as <- <-; auto ]).
Qed.

Lemma rhel9_firewallZones_Ok zones :
  forall acc zs,
    Rhel9.firewallZones zones acc = Ok zs ->
    exists added,
      zs = acc ++ added /\
      map (fun z => (Some (Osbuild.Name z), Osbuild.Sources z)) added =
      map (fun z => (Blueprint.zoneName z, Blueprint.zoneSources z)) zones.
Proof.
  induction zones as [|z rest IH]; simpl; intros acc zs H.
  - injection H as <-. exists []. now rewrite app_nil_r.
  - destruct (Blueprint.zoneName z) as [n|] eqn:Hn; [| discriminate].
    apply IH in H. destruct H as (added & -> & Hmap).
    exists (Osbuild.mkFirewallZone n (Blueprint.zoneSources z) :: added).
    rewrite <- app_assoc. simpl. split; [reflexivity |]. now rewrite Hmap.
Qed.

(** The stage options made from a user firewall carry the user's
    ports, services and zones and nothing else. *)
Lemma rhel9_firewallOptions_Ok fw o :
  Rhel9.firewallOptions fw = Ok o ->
  Osbuild.Ports o = Blueprint.Ports fw /\
  Osbuild.EnabledServices o =
    match Blueprint.Services fw with Some s => Blueprint.Enabled s | None => [] end /\
  Osbuild.DisabledServices o =
    match Blueprint.Services fw with Some s => Blueprint.Disabled s | None => [] end /\
  map (fun z => (Some (Osbuild.Name z), Osbuild.Sources z)) (Osbuild.Zones o) =
  map (fun z => (Blueprint.zoneName z, Blueprint.zoneSources z)) (Blueprint.Zones fw).
Proof.
  unfold Rhel9.firewallOptions. intros H.
  apply bind_Ok in H. destruct H as (zs & Hz & H). injection H as <-.
  apply rhel9_firewallZones_Ok in Hz. destruct Hz as (added & -> & Hmap).
  destruct (Blueprint.Services fw); simpl; auto.
Qed.

(** What a successful RHEL 9 merge says about the kernel, the users,
    the groups and the firewall. *)
Lemma rhel9_merge_kernel_users t ps o cs c osc :
  Rhel9.osCustomizations t ps o cs c = Ok osc ->
  (if Rhel9.bootable t || Rhel9.rpmOstree t
   then exists k, Blueprint.GetKernel c = Some k /\
          Manifest.KernelName osc = Blueprint.Name k /\
          Manifest.KernelOptionsAppend osc =
            filter nonEmpty [Rhel9.kernelOptions t; Blueprint.Append k]
   else Manifest.KernelName osc = "" /\ Manifest.KernelOptionsAppend osc = []) /\
  (if Rhel9.bootISO t
   then Manifest.Users osc = [] /\ Manifest.Groups osc = []
   else Manifest.Users osc = UsersFromBP (Blueprint.GetUsers c) /\
        Manifest.Groups osc = GroupsFromBP (Blueprint.GetGroups c)) /\
  match Blueprint.GetFirewall c with
  | Some fw => exists fwo, Rhel9.firewallOptions fw = Ok fwo /\
                           Manifest.Firewall osc = Some fwo
  | None => Manifest.Firewall osc = Distro.Firewall (Rhel9.defaultImageConfig t)
  end.
Proof.
  unfold Rhel9.osCustomizations. intros H.
  apply bind_Ok in H. destruct H as ([kn ko] & Hk & H).
  destruct (Rhel9.bootISO t) eqn:Hiso; simpl in H;
  apply bind_Ok in H; destruct H as (fwr & Hfw & H);
  destruct (Blueprint.GetPrimaryLocale c) as [language keyboard];
  destruct (Blueprint.GetTimezoneSettings c) as [timezone ntp];
  match type of H with
  | (let '(_, _) := ?p in _) = _ => destruct p
  end;
  match type of H with
  | (let '(_, _) := ?p in _) = _ => destruct p
  end;
  unbind H; injection H as <-; simpl;
  (split; [| split; [auto |]]);
  try (destruct (Rhel9.bootable t || Rhel9.rpmOstree t);
       [ destruct (Blueprint.GetKernel c) as [k|]; [| discriminate];
         injection Hk as <- <-; exists k; rewrite appendNonEmpty_filter; now auto
       | injection Hk as <- <-; now auto ]);
  (destruct (Blueprint.GetFirewall c) as [fw|];
   [ apply bind_Ok in Hfw; destruct Hfw as (fwo & Hfwo & Hfw);
     injection Hfw as <-; exists fwo; auto
   | injection Hfw as <-; reflexivity ]).
Qed.
End Merge.

Lemma join_nonEmpty_pair (d u : string) :
  Strings.Join (filter nonEmpty [d; u]) " " =
  if nonEmpty d && nonEmpty u then (d ++ " " ++ u)%string else (d ++ u)%string.
Proof.
  destruct d as [|a d], u as [|b u]; simpl; try reflexivity.
  now rewrite append_nil_r_local.
Qed.

(** ** OSTree commit derivation *)

(** C4. [makeOSTreePayloadCommit] fails with "ostree commit URL
    required" exactly when the options are absent or their URL is
    empty, whatever the refs are; otherwise it succeeds with the options'
    URL and RHSM flag and with the user's image ref when that is not
    empty, else the default ref.  Both distro packages agree. *)
Theorem payload_commit_requires_url :
  forall (options : option Ostree.ImageOptions) (defaultRef : string),
    Rhel9.makeOSTreePayloadCommit options defaultRef =
      Fedora.makeOSTreePayloadCommit options defaultRef /\
    (Fedora.makeOSTreePayloadCommit options defaultRef = Err "ostree commit URL required"
     <-> options = None \/ exists o, options = Some o /\ Ostree.URL o = "") /\
    (forall e, Fedora.makeOSTreePayloadCommit options defaultRef = Err e ->
               e = "ostree commit URL required") /\
    (forall p, Fedora.makeOSTreePayloadCommit options defaultRef <> Panic p) /\
    (forall o, options = Some o -> Ostree.URL o <> "" ->
       exists spec,
         Fedora.makeOSTreePayloadCommit options defaultRef = Ok spec /\
         Ostree.srcURL spec = Ostree.URL o /\
         Ostree.srcRHSM spec = Ostree.RHSM o /\
         (Ostree.ImageRef o <> "" -> Ostree.srcRef spec = Ostree.ImageRef o) /\
         (Ostree.ImageRef o = "" -> Ostree.srcRef spec = defaultRef)).
Proof.
  intros options defaultRef.
  unfold Rhel9.makeOSTreePayloadCommit, Fedora.makeOSTreePayloadCommit.
  split; [reflexivity |].
  destruct options as [o|].
  - destruct (nonEmpty (Ostree.URL o)) eqn:Hurl; simpl.
    + apply nonEmpty_true in Hurl.
      repeat split; try discriminate.
      * intros [H | (o' & H & Hempty)]; [discriminate |].
        injection H as <-. contradiction.
      * intros o' H _. injection H as <-.
        eexists; repeat split; simpl.
        -- intros Href. apply nonEmpty_true in Href. now rewrite Href.
        -- intros Href. apply nonEmpty_false in Href. now rewrite Href.
    + apply nonEmpty_false in Hurl.
      repeat split; try discriminate.
      * intros _. right. exists o. auto.
      * intros e H. now injection H as <-.
      * intros o' H Hne. injection H as <-. contradiction.
  - repeat split; try discriminate; auto.
    intros e H. now injection H as <-.
Qed.

(** C5. [makeOSTreeParentCommit] has no error result.  Without
    options there is no parent and the ref is the default ref; a
    non-empty image ref of the user becomes the effective ref; without
    a URL there is no parent; with a URL the parent has that URL and
    RHSM flag, and its ref is the explicit parent ref, or the effective
    ref when no parent ref is given.  Both distro packages agree. *)
Theorem parent_commit_derivation :
  forall (options : option Ostree.ImageOptions) (defaultRef : string),
    Rhel9.makeOSTreeParentCommit options defaultRef =
      Fedora.makeOSTreeParentCommit options defaultRef /\
    (options = None ->
       Fedora.makeOSTreeParentCommit options defaultRef = (None, defaultRef)) /\
    (forall o, options = Some o ->
       let parent := fst (Fedora.makeOSTreeParentCommit options defaultRef) in
       let effective := snd (Fedora.makeOSTreeParentCommit options defaultRef) in
       (Ostree.ImageRef o <> "" -> effective = Ostree.ImageRef o) /\
       (Ostree.ImageRef o = "" -> effective = defaultRef) /\
       (Ostree.URL o = "" -> parent = None) /\
       (Ostree.URL o <> "" ->
          exists p,
            parent = Some p /\
            Ostree.srcURL p = Ostree.URL o /\
            Ostree.srcRHSM p = Ostree.RHSM o /\
            (Ostree.ParentRef o = "" -> Ostree.srcRef p = effective) /\
            (Ostree.ParentRef o <> "" -> Ostree.srcRef p = Ostree.ParentRef o))).
Proof.
  intros options defaultRef.
  unfold Rhel9.makeOSTreeParentCommit, Fedora.makeOSTreeParentCommit.
  split; [reflexivity |]. split.
  - now intros ->.
  - intros o ->.
    destruct (nonEmpty (Ostree.ImageRef o)) eqn:Href;
    destruct (nonEmpty (Ostree.URL o)) eqn:Hurl;
    destruct (nonEmpty (Ostree.ParentRef o)) eqn:Hparent; simpl;
    rewrite ?nonEmpty_true, ?nonEmpty_false in *;
    repeat split; intros; try contradiction; try congruence;
    eexists; repeat split; simpl; intros; try contradiction; congruence.
Qed.

(** ** The customization merge *)

Section MergeReturns.
Context {ext : External}.

(** The Fedora merge returns unless one of its panics fires. *)
Lemma fedora_merge_returns t ps cs c dirs files repos yum keys :
  (Fedora.bootable t || Fedora.rpmOstree t = true -> Blueprint.GetKernel c <> None) ->
  (Blueprint.GetOpenSCAP c <> None -> Fedora.rpmOstree t = false) ->
  DirectoryCustomizationsToFsNodeDirectories (Blueprint.GetDirectories c) = Ok dirs ->
  FileCustomizationsToFsNodeFiles (Blueprint.GetFiles c) = Ok files ->
  Blueprint.GetRepositories c = Ok repos ->
  RepoCustomizationsToRepoConfigAndGPGKeyFiles repos = Ok (yum, keys) ->
  exists osc, Fedora.osCustomizations t ps cs c = Ok osc.
Proof.
  intros Hk Hscap Hd Hf Hr Hy. unfold Fedora.osCustomizations.
  destruct (Fedora.bootable t || Fedora.rpmOstree t).
  - destruct (Blueprint.GetKernel c) as [k|]; [| now destruct Hk].
    simpl.
    destruct (Fedora.bootISO t); simpl;
    destruct (Blueprint.GetPrimaryLocale c), (Blueprint.GetTimezoneSettings c);
    (destruct (Blueprint.GetOpenSCAP c);
     [ rewrite Hscap by discriminate | ]);
    simpl; rewrite Hd, Hf, Hr; simpl; rewrite Hy; simpl; eauto.
  - simpl.
    destruct (Fedora.bootISO t); simpl;
    destruct (Blueprint.GetPrimaryLocale c), (Blueprint.GetTimezoneSettings c);
    (destruct (Blueprint.GetOpenSCAP c);
     [ rewrite Hscap by discriminate | ]);
    simpl; rewrite Hd, Hf, Hr; simpl; rewrite Hy; simpl; eauto.
Qed.

Lemma rhel9_firewallZones_returns zones :
  Forall (fun z => Blueprint.zoneName z <> None) zones ->
  forall acc, exists zs, Rhel9.firewallZones zones acc = Ok zs.
Proof.
  induction 1 as [|z rest Hz _ IH]; intros acc; simpl; [eauto |].
  destruct (Blueprint.zoneName z); [apply IH | now destruct Hz].
Qed.

(** The RHEL 9 merge returns unless one of its panics fires. *)
Lemma rhel9_merge_returns t ps o cs c dirs files repos yum keys :
  (Rhel9.bootable t || Rhel9.rpmOstree t = true -> Blueprint.GetKernel c <> None) ->
  (forall fw, Blueprint.GetFirewall c = Some fw ->
     Forall (fun z => Blueprint.zoneName z <> None) (Blueprint.Zones fw)) ->
  (Blueprint.GetOpenSCAP c <> None -> Rhel9.rpmOstree t = false) ->
  DirectoryCustomizationsToFsNodeDirectories (Blueprint.GetDirectories c) = Ok dirs ->
  FileCustomizationsToFsNodeFiles (Blueprint.GetFiles c) = Ok files ->
  Blueprint.GetRepositories c = Ok repos ->
  RepoCustomizationsToRepoConfigAndGPGKeyFiles repos = Ok (yum, keys) ->
  exists osc, Rhel9.osCustomizations t ps o cs c = Ok osc.
Proof.
  intros Hk Hfw Hscap Hd Hf Hr Hy. unfold Rhel9.osCustomizations.
  assert (Hkernel : exists kn,
            (if Rhel9.bootable t || Rhel9.rpmOstree t
             then match Blueprint.GetKernel c with
                  | Some bpKernel =>
                      Ok (Blueprint.Name bpKernel,
                          appendNonEmpty (appendNonEmpty [] (Rhel9.kernelOptions t))
                            (Blueprint.Append bpKernel))
                  | None => Panic nilDereference
                  end
             else Ok ("", [])) = Ok kn).
  { destruct (Rhel9.bootable t || Rhel9.rpmOstree t); [| eauto].
    destruct (Blueprint.GetKernel c); [eauto | now destruct Hk]. }
  destruct Hkernel as ([kn ko] & ->). cbn [bind].
  assert (Hfirewall : exists fwr,
            match Blueprint.GetFirewall c with
            | Some fw => bind (Rhel9.firewallOptions fw) (fun fwOptions => Ok (Some fwOptions))
            | None => Ok (Distro.Firewall (Rhel9.defaultImageConfig t))
            end = Ok fwr).
  { destruct (Blueprint.GetFirewall c) as [fw|]; [| eauto].
    unfold Rhel9.firewallOptions.
    cbv zeta.
  edestruct (rhel9_firewallZones_returns _ (Hfw fw eq_refl)) as (zs & Hzs).
  rewrite Hzs. cbn [bind]. eauto. }
  destruct Hfirewall as (fwr & Hfwr).
  destruct (Rhel9.bootISO t); cbv zeta iota beta; rewrite Hfwr; cbn [bind];
    destruct (Blueprint.GetPrimaryLocale c) as [language keyboard];
    destruct (Blueprint.GetTimezoneSettings c) as [timezone ntp];
    (destruct (Blueprint.GetOpenSCAP c);
     [ rewrite Hscap by discriminate | ]);
    repeat match goal with
           | |- context [let '(_, _) := ?p in _] => destruct p
           end;
    cbn [bind orPanic]; rewrite Hd, Hf, Hr; cbn [bind orPanic]; rewrite Hy;
    cbn [bind orPanic]; eauto.
Qed.
End MergeReturns.

(** C2. For a bootable or rpm-ostree image type the merged kernel
    options are the default append string of the image type followed by
    the user's append string, an empty string contributing nothing;
    joined with a space they read default, space, user.  This holds for
    the Fedora and for the RHEL 9 merge. *)
Theorem kernel_options_default_then_user (ext : External) :
  (forall t ps cs c osc,
     Fedora.bootable t || Fedora.rpmOstree t = true ->
     Fedora.osCustomizations t ps cs c = Ok osc ->
     exists k,
       Blueprint.GetKernel c = Some k /\
       Manifest.KernelOptionsAppend osc =
         filter nonEmpty [Fedora.kernelOptions t; Blueprint.Append k] /\
       Strings.Join (Manifest.KernelOptionsAppend osc) " " =
         if nonEmpty (Fedora.kernelOptions t) && nonEmpty (Blueprint.Append k)
         then (Fedora.kernelOptions t ++ " " ++ Blueprint.Append k)%string
         else (Fedora.kernelOptions t ++ Blueprint.Append k)%string) /\
  (forall t ps o cs c osc,
     Rhel9.bootable t || Rhel9.rpmOstree t = true ->
     Rhel9.osCustomizations t ps o cs c = Ok osc ->
     exists k,
       Blueprint.GetKernel c = Some k /\
       Manifest.KernelOptionsAppend osc =
         filter nonEmpty [Rhel9.kernelOptions t; Blueprint.Append k] /\
       Strings.Join (Manifest.KernelOptionsAppend osc) " " =
         if nonEmpty (Rhel9.kernelOptions t) && nonEmpty (Blueprint.Append k)
         then (Rhel9.kernelOptions t ++ " " ++ Blueprint.Append k)%string
         else (Rhel9.kernelOptions t ++ Blueprint.Append k)%string).
Proof.
  split.
  - intros t ps cs c osc Hboot H.
    apply fedora_merge_kernel_users in H. destruct H as (Hk & _).
    rewrite Hboot in Hk. destruct Hk as (k & Hget & _ & Happ).
    exists k. rewrite Happ. auto using join_nonEmpty_pair.
  - intros t ps o cs c osc Hboot H.
    apply rhel9_merge_kernel_users in H. destruct H as (Hk & _).
    rewrite Hboot in Hk. destruct Hk as (k & Hget & _ & Happ).
    exists k. rewrite Happ. auto using join_nonEmpty_pair.
Qed.

(** The default [quiet] and the user's [debug] give [quiet debug]. *)
Lemma kernel_options_quiet_debug :
  exists osc,
    Fedora.osCustomizations (Sample.fedoraType "39" true false false "quiet" None)
      (Sample.noPackages "os") [] Sample.someCustomizations = Ok osc /\
    Manifest.KernelOptionsAppend osc = ["quiet"; "debug"] /\
    Strings.Join (Manifest.KernelOptionsAppend osc) " " = "quiet debug".
Proof.
  destruct (Fedora.osCustomizations (Sample.fedoraType "39" true false false "quiet" None)
              (Sample.noPackages "os") [] Sample.someCustomizations) as [osc| |] eqn:Hrun;
    [| vm_compute in Hrun; discriminate | vm_compute in Hrun; discriminate].
  exists osc. split; [reflexivity |].
  destruct (proj1 (kernel_options_default_then_user plainExternal)
              (Sample.fedoraType "39" true false false "quiet" None) _ _ _ _
              eq_refl Hrun) as (k & Hk & Happ & Hjoin).
  vm_compute in Hk. injection Hk as <-.
  split; [exact Happ | exact Hjoin].
Defined.

(** C3. For an image type with the [bootISO] flag the merge leaves the
    users and the groups of the OS customizations empty, whatever the
    user supplied; the image installers hand the user's users and
    groups to the installer image instead. *)
Theorem installer_payload_has_no_users (ext : External) :
  (forall t ps cs c osc,
     Fedora.bootISO t = true ->
     Fedora.osCustomizations t ps cs c = Ok osc ->
     Manifest.Users osc = [] /\ Manifest.Groups osc = []) /\
  (forall t ps o cs c osc,
     Rhel9.bootISO t = true ->
     Rhel9.osCustomizations t ps o cs c = Ok osc ->
     Manifest.Users osc = [] /\ Manifest.Groups osc = []) /\
  (forall t c o ps cs img,
     Fedora.bootISO t = true ->
     Fedora.imageInstallerImage t c o ps cs = Ok img ->
     Manifest.Users (Image.AnacondaTarInstaller.OSCustomizations img) = [] /\
     Manifest.Groups (Image.AnacondaTarInstaller.OSCustomizations img) = [] /\
     Image.AnacondaTarInstaller.Users img = UsersFromBP (Blueprint.GetUsers c) /\
     Image.AnacondaTarInstaller.Groups img = GroupsFromBP (Blueprint.GetGroups c)) /\
  (forall t c o ps cs img,
     Rhel9.bootISO t = true ->
     Rhel9.imageInstallerImage t c o ps cs = Ok img ->
     Manifest.Users (Image.AnacondaTarInstaller.OSCustomizations img) = [] /\
     Manifest.Groups (Image.AnacondaTarInstaller.OSCustomizations img) = [] /\
     Image.AnacondaTarInstaller.Users img = UsersFromBP (Blueprint.GetUsers c) /\
     Image.AnacondaTarInstaller.Groups img = GroupsFromBP (Blueprint.GetGroups c)).
Proof.
  assert (HF : forall t ps cs c osc,
             Fedora.bootISO t = true ->
             Fedora.osCustomizations t ps cs c = Ok osc ->
             Manifest.Users osc = [] /\ Manifest.Groups osc = []).
  { intros t ps cs c osc Hiso H.
    apply fedora_merge_kernel_users in H. destruct H as (_ & Hu & _).
    now rewrite Hiso in Hu. }
  assert (HR : forall t ps o cs c osc,
             Rhel9.bootISO t = true ->
             Rhel9.osCustomizations t ps o cs c = Ok osc ->
             Manifest.Users osc = [] /\ Manifest.Groups osc = []).
  { intros t ps o cs c osc Hiso H.
    apply rhel9_merge_kernel_users in H. destruct H as (_ & Hu & _).
    now rewrite Hiso in Hu. }
  split; [exact HF | split; [exact HR | split]].
  - intros t c o ps cs img Hiso H. unfold Fedora.imageInstallerImage in H.
    apply bind_Ok in H. destruct H as (webui & _ & H).
    destruct webui; simpl in H;
    apply bind_Ok in H; destruct H as (osc & Hosc & H);
    injection H as <-; simpl; destruct (HF _ _ _ _ _ Hiso Hosc); auto.
  - intros t c o ps cs img Hiso H. unfold Rhel9.imageInstallerImage in H.
    apply bind_Ok in H. destruct H as (osc & Hosc & H).
    injection H as <-; simpl; destruct (HR _ _ _ _ _ _ Hiso Hosc); auto.
Qed.

(** An installer type given one user and one group. *)
Lemma installer_payload_sample :
  exists img,
    Fedora.imageInstallerImage (Sample.fedoraType "39" true false true "" None)
      Sample.someCustomizations Sample.noOptions Sample.noPackages [] = Ok img /\
    Manifest.Users (Image.AnacondaTarInstaller.OSCustomizations img) = [] /\
    Manifest.Groups (Image.AnacondaTarInstaller.OSCustomizations img) = [] /\
    Image.AnacondaTarInstaller.Users img = ["admin"] /\
    Image.AnacondaTarInstaller.Groups img = ["wheel"].
Proof.
  destruct (Fedora.imageInstallerImage (Sample.fedoraType "39" true false true "" None)
              Sample.someCustomizations Sample.noOptions Sample.noPackages [])
    as [img| |] eqn:Hrun;
    [| vm_compute in Hrun; discriminate | vm_compute in Hrun; discriminate].
  exists img. split; [reflexivity |].
  exact (proj1 (proj2 (proj2 (installer_payload_has_no_users plainExternal)))
           (Sample.fedoraType "39" true false true "" None) _ _ _ _ _ eq_refl Hrun).
Defined.

(** C10. For an image type that is neither bootable nor rpm-ostree the
    merge leaves the kernel name and the kernel options empty, whatever
    kernel name or append string the user supplied. *)
Theorem kernel_dropped_without_boot (ext : External) :
  (forall t ps cs c osc,
     Fedora.bootable t = false -> Fedora.rpmOstree t = false ->
     Fedora.osCustomizations t ps cs c = Ok osc ->
     Manifest.KernelName osc = "" /\ Manifest.KernelOptionsAppend osc = []) /\
  (forall t ps o cs c osc,
     Rhel9.bootable t = false -> Rhel9.rpmOstree t = false ->
     Rhel9.osCustomizations t ps o cs c = Ok osc ->
     Manifest.KernelName osc = "" /\ Manifest.KernelOptionsAppend osc = []).
Proof.
  split.
  - intros t ps cs c osc Hb Ho H.
    apply fedora_merge_kernel_users in H. destruct H as (Hk & _).
    now rewrite Hb, Ho in Hk.
  - intros t ps o cs c osc Hb Ho H.
    apply rhel9_merge_kernel_users in H. destruct H as (Hk & _).
    now rewrite Hb, Ho in Hk.
Qed.

(** A container-like type: the user's kernel [kernel-rt] and append
    [debug] leave no trace. *)
Lemma kernel_dropped_sample :
  exists osc,
    Rhel9.osCustomizations (Sample.rhelType "9.3" false false false "quiet" None)
      (Sample.noPackages "os") Sample.noOptions [] Sample.someCustomizations = Ok osc /\
    Manifest.KernelName osc = "" /\ Manifest.KernelOptionsAppend osc = [].
Proof.
  destruct (Rhel9.osCustomizations (Sample.rhelType "9.3" false false false "quiet" None)
              (Sample.noPackages "os") Sample.noOptions [] Sample.someCustomizations)
    as [osc| |] eqn:Hrun;
    [| vm_compute in Hrun; discriminate | vm_compute in Hrun; discriminate].
  exists osc. split; [reflexivity |].
  exact (proj2 (kernel_dropped_without_boot plainExternal)
           (Sample.rhelType "9.3" false false false "quiet" None) _ _ _ _ _
           eq_refl eq_refl Hrun).
Defined.

Section FirewallMerge.
Context {ext : External}.

(** The RHEL 9 merge: a user firewall replaces the default of the
    image type, and without one the default is handed on as it is. *)
Lemma rhel9_firewall_replaces_default t ps o cs c osc :
  Rhel9.osCustomizations t ps o cs c = Ok osc ->
  match Blueprint.GetFirewall c with
  | Some fw =>
      exists fwo,
        Manifest.Firewall osc = Some fwo /\
        Osbuild.Ports fwo = Blueprint.Ports fw /\
        Osbuild.EnabledServices fwo =
          match Blueprint.Services fw with Some s => Blueprint.Enabled s | None => [] end /\
        Osbuild.DisabledServices fwo =
          match Blueprint.Services fw with Some s => Blueprint.Disabled s | None => [] end /\
        map (fun z => (Some (Osbuild.Name z), Osbuild.Sources z)) (Osbuild.Zones fwo) =
        map (fun z => (Blueprint.zoneName z, Blueprint.zoneSources z)) (Blueprint.Zones fw)
  | None => Manifest.Firewall osc = Distro.Firewall (Rhel9.defaultImageConfig t)
  end.
Proof.
  intros H. apply rhel9_merge_kernel_users in H. destruct H as (_ & _ & H).
  destruct (Blueprint.GetFirewall c) as [fw|]; [| exact H].
  destruct H as (fwo & Hfwo & Hosc). exists fwo. split; [exact Hosc |].
  now apply rhel9_firewallOptions_Ok.
Qed.

(** The Fedora merge never looks at the default firewall of the
    image type. *)
Lemma fedora_firewall_from_user_only t ps cs c osc :
  Fedora.osCustomizations t ps cs c = Ok osc ->
  Manifest.Firewall osc = option_map Fedora.firewallOptions (Blueprint.GetFirewall c).
Proof. intros H. now apply fedora_merge_kernel_users in H. Qed.

(** The stage options the Fedora merge makes carry no zone. *)
Lemma fedora_firewallOptions_no_zones fw :
  Osbuild.Zones (Fedora.firewallOptions fw) = [].
Proof. unfold Fedora.firewallOptions. now destruct (Blueprint.Services fw). Qed.
End FirewallMerge.

(** C1. The Fedora merge on an image type whose default firewall
    enables [ssh]: without a user firewall the merged firewall is unset
    and not the default; with a user firewall that enables [http] and
    names a zone the merged firewall has the user's service and no
    zone.  The RHEL 9 merge on the same inputs gives the default, and
    the user's service together with the zone. *)
Theorem fedora_firewall_merge_misses_default_and_zones :
  (exists osc,
     Fedora.osCustomizations
       (Sample.fedoraType "39" true false false "" (Some Sample.sshFirewall))
       (Sample.noPackages "os") [] Sample.noCustomizations = Ok osc /\
     Manifest.Firewall osc = None) /\
  (exists osc,
     Fedora.osCustomizations
       (Sample.fedoraType "39" true false false "" (Some Sample.sshFirewall))
       (Sample.noPackages "os") [] Sample.firewallCustomizations = Ok osc /\
     Manifest.Firewall osc = Some (Osbuild.mkFirewallStageOptions [] ["http"] [] [])) /\
  (exists osc,
     Rhel9.osCustomizations
       (Sample.rhelType "9.3" true false false "" (Some Sample.sshFirewall))
       (Sample.noPackages "os") Sample.noOptions [] Sample.noCustomizations = Ok osc /\
     Manifest.Firewall osc = Some Sample.sshFirewall) /\
  (exists osc,
     Rhel9.osCustomizations
       (Sample.rhelType "9.3" true false false "" (Some Sample.sshFirewall))
       (Sample.noPackages "os") Sample.noOptions [] Sample.firewallCustomizations = Ok osc /\
     Manifest.Firewall osc =
       Some (Osbuild.mkFirewallStageOptions [] ["http"] []
               [Osbuild.mkFirewallZone "trusted" ["192.0.2.0/24"]])).
Proof.
  repeat split; eexists; split; try (vm_compute; reflexivity); reflexivity.
Qed.

Section UsersModule.
Context {ext : External}.

(** The RHEL 9 edge installer enables the users module exactly when
    a user or a group is staged. *)
Lemma rhel9_edge_installer_users_module t c o ps cs img :
  Rhel9.edgeInstallerImage t c o ps cs = Ok img ->
  Image.AnacondaOSTreeInstaller.Users img = UsersFromBP (Blueprint.GetUsers c) /\
  Image.AnacondaOSTreeInstaller.Groups img = GroupsFromBP (Blueprint.GetGroups c) /\
  Image.AnacondaOSTreeInstaller.AdditionalAnacondaModules img =
    match Image.AnacondaOSTreeInstaller.Users img,
          Image.AnacondaOSTreeInstaller.Groups img with
    | [], [] => []
    | _, _ => [usersModule]
    end.
Proof.
  unfold Rhel9.edgeInstallerImage. intros H.
  apply bind_Ok in H. destruct H as (commit & _ & H). injection H as <-. simpl.
  repeat split.
  destruct (UsersFromBP (Blueprint.GetUsers c)),
           (GroupsFromBP (Blueprint.GetGroups c)); reflexivity.
Qed.

(** The Fedora IoT installer lists the users module whatever the
    customizations are. *)
Lemma fedora_iot_installer_users_module t c o ps cs img :
  Fedora.iotInstallerImage t c o ps cs = Ok img ->
  In usersModule (Image.AnacondaOSTreeInstaller.AdditionalAnacondaModules img).
Proof.
  unfold Fedora.iotInstallerImage. intros H.
  apply bind_Ok in H. destruct H as (commit & _ & H). injection H as <-. simpl.
  right. right. left. reflexivity.
Qed.
End UsersModule.

(** C7. The Fedora IoT installer built without any user or group
    stages none and still enables the users module; the RHEL 9 edge
    installer on the same customizations enables no module. *)
Theorem fedora_iot_installer_enables_users_module_without_users :
  (exists img,
     Fedora.iotInstallerImage (Sample.fedoraType "39" true true true "" None)
       Sample.noCustomizations (Sample.ostreeOptions "https://ostree.example.org/repo")
       Sample.noPackages [] = Ok img /\
     Image.AnacondaOSTreeInstaller.Users img = [] /\
     Image.AnacondaOSTreeInstaller.Groups img = [] /\
     Image.AnacondaOSTreeInstaller.AdditionalAnacondaModules img =
       ["org.fedoraproject.Anaconda.Modules.Timezone";
        "org.fedoraproject.Anaconda.Modules.Localization";
        "org.fedoraproject.Anaconda.Modules.Users"]) /\
  (exists img,
     Rhel9.edgeInstallerImage (Sample.rhelType "9.3" true true true "" None)
       Sample.noCustomizations (Sample.ostreeOptions "https://ostree.example.org/repo")
       Sample.noPackages [] = Ok img /\
     Image.AnacondaOSTreeInstaller.Users img = [] /\
     Image.AnacondaOSTreeInstaller.Groups img = [] /\
     Image.AnacondaOSTreeInstaller.AdditionalAnacondaModules img = []).
Proof.
  split; eexists; (split; [vm_compute; reflexivity |]); repeat split.
Qed.

(** ** Release comparison and the version gates *)

Module VersionOrder.
Import Common.
Local Open Scope N_scope.








Lemma parseVersion_rolling : parseVersion rollingToken = Some Rolling.
Proof. reflexivity. Qed.
End VersionOrder.

Section Gates.
Context {ext : External}.



End Gates.



(** ** The deterministic OSTree resolver *)

Module Sha256Facts.
Import Sha256.

Lemma bigEndian_length (n : nat) (x : Z) : List.length (bigEndian n x) = n.
Proof. induction n; simpl; congruence. Qed.

Lemma round_length (st : list Z) (kw : Z * Z) :
  List.length st = 8 -> List.length (round st kw) = 8.
Proof.
  intros H. do 9 (destruct st as [|? st]; try discriminate). reflexivity.
Qed.

Lemma rounds_length (kws : list (Z * Z)) :
  forall st, List.length st = 8 -> List.length (fold_left round kws st) = 8.
Proof. induction kws; simpl; auto using round_length. Qed.

Lemma compress_length (st block : list Z) :
  List.length st = 8 -> List.length (compress st block) = 8.
Proof.
  intros H. unfold compress.
  rewrite length_map, length_combine, rounds_length, H by exact H. reflexivity.
Qed.

Lemma blocks_length (blocks : list (list Z)) :
  forall st, List.length st = 8 -> List.length (fold_left compress blocks st) = 8.
Proof. induction blocks; simpl; auto using compress_length. Qed.

Lemma flat_bigEndian_length (st : list Z) :
  List.length (flat_map (bigEndian 4) st) = 4 * List.length st.
Proof.
  induction st as [|x st IH]; [reflexivity |].
  cbn [flat_map]. rewrite length_app, bigEndian_length, IH. simpl. lia.
Qed.

(** A digest has 32 bytes. *)
Lemma Sum256_length (data : string) : List.length (Sum256 data) = 32.
Proof.
  unfold Sum256. rewrite flat_bigEndian_length, blocks_length; reflexivity.
Qed.

Lemma hexString_length (bs : list Z) :
  String.length (hexString bs) = 2 * List.length bs.
Proof. induction bs as [|b bs IH]; simpl; [reflexivity | rewrite IH; lia]. Qed.

(** The digest of [abc], as in the standard. *)
Example Sum256_abc :
  hexString (Sum256 "abc") =
  "ba7816bf8f01cfea414140de5dae2223b00361a396177a9cb410ff61f20015ad".
Proof. vm_compute. reflexivity. Qed.

Example Sum256_empty :
  hexString (Sum256 "") =
  "e3b0c44298fc1c149afbf4c8996fb92427ae41e4649b934ca495991b7852b855".
Proof. vm_compute. reflexivity. Qed.

(** A message of two blocks. *)
Example Sum256_two_blocks :
  hexString (Sum256 "abcdbcdecdefdefgefghfghighijhijkijkljklmklmnlmnomnopnopq") =
  "248d6a61d20638b8e5c026930c3e6039a33ce45964ff2167f6ecedd419db06c1".
Proof. vm_compute. reflexivity. Qed.
End Sha256Facts.

(** C8. The resolved commit has the ref and the URL of the source; its
    checksum is the hexadecimal SHA-256 digest, 64 digits, of the URL
    followed by the ref, so two sources with the same URL and ref get
    the same checksum; its secrets provider is
    [org.osbuild.rhsm.consumer] exactly when the source has the RHSM
    flag, and empty otherwise.  The digest is the one of the standard:
    it is pinned on the test vectors of FIPS 180, on messages around
    the padding boundary, and on a source of the Fedora IoT repository,
    whose checksum changes with the ref. *)
Theorem resolveCommit_deterministic_checksum :
  forall source : Ostree.SourceSpec,
    let spec := BuildTool.resolveCommit source in
    let digest := fun message => hexString (Sha256.Sum256 message) in
    let url := "https://ostree.example.org/repo" in
    let a55 := "aaaaaaaaaaaaaaaaaaaaaaaaaaaaaaaaaaaaaaaaaaaaaaaaaaaaaaa" in
    Ostree.Checksum spec =
      hexString (Sha256.Sum256 (Ostree.srcURL source ++ Ostree.srcRef source)) /\
    String.length (Ostree.Checksum spec) = 64 /\
    Ostree.Ref spec = Ostree.srcRef source /\
    Ostree.commitURL spec = Ostree.srcURL source /\
    Ostree.Secrets spec =
      (if Ostree.srcRHSM source then "org.osbuild.rhsm.consumer" else "") /\
    (Ostree.Secrets spec = "org.osbuild.rhsm.consumer" <-> Ostree.srcRHSM source = true) /\
    (forall other : Ostree.SourceSpec,
       Ostree.srcURL other = Ostree.srcURL source ->
       Ostree.srcRef other = Ostree.srcRef source ->
       Ostree.Checksum (BuildTool.resolveCommit other) = Ostree.Checksum spec) /\
    digest "" = "e3b0c44298fc1c149afbf4c8996fb92427ae41e4649b934ca495991b7852b855" /\
    digest "abc" = "ba7816bf8f01cfea414140de5dae2223b00361a396177a9cb410ff61f20015ad" /\
    digest "abcdbcdecdefdefgefghfghighijhijkijkljklmklmnlmnomnopnopq" =
      "248d6a61d20638b8e5c026930c3e6039a33ce45964ff2167f6ecedd419db06c1" /\
    digest a55 = "9f4390f8d30c2dd92ec9f095b65e2b9ae9b0a925a5258e241c9f1e910f734318" /\
    digest (a55 ++ "a")%string =
      "b35439a4ac6f0948b6d6f9e3c6af0f5f590ce20f1bde7090ef7970686ec6738a" /\
    digest (a55 ++ "aaaaaaaaa")%string =
      "ffe054fe7ae0cb6dc65c3af9b61d5209f439851db43d0ba5997337df154668eb" /\
    BuildTool.resolveCommit (Ostree.mkSourceSpec url "fedora/38/x86_64/iot" true) =
      Ostree.mkCommitSpec "fedora/38/x86_64/iot" url
        "eed64ceaec093afd1f77bef3dc68bb50bb1d39f280268c6e5408305b82f1573a"
        "org.osbuild.rhsm.consumer" /\
    BuildTool.resolveCommit (Ostree.mkSourceSpec url "fedora/39/x86_64/iot" false) =
      Ostree.mkCommitSpec "fedora/39/x86_64/iot" url
        "91b93c5865b39859fe79c0f888fae770ce941b309075e0c0edefe4c18b4f26d0" "".
Proof.
  intros source spec digest url a55.
  assert (Hvectors :
    digest "" = "e3b0c44298fc1c149afbf4c8996fb92427ae41e4649b934ca495991b7852b855" /\
    digest "abc" = "ba7816bf8f01cfea414140de5dae2223b00361a396177a9cb410ff61f20015ad" /\
    digest "abcdbcdecdefdefgefghfghighijhijkijkljklmklmnlmnomnopnopq" =
      "248d6a61d20638b8e5c026930c3e6039a33ce45964ff2167f6ecedd419db06c1" /\
    digest a55 = "9f4390f8d30c2dd92ec9f095b65e2b9ae9b0a925a5258e241c9f1e910f734318" /\
    digest (a55 ++ "a")%string =
      "b35439a4ac6f0948b6d6f9e3c6af0f5f590ce20f1bde7090ef7970686ec6738a" /\
    digest (a55 ++ "aaaaaaaaa")%string =
      "ffe054fe7ae0cb6dc65c3af9b61d5209f439851db43d0ba5997337df154668eb" /\
    BuildTool.resolveCommit (Ostree.mkSourceSpec url "fedora/38/x86_64/iot" true) =
      Ostree.mkCommitSpec "fedora/38/x86_64/iot" url
        "eed64ceaec093afd1f77bef3dc68bb50bb1d39f280268c6e5408305b82f1573a"
        "org.osbuild.rhsm.consumer" /\
    BuildTool.resolveCommit (Ostree.mkSourceSpec url "fedora/39/x86_64/iot" false) =
      Ostree.mkCommitSpec "fedora/39/x86_64/iot" url
        "91b93c5865b39859fe79c0f888fae770ce941b309075e0c0edefe4c18b4f26d0" "").
  { repeat split; vm_compute; reflexivity. }
  assert (Hsum : forall s, Ostree.Checksum (BuildTool.resolveCommit s) =
                   hexString (Sha256.Sum256 (Ostree.srcURL s ++ Ostree.srcRef s))).
  { intros s. unfold BuildTool.resolveCommit. now destruct (Ostree.srcRHSM s). }
  split; [apply Hsum |].
  split; [subst spec; now rewrite Hsum, Sha256Facts.hexString_length,
                                   Sha256Facts.Sum256_length |].
  assert (Hrest : forall other : Ostree.SourceSpec,
             Ostree.srcURL other = Ostree.srcURL source ->
             Ostree.srcRef other = Ostree.srcRef source ->
             Ostree.Checksum (BuildTool.resolveCommit other) = Ostree.Checksum spec).
  { intros other Hu Hr. subst spec. now rewrite !Hsum, Hu, Hr. }
  assert (Hfields :
    Ostree.Ref spec = Ostree.srcRef source /\
    Ostree.commitURL spec = Ostree.srcURL source /\
    Ostree.Secrets spec =
      (if Ostree.srcRHSM source then "org.osbuild.rhsm.consumer" else "") /\
    (Ostree.Secrets spec = "org.osbuild.rhsm.consumer" <-> Ostree.srcRHSM source = true) /\
    (forall other : Ostree.SourceSpec,
       Ostree.srcURL other = Ostree.srcURL source ->
       Ostree.srcRef other = Ostree.srcRef source ->
       Ostree.Checksum (BuildTool.resolveCommit other) = Ostree.Checksum spec)).
  { clear Hvectors. subst spec. unfold BuildTool.resolveCommit in *.
    destruct (Ostree.srcRHSM source); simpl; repeat split; try discriminate; auto. }
  destruct Hfields as (Href & Hurl & Hsecrets & Hrhsm & Hother).
  repeat (split; [assumption |]). exact Hvectors.
Qed.

(** A source of the Fedora IoT repository, resolved. *)
Example resolveCommit_sample :
  BuildTool.resolveCommit
    (Ostree.mkSourceSpec "https://ostree.example.org/repo" "fedora/38/x86_64/iot" true) =
  Ostree.mkCommitSpec "fedora/38/x86_64/iot" "https://ostree.example.org/repo"
    "eed64ceaec093afd1f77bef3dc68bb50bb1d39f280268c6e5408305b82f1573a" "org.osbuild.rhsm.consumer".
Proof. vm_compute. reflexivity. Qed.

(** ** The manifest writer *)

Module JsonFacts.
Import Json JsonLayout.
Local Open Scope N_scope.

Lemma value_nested_ind (P : value -> Prop) :
  P Null ->
  (forall b, P (Bool b)) ->
  (forall n, P (Number n)) ->
  (forall s, P (Str s)) ->
  (forall elems, Forall P elems -> P (Array elems)) ->
  (forall members, Forall (fun kv => P (snd kv)) members -> P (Object members)) ->
  forall v, P v.
Proof.
  intros HNull HBool HNumber HStr HArray HObject.
  refine (fix IH (v : value) : P v :=
            match v with
            | Null => HNull
            | Bool b => HBool b
            | Number n => HNumber n
            | Str s => HStr s
            | Array elems =>
                HArray elems
                  ((fix all (l : list value) : Forall P l :=
                      match l with
                      | [] => Forall_nil P
                      | x :: l' => Forall_cons x (IH x) (all l')
                      end) elems)
            | Object members =>
                HObject members
                  ((fix all (l : list (string * value))
                      : Forall (fun kv => P (snd kv)) l :=
                      match l with
                      | [] => Forall_nil _
                      | kv :: l' => Forall_cons kv (IH (snd kv)) (all l')
                      end) members)
            end).
Qed.

(** Settles [plainChar] for a character that is known. *)
Ltac known_plain :=
  repeat split; let E := fresh "E" in intro E; vm_compute in E; discriminate E.

Lemma plain_notAngle (l : list ascii) : Forall plainChar l -> Forall notAngle l.
Proof. apply Forall_impl. now intros c [H _]. Qed.





Section WithToolchain.
Context {tc : Toolchain}.











Lemma string_of_uint_plain (d : Decimal.uint) :
  Forall plainChar (list_ascii_of_string (NilEmpty.string_of_uint d)).
Proof.
  induction d; simpl; constructor; auto; known_plain.
Qed.

Lemma encodeInt_plain (n : Z) : Forall plainChar (encodeInt n).
Proof.
  unfold encodeInt, NilZero.string_of_int, NilZero.string_of_uint.
  destruct (Z.to_int n) as [d | d].
  - destruct d; try apply string_of_uint_plain.
    repeat (constructor; [known_plain |]); constructor.
  - cbn [list_ascii_of_string]. constructor; [known_plain |].
    destruct d; try apply string_of_uint_plain.
    repeat (constructor; [known_plain |]); constructor.
Qed.


(** *** Layout *)




Lemma repeatString_spaces (n : nat) :
  repeatString n (list_ascii_of_string "  ") = repeat space (2 * n).
Proof.
  induction n as [|n IH]; [reflexivity |].
  replace (2 * S n)%nat with (S (S (2 * n))) by lia.
  cbn [repeatString repeat]. now rewrite IH.
Qed.

(** With two-space indentation a line at depth [d] starts with [2 d]
    spaces. *)
Lemma lineStart_two_spaces (d : nat) :
  lineStart "" "  " d = newline :: repeat space (2 * d).
Proof. unfold lineStart. cbn [list_ascii_of_string app]. now rewrite repeatString_spaces. Qed.

(** *** No angle bracket is written *)

Lemma lineStart_notAngle (d : nat) : Forall notAngle (lineStart "" "  " d).
Proof.
  rewrite lineStart_two_spaces.
  constructor; [split; intro E; vm_compute in E; discriminate E |].
  induction (2 * d)%nat; simpl; constructor; auto.
  split; intro E; vm_compute in E; discriminate E.
Qed.



(** *** The encoding does not end with a line feed *)


End WithToolchain.

Lemma string_of_list_ascii_snoc (l : list ascii) (c : ascii) :
  string_of_list_ascii (l ++ [c]) = (string_of_list_ascii l ++ String c "")%string.
Proof. induction l as [|x l IH]; simpl; [reflexivity | now rewrite IH]. Qed.
End JsonFacts.


(** * Further properties *)

(** * Further properties of the merge and of the commit derivation *)

Lemma bind_Err {A B : Type} (m : result A) (k : A -> result B) (e : string) :
  bind m k = Err e -> m = Err e \/ exists a, m = Ok a /\ k a = Err e.
Proof.
  destruct m as [a | e0 | p]; simpl; intros H.
  - right. exists a. auto.
  - left. now injection H as ->.
  - discriminate.
Qed.

Lemma orPanic_not_Err {A : Type} (msg : string) (m : result A) (e : string) :
  orPanic msg m <> Err e.
Proof. destruct m; simpl; discriminate. Qed.

(** Settles a hypothesis that says a computation made of tests only
    returned an error. *)
Ltac no_error H :=
  solve [ exfalso; revert H; apply orPanic_not_Err
        | exfalso;
          repeat match type of H with
                 | context [match ?x with _ => _ end] => destruct x
                 end;
          simpl in H; discriminate H ].

(** Follows an error through the binds of a computation. *)
Ltac trace_error H :=
  repeat match type of H with
         | bind _ _ = Err _ =>
             let a := fresh "v" in
             let Ha := fresh "Hv" in
             apply bind_Err in H; destruct H as [H | (a & Ha & H)]; [no_error H |]
         | (let '(_, _) := ?p in _) = Err _ => destruct p
         | match ?p with (_, _) => _ end = Err _ => destruct p
         end.

Section MergeFailures.
Context {ext : External}.

Lemma rhel9_firewallZones_not_Err zones :
  forall acc e, Rhel9.firewallZones zones acc <> Err e.
Proof.
  induction zones as [|z rest IH]; simpl; intros acc e; [discriminate |].
  destruct (Blueprint.zoneName z); [apply IH | discriminate].
Qed.

Lemma rhel9_firewallOptions_not_Err fw e : Rhel9.firewallOptions fw <> Err e.
Proof.
  unfold Rhel9.firewallOptions. intros H.
  apply bind_Err in H. destruct H as [H | (zs & _ & H)]; [| discriminate].
  now apply rhel9_firewallZones_not_Err in H.
Qed.

Lemma fedora_merge_not_Err t ps cs c e : Fedora.osCustomizations t ps cs c <> Err e.
Proof.
  unfold Fedora.osCustomizations. intros H.
  apply bind_Err in H. destruct H as [H | ([kn ko] & _ & H)]; [no_error H |].
  destruct (Fedora.bootISO t); simpl in H;
    destruct (Blueprint.GetPrimaryLocale c), (Blueprint.GetTimezoneSettings c);
    trace_error H; discriminate H.
Qed.

Lemma rhel9_merge_not_Err t ps o cs c e : Rhel9.osCustomizations t ps o cs c <> Err e.
Proof.
  unfold Rhel9.osCustomizations. intros H.
  apply bind_Err in H. destruct H as [H | ([kn ko] & _ & H)]; [no_error H |].
  destruct (Rhel9.bootISO t); simpl in H;
    (apply bind_Err in H; destruct H as [H | (fwr & _ & H)];
     [ destruct (Blueprint.GetFirewall c) as [fw|]; [| discriminate H];
       apply bind_Err in H; destruct H as [H | (? & _ & H)]; [| discriminate H];
       now apply rhel9_firewallOptions_not_Err in H
     | ]);
    destruct (Blueprint.GetPrimaryLocale c), (Blueprint.GetTimezoneSettings c);
    repeat match type of H with
           | (let '(_, _) := ?p in _) = _ => destruct p
           end;
    trace_error H; discriminate H.
Qed.
End MergeFailures.


Section MergeFields.
Context {ext : External}.

(** What a successful Fedora merge says about the other facets. *)
Lemma fedora_merge_fields t ps cs c osc :
  Fedora.osCustomizations t ps cs c = Ok osc ->
  let cfg := Fedora.defaultImageConfig t in
  Manifest.Language osc =
    userThenDefault (fst (Blueprint.GetPrimaryLocale c)) (Distro.Locale cfg) /\
  Manifest.Keyboard osc =
    match snd (Blueprint.GetPrimaryLocale c) with
    | Some k => Some k
    | None => option_map Distro.Keymap (Distro.Keyboard cfg)
    end /\
  Manifest.Hostname osc =
    match Blueprint.GetHostname c with Some h => h | None => "localhost.localdomain" end /\
  Manifest.Timezone osc =
    userThenDefault (fst (Blueprint.GetTimezoneSettings c)) (Distro.Timezone cfg) /\
  Manifest.NTPServers osc =
    match snd (Blueprint.GetTimezoneSettings c) with
    | [] => match Distro.TimeSynchronization cfg with
            | Some ts => Distro.Servers ts
            | None => []
            end
    | servers => map Osbuild.mkChronyConfigServer servers
    end /\
  Manifest.LeapSecTZ osc = None /\
  (Blueprint.GetOpenSCAP c <> None -> Fedora.rpmOstree t = false) /\
  exists dirs files repos yum keys,
    DirectoryCustomizationsToFsNodeDirectories (Blueprint.GetDirectories c) = Ok dirs /\
    FileCustomizationsToFsNodeFiles (Blueprint.GetFiles c) = Ok files /\
    Blueprint.GetRepositories c = Ok repos /\
    RepoCustomizationsToRepoConfigAndGPGKeyFiles repos = Ok (yum, keys) /\
    Manifest.Directories osc = dirs /\
    Manifest.Files osc = files ++ keys /\
    Manifest.YUMRepos osc =
      map (fun entry => NewYumReposStageOptions (fst entry) (snd entry)) yum.
Proof.
  unfold Fedora.osCustomizations. intros H.
  apply bind_Ok in H. destruct H as ([kn ko] & _ & H).
  destruct (Blueprint.GetPrimaryLocale c) as [language keyboard];
  destruct (Blueprint.GetTimezoneSettings c) as [timezone ntp].
  assert (Hscap : Blueprint.GetOpenSCAP c <> None -> Fedora.rpmOstree t = false).
  { intros Hsome. destruct (Fedora.bootISO t); simpl in H;
      apply bind_Ok in H; destruct H as (scap & Hs & _);
      destruct (Blueprint.GetOpenSCAP c); try contradiction;
      destruct (Fedora.rpmOstree t); congruence. }
  destruct (Fedora.bootISO t); simpl in H;
    (destruct keyboard as [k|];
     [ | destruct (Distro.Keyboard (Fedora.defaultImageConfig t)) as [kb|] ]);
    (destruct ntp as [|server ntp];
     [ destruct (Distro.TimeSynchronization (Fedora.defaultImageConfig t)) as [ts|] | ]);
    cbn -[Nat.ltb bind] in H;
    apply bind_Ok in H; destruct H as (scap & _ & H);
    apply bind_Ok in H; destruct H as (dirs & Hd & H);
    apply bind_Ok in H; destruct H as (files & Hf & H);
    apply bind_Ok in H; destruct H as (repos & Hr & H);
    apply bind_Ok in H; destruct H as ([yum keys] & Hy & H);
    apply orPanic_Ok in Hd, Hf, Hr, Hy;
    injection H as <-; cbn -[Nat.ltb];
    (do 6 (split; [reflexivity |]); split; [exact Hscap |];
     exists dirs, files, repos, yum, keys; repeat split; auto;
     destruct keys; simpl; [now rewrite app_nil_r | reflexivity]).
Qed.

(** What a successful RHEL 9 merge says about the other facets. *)
Lemma rhel9_merge_fields t ps o cs c osc :
  Rhel9.osCustomizations t ps o cs c = Ok osc ->
  let cfg := Rhel9.defaultImageConfig t in
  Manifest.Language osc =
    userThenDefault (fst (Blueprint.GetPrimaryLocale c)) (Distro.Locale cfg) /\
  Manifest.Keyboard osc =
    match snd (Blueprint.GetPrimaryLocale c) with
    | Some k => Some k
    | None => option_map Distro.Keymap (Distro.Keyboard cfg)
    end /\
  Manifest.Hostname osc =
    match Blueprint.GetHostname c with Some h => h | None => "" end /\
  Manifest.Timezone osc =
    userThenDefault (fst (Blueprint.GetTimezoneSettings c)) (Distro.Timezone cfg) /\
  Manifest.NTPServers osc =
    match snd (Blueprint.GetTimezoneSettings c) with
    | [] => match Distro.TimeSynchronization cfg with
            | Some ts => Distro.Servers ts
            | None => []
            end
    | servers => map Osbuild.mkChronyConfigServer servers
    end /\
  Manifest.LeapSecTZ osc =
    match snd (Blueprint.GetTimezoneSettings c) with
    | [] => match Distro.TimeSynchronization cfg with
            | Some ts => Distro.LeapsecTz ts
            | None => None
            end
    | _ => None
    end /\
  (Blueprint.GetOpenSCAP c <> None -> Rhel9.rpmOstree t = false) /\
  exists dirs files repos yum keys,
    DirectoryCustomizationsToFsNodeDirectories (Blueprint.GetDirectories c) = Ok dirs /\
    FileCustomizationsToFsNodeFiles (Blueprint.GetFiles c) = Ok files /\
    Blueprint.GetRepositories c = Ok repos /\
    RepoCustomizationsToRepoConfigAndGPGKeyFiles repos = Ok (yum, keys) /\
    Manifest.Directories osc = dirs /\
    Manifest.Files osc = files ++ keys /\
    Manifest.YUMRepos osc =
      Distro.YUMRepos cfg ++
      map (fun entry => NewYumReposStageOptions (fst entry) (snd entry)) yum.
Proof.
  unfold Rhel9.osCustomizations. intros H.
  apply bind_Ok in H. destruct H as ([kn ko] & _ & H).
  destruct (Blueprint.GetPrimaryLocale c) as [language keyboard];
  destruct (Blueprint.GetTimezoneSettings c) as [timezone ntp].
  assert (Hscap : Blueprint.GetOpenSCAP c <> None -> Rhel9.rpmOstree t = false).
  { intros Hsome. destruct (Rhel9.bootISO t); simpl in H;
      apply bind_Ok in H; destruct H as (fwr & _ & H);
      repeat match type of H with
             | (let '(_, _) := ?p in _) = _ => destruct p
             end;
      apply bind_Ok in H; destruct H as (scap & Hs & _);
      destruct (Blueprint.GetOpenSCAP c); try contradiction;
      destruct (Rhel9.rpmOstree t); congruence. }
  destruct (Rhel9.bootISO t); simpl in H;
    apply bind_Ok in H; destruct H as (fwr & _ & H);
    destruct keyboard as [k|];
    [ | destruct (Distro.Keyboard (Rhel9.defaultImageConfig t)) as [kb|]
      | | destruct (Distro.Keyboard (Rhel9.defaultImageConfig t)) as [kb|] ];
    (destruct ntp as [|server ntp];
     [ destruct (Distro.TimeSynchronization (Rhel9.defaultImageConfig t)) as [ts|] | ]);
    cbn -[Nat.ltb bind] in H;
    apply bind_Ok in H; destruct H as (scap & _ & H);
    apply bind_Ok in H; destruct H as (dirs & Hd & H);
    apply bind_Ok in H; destruct H as (files & Hf & H);
    apply bind_Ok in H; destruct H as (repos & Hr & H);
    apply bind_Ok in H; destruct H as ([yum keys] & Hy & H);
    apply orPanic_Ok in Hd, Hf, Hr, Hy;
    injection H as <-; cbn -[Nat.ltb];
    (do 6 (split; [reflexivity |]); split; [exact Hscap |];
     exists dirs, files, repos, yum, keys; repeat split; auto;
     destruct keys; simpl; [now rewrite app_nil_r | reflexivity]).
Qed.
End MergeFields.

(** X1. OpenSCAP options on an rpm-ostree image type: the merge never
    returns; when the kernel accessor answers (and, for RHEL 9, every
    firewall zone of the user is named) it panics with "unexpected oscap
    options for ostree image type". *)
Theorem oscap_on_ostree_type_panics (ext : External) :
  (forall t ps cs c oc,
     Fedora.rpmOstree t = true ->
     Blueprint.GetOpenSCAP c = Some oc ->
     (forall osc, Fedora.osCustomizations t ps cs c <> Ok osc) /\
     (Blueprint.GetKernel c <> None ->
      Fedora.osCustomizations t ps cs c =
        Panic "unexpected oscap options for ostree image type")) /\
  (forall t ps o cs c oc,
     Rhel9.rpmOstree t = true ->
     Blueprint.GetOpenSCAP c = Some oc ->
     (forall osc, Rhel9.osCustomizations t ps o cs c <> Ok osc) /\
     (Blueprint.GetKernel c <> None ->
      (forall fw, Blueprint.GetFirewall c = Some fw ->
         Forall (fun z => Blueprint.zoneName z <> None) (Blueprint.Zones fw)) ->
      Rhel9.osCustomizations t ps o cs c =
        Panic "unexpected oscap options for ostree image type")).
Proof.
  split.
  - intros t ps cs c oc Hostree Hscap. split.
    + intros osc H. apply fedora_merge_fields in H.
      destruct H as (_ & _ & _ & _ & _ & _ & Hno & _).
      rewrite Hno in Hostree by congruence. discriminate.
    + intros Hk. unfold Fedora.osCustomizations.
      rewrite Hostree, orb_true_r, Hscap.
      destruct (Blueprint.GetKernel c) as [k|]; [| contradiction].
      cbn [bind].
      destruct (Fedora.bootISO t);
        destruct (Blueprint.GetPrimaryLocale c), (Blueprint.GetTimezoneSettings c);
        reflexivity.
  - intros t ps o cs c oc Hostree Hscap. split.
    + intros osc H. apply rhel9_merge_fields in H.
      destruct H as (_ & _ & _ & _ & _ & _ & Hno & _).
      rewrite Hno in Hostree by congruence. discriminate.
    + intros Hk Hzones. unfold Rhel9.osCustomizations.
      rewrite Hostree, orb_true_r, Hscap.
      destruct (Blueprint.GetKernel c) as [k|]; [| contradiction].
      cbn [bind].
      assert (Hfw : exists fwr,
                match Blueprint.GetFirewall c with
                | Some fw =>
                    bind (Rhel9.firewallOptions fw) (fun fwOptions => Ok (Some fwOptions))
                | None => Ok (Distro.Firewall (Rhel9.defaultImageConfig t))
                end = Ok fwr).
      { destruct (Blueprint.GetFirewall c) as [fw|]; [| eauto].
        unfold Rhel9.firewallOptions. cbv zeta.
        edestruct (rhel9_firewallZones_returns _ (Hzones fw eq_refl)) as (zs & Hzs).
        rewrite Hzs. cbn [bind]. eauto. }
      destruct Hfw as (fwr & Hfw).
      destruct (Rhel9.bootISO t); cbv zeta iota beta; rewrite Hfw; cbn [bind];
        destruct (Blueprint.GetPrimaryLocale c), (Blueprint.GetTimezoneSettings c);
        repeat match goal with
               | |- context [let '(_, _) := ?p in _] => destruct p
               end;
        reflexivity.
Qed.

(** X2. Time servers given by the user become one record per server,
    in the user's order, and replace the default servers of the image
    type; the RHEL 9 merge then also drops the default leap-second time
    zone.  Without user servers the defaults, leap-second time zone
    included, are kept. *)
Theorem user_ntp_servers_replace_defaults (ext : External) :
  (forall t ps cs c osc,
     Fedora.osCustomizations t ps cs c = Ok osc ->
     snd (Blueprint.GetTimezoneSettings c) <> [] ->
     map Osbuild.Hostname (Manifest.NTPServers osc) =
       snd (Blueprint.GetTimezoneSettings c)) /\
  (forall t ps o cs c osc,
     Rhel9.osCustomizations t ps o cs c = Ok osc ->
     snd (Blueprint.GetTimezoneSettings c) <> [] ->
     map Osbuild.Hostname (Manifest.NTPServers osc) =
       snd (Blueprint.GetTimezoneSettings c) /\
     Manifest.LeapSecTZ osc = None) /\
  (forall t ps o cs c osc ts,
     Rhel9.osCustomizations t ps o cs c = Ok osc ->
     snd (Blueprint.GetTimezoneSettings c) = [] ->
     Distro.TimeSynchronization (Rhel9.defaultImageConfig t) = Some ts ->
     Manifest.NTPServers osc = Distro.Servers ts /\
     Manifest.LeapSecTZ osc = Distro.LeapsecTz ts).
Proof.
  assert (Hmap : forall servers,
             map Osbuild.Hostname (map Osbuild.mkChronyConfigServer servers) = servers).
  { induction servers; simpl; congruence. }
  split; [| split].
  - intros t ps cs c osc H Hne. apply fedora_merge_fields in H.
    destruct H as (_ & _ & _ & _ & Hntp & _). rewrite Hntp.
    destruct (snd (Blueprint.GetTimezoneSettings c)); [contradiction | apply Hmap].
  - intros t ps o cs c osc H Hne. apply rhel9_merge_fields in H.
    destruct H as (_ & _ & _ & _ & Hntp & Hleap & _). rewrite Hntp, Hleap.
    destruct (snd (Blueprint.GetTimezoneSettings c)); [contradiction |].
    split; [apply Hmap | reflexivity].
  - intros t ps o cs c osc ts H Hnone Hts. apply rhel9_merge_fields in H.
    destruct H as (_ & _ & _ & _ & Hntp & Hleap & _).
    rewrite Hntp, Hleap, Hnone, Hts. auto.
Qed.

(** X3. The files of the merged tree are the user's files followed by
    the key files of the custom repositories: the key files are added
    at the end and no file of the user is lost. *)
Theorem gpg_key_files_follow_user_files (ext : External) :
  (forall t ps cs c osc,
     Fedora.osCustomizations t ps cs c = Ok osc ->
     exists files repos yum keys,
       FileCustomizationsToFsNodeFiles (Blueprint.GetFiles c) = Ok files /\
       Blueprint.GetRepositories c = Ok repos /\
       RepoCustomizationsToRepoConfigAndGPGKeyFiles repos = Ok (yum, keys) /\
       Manifest.Files osc = files ++ keys) /\
  (forall t ps o cs c osc,
     Rhel9.osCustomizations t ps o cs c = Ok osc ->
     exists files repos yum keys,
       FileCustomizationsToFsNodeFiles (Blueprint.GetFiles c) = Ok files /\
       Blueprint.GetRepositories c = Ok repos /\
       RepoCustomizationsToRepoConfigAndGPGKeyFiles repos = Ok (yum, keys) /\
       Manifest.Files osc = files ++ keys).
Proof.
  split.
  - intros t ps cs c osc H. apply fedora_merge_fields in H.
    destruct H as (_ & _ & _ & _ & _ & _ & _ & dirs & files & repos & yum & keys & H).
    exists files, repos, yum, keys. tauto.
  - intros t ps o cs c osc H. apply rhel9_merge_fields in H.
    destruct H as (_ & _ & _ & _ & _ & _ & _ & dirs & files & repos & yum & keys & H).
    exists files, repos, yum, keys. tauto.
Qed.

(** X4. Language, keyboard, time zone and host name: a value of the
    user wins over the default of the image type in both merges.
    Without a host name of the user the Fedora merge writes
    [localhost.localdomain] and the RHEL 9 merge leaves the host name
    empty. *)
Theorem user_locale_settings_win (ext : External) :
  (forall t ps cs c osc,
     Fedora.osCustomizations t ps cs c = Ok osc ->
     (forall l, fst (Blueprint.GetPrimaryLocale c) = Some l -> Manifest.Language osc = l) /\
     (forall k, snd (Blueprint.GetPrimaryLocale c) = Some k ->
                Manifest.Keyboard osc = Some k) /\
     (forall z, fst (Blueprint.GetTimezoneSettings c) = Some z ->
                Manifest.Timezone osc = z) /\
     (forall h, Blueprint.GetHostname c = Some h -> Manifest.Hostname osc = h) /\
     (Blueprint.GetHostname c = None -> Manifest.Hostname osc = "localhost.localdomain")) /\
  (forall t ps o cs c osc,
     Rhel9.osCustomizations t ps o cs c = Ok osc ->
     (forall l, fst (Blueprint.GetPrimaryLocale c) = Some l -> Manifest.Language osc = l) /\
     (forall k, snd (Blueprint.GetPrimaryLocale c) = Some k ->
                Manifest.Keyboard osc = Some k) /\
     (forall z, fst (Blueprint.GetTimezoneSettings c) = Some z ->
                Manifest.Timezone osc = z) /\
     (forall h, Blueprint.GetHostname c = Some h -> Manifest.Hostname osc = h) /\
     (Blueprint.GetHostname c = None -> Manifest.Hostname osc = "")).
Proof.
  split.
  - intros t ps cs c osc H. apply fedora_merge_fields in H.
    destruct H as (Hl & Hk & Hh & Hz & _).
    repeat split; intros; rewrite ?Hl, ?Hk, ?Hh, ?Hz;
      match goal with E : _ = _ |- _ => rewrite E end; reflexivity.
  - intros t ps o cs c osc H. apply rhel9_merge_fields in H.
    destruct H as (Hl & Hk & Hh & Hz & _).
    repeat split; intros; rewrite ?Hl, ?Hk, ?Hh, ?Hz;
      match goal with E : _ = _ |- _ => rewrite E end; reflexivity.
Qed.

(** X5. The payload commit and the parent commit of one set of
    options fit together: with a URL the payload commit has the ref
    that the parent derivation gives the new commit, and when no parent
    ref is named the two requests are the same; without a URL there is
    no parent and the payload derivation fails.  The copies of the two
    derivations in package [rhel9] compute the same. *)
Theorem payload_and_parent_commits_agree :
  forall (o : Ostree.ImageOptions) (defaultRef : string),
    (forall options,
       Rhel9.makeOSTreePayloadCommit options defaultRef =
         Fedora.makeOSTreePayloadCommit options defaultRef /\
       Rhel9.makeOSTreeParentCommit options defaultRef =
         Fedora.makeOSTreeParentCommit options defaultRef) /\
    (Ostree.URL o <> "" ->
     exists spec,
       Fedora.makeOSTreePayloadCommit (Some o) defaultRef = Ok spec /\
       Ostree.srcRef spec = snd (Fedora.makeOSTreeParentCommit (Some o) defaultRef) /\
       (Ostree.ParentRef o = "" ->
        fst (Fedora.makeOSTreeParentCommit (Some o) defaultRef) = Some spec)) /\
    (Ostree.URL o = "" ->
     fst (Fedora.makeOSTreeParentCommit (Some o) defaultRef) = None /\
     Fedora.makeOSTreePayloadCommit (Some o) defaultRef =
       Err "ostree commit URL required").
Proof.
  intros o defaultRef.
  split; [intros options; split; reflexivity |].
  unfold Fedora.makeOSTreePayloadCommit, Fedora.makeOSTreeParentCommit.
  split.
  - intros Hurl. apply nonEmpty_true in Hurl. rewrite Hurl. cbn [negb fst snd].
    eexists. split; [reflexivity |]. split; [reflexivity |].
    intros ->. reflexivity.
  - intros Hurl. rewrite Hurl. auto.
Qed.

(** ** Repositories of the build tool *)

Module BuildReposFacts.
Import BuildRepos.

Lemma addIfTagged_spec (tags : list string) (typeName : string) (repo : repository)
    (filtered : list repository) :
  addIfTagged tags typeName repo filtered =
  if existsb (fun tag => String.eqb tag typeName) tags then filtered ++ [repo]
  else filtered.
Proof.
  induction tags as [|tag rest IH]; simpl; [reflexivity |].
  destruct (String.eqb tag typeName); [reflexivity | exact IH].
Qed.

Lemma filter_step (typeName : string) (repo : repository) (filtered : list repository) :
  (if (List.length (ImageTypeTags repo) =? 0)%nat then filtered ++ [repo]
   else addIfTagged (ImageTypeTags repo) typeName repo filtered) =
  filtered ++ (if matchesType typeName repo then [repo] else []).
Proof.
  unfold matchesType. rewrite addIfTagged_spec.
  destruct (ImageTypeTags repo) as [|tag tags]; [reflexivity |].
  cbn [List.length Nat.eqb].
  destruct (existsb _ (tag :: tags)); [reflexivity | now rewrite app_nil_r].
Qed.

Lemma filterRepos_from (typeName : string) (repos : list repository) :
  forall filtered,
    fold_left
      (fun filtered repo =>
         if (List.length (ImageTypeTags repo) =? 0)%nat then filtered ++ [repo]
         else addIfTagged (ImageTypeTags repo) typeName repo filtered)
      repos filtered =
    filtered ++ filter (matchesType typeName) repos.
Proof.
  induction repos as [|repo rest IH]; intros filtered; cbn [fold_left filter].
  - now rewrite app_nil_r.
  - rewrite filter_step, IH, <- app_assoc.
    now destruct (matchesType typeName repo).
Qed.

Lemma filterRepos_filter (repos : list repository) (typeName : string) :
  filterRepos repos typeName = filter (matchesType typeName) repos.
Proof. unfold filterRepos. now rewrite filterRepos_from. Qed.

Lemma filter_twice {A : Type} (f : A -> bool) (l : list A) :
  filter f (filter f l) = filter f l.
Proof.
  induction l as [|x l IH]; simpl; [reflexivity |].
  destruct (f x) eqn:E; simpl; rewrite ?E, IH; reflexivity.
Qed.

Lemma setIndex_middle {A : Type} (done : list A) (old v : A) (rest : list A) :
  setIndex (done ++ old :: rest) (List.length done) v = Ok (done ++ v :: rest).
Proof.
  unfold setIndex.
  replace (List.length done <? List.length (done ++ old :: rest))%nat with true
    by (symmetry; apply Nat.ltb_lt; rewrite length_app; simpl; lia).
  f_equal. induction done as [|a done IH]; [reflexivity |].
  cbn [List.length app firstn].
  change (skipn (S (S (List.length done))) (a :: done ++ old :: rest))
    with (skipn (S (List.length done)) (done ++ old :: rest)).
  cbn [app]. f_equal. exact IH.
Qed.

Lemma convertLoop_spec (rr : list repository) :
  forall done,
    convertLoop (List.length done) rr (done ++ repeat zeroRepoConfig (List.length rr)) =
    Ok (done ++ map convertRepo rr).
Proof.
  induction rr as [|r rest IH]; intros done; cbn [convertLoop List.length repeat map].
  - reflexivity.
  - rewrite setIndex_middle. cbn [bind].
    specialize (IH (done ++ [convertRepo r])).
    rewrite length_app, <- app_assoc in IH. cbn [List.length app] in IH.
    rewrite Nat.add_1_r in IH. rewrite IH, <- app_assoc. reflexivity.
Qed.

Lemma convertRepos_map (rr : list repository) :
  convertRepos rr = Ok (map convertRepo rr).
Proof. exact (convertLoop_spec rr []). Qed.
End BuildReposFacts.

(** X6. [filterRepos] keeps, in their order and once each, exactly
    the repositories that have no image type tag or have the type name
    among their tags; filtering a second time changes nothing. *)
Theorem filterRepos_keeps_matching_repositories :
  forall (repos : list BuildRepos.repository) (typeName : string),
    BuildRepos.filterRepos repos typeName =
      filter (BuildRepos.matchesType typeName) repos /\
    (forall repo,
       In repo (BuildRepos.filterRepos repos typeName) <->
       In repo repos /\
       (BuildRepos.ImageTypeTags repo = [] \/
        In typeName (BuildRepos.ImageTypeTags repo))) /\
    BuildRepos.filterRepos (BuildRepos.filterRepos repos typeName) typeName =
      BuildRepos.filterRepos repos typeName /\
    (List.length (BuildRepos.filterRepos repos typeName) <= List.length repos)%nat.
Proof.
  intros repos typeName.
  assert (Hmatch : forall repo,
             BuildRepos.matchesType typeName repo = true <->
             BuildRepos.ImageTypeTags repo = [] \/
             In typeName (BuildRepos.ImageTypeTags repo)).
  { intros repo. unfold BuildRepos.matchesType.
    destruct (BuildRepos.ImageTypeTags repo) as [|tag tags] eqn:E.
    - split; auto.
    - rewrite existsb_exists. split.
      + intros (x & Hin & Heq). apply String.eqb_eq in Heq. subst. auto.
      + intros [H | H]; [discriminate |].
        exists typeName. split; [exact H | apply String.eqb_refl]. }
  rewrite !BuildReposFacts.filterRepos_filter.
  split; [reflexivity |]. split; [| split].
  - intros repo. rewrite filter_In, Hmatch. reflexivity.
  - apply BuildReposFacts.filter_twice.
  - apply filter_length_le.
Qed.

(** X7. [convertRepos] never runs out of its slice: it returns one
    configuration per repository, in order, each the conversion of its
    repository; a base URL or key list has at most one entry, and never
    an empty one. *)
Theorem convertRepos_converts_each_repository :
  forall rr : list BuildRepos.repository,
    BuildRepos.convertRepos rr = Ok (map BuildRepos.convertRepo rr) /\
    (forall r config,
       config = BuildRepos.convertRepo r ->
       (List.length (BuildRepos.BaseURLs config) <= 1)%nat /\
       (List.length (BuildRepos.GPGKeys config) <= 1)%nat /\
       ~ In "" (BuildRepos.BaseURLs config) /\
       ~ In "" (BuildRepos.GPGKeys config) /\
       (BuildRepos.BaseURL r <> "" ->
        BuildRepos.BaseURLs config = [BuildRepos.BaseURL r]) /\
       (BuildRepos.GPGKey r <> "" ->
        BuildRepos.GPGKeys config = [BuildRepos.GPGKey r])).
Proof.
  intros rr. split; [apply BuildReposFacts.convertRepos_map |].
  intros r config ->. unfold BuildRepos.convertRepo. cbn.
  destruct (BuildRepos.BaseURL r) as [|c s] eqn:Eu;
    destruct (BuildRepos.GPGKey r) as [|c' s'] eqn:Ek; cbn;
    repeat split; try lia; try tauto; try congruence;
    try (intros [H | H]; [discriminate H | exact H]).
Qed.

(** ** Build names *)

Module BuildNameFacts.
Import BuildName.

Lemma u_no_hyphen (s : string) : hasByte hyphen (u s) = false.
Proof.
  induction s as [|c s IH]; [reflexivity |].
  unfold u in *. cbn [replaceByte hasByte]. rewrite IH, orb_false_r.
  destruct (Ascii.eqb c hyphen) eqn:E; [reflexivity | exact E].
Qed.

Lemma u_length (s : string) : String.length (u s) = String.length s.
Proof. induction s as [|c s IH]; simpl; [reflexivity | now rewrite <- IH]. Qed.

Lemma u_fixes_hyphenless (s : string) : hasByte hyphen s = false -> u s = s.
Proof.
  induction s as [|c s IH]; [reflexivity |].
  cbn [hasByte]. intros H. apply orb_false_iff in H. destruct H as [Hc Hs].
  unfold u in *. cbn [replaceByte]. now rewrite Hc, IH.
Qed.

Lemma splitAt_no_sep (sep : ascii) (s : string) :
  forall cur,
    hasByte sep s = false ->
    splitAt sep cur s = [string_of_list_ascii (rev cur ++ list_ascii_of_string s)].
Proof.
  induction s as [|c s IH]; intros cur H; cbn [splitAt list_ascii_of_string].
  - now rewrite app_nil_r.
  - cbn [hasByte] in H. apply orb_false_iff in H. destruct H as [Hc Hs].
    rewrite Hc, IH by exact Hs. cbn [rev]. now rewrite <- app_assoc.
Qed.

Lemma splitAt_first (sep : ascii) (s rest : string) :
  forall cur,
    hasByte sep s = false ->
    splitAt sep cur (s ++ String sep rest) =
    string_of_list_ascii (rev cur ++ list_ascii_of_string s) :: splitAt sep [] rest.
Proof.
  induction s as [|c s IH]; intros cur H; cbn [splitAt append list_ascii_of_string].
  - now rewrite Ascii.eqb_refl, app_nil_r.
  - cbn [hasByte] in H. apply orb_false_iff in H. destruct H as [Hc Hs].
    rewrite Hc, IH by exact Hs. cbn [rev]. now rewrite <- app_assoc.
Qed.

Lemma split_first (sep : ascii) (s rest : string) :
  hasByte sep s = false ->
  split sep (s ++ String sep rest) = s :: split sep rest.
Proof.
  intros H. unfold split. rewrite splitAt_first by exact H.
  cbn [rev app]. now rewrite string_of_list_ascii_of_string.
Qed.

Lemma split_no_sep (sep : ascii) (s : string) :
  hasByte sep s = false -> split sep s = [s].
Proof.
  intros H. unfold split. rewrite splitAt_no_sep by exact H.
  cbn [rev app]. now rewrite string_of_list_ascii_of_string.
Qed.

Lemma split_buildName (d a i n : string) :
  split hyphen (buildName d a i n) = [u d; u a; u i; u n].
Proof.
  unfold buildName.
  change "-" with (String hyphen "").
  cbn [append].
  rewrite !split_first, split_no_sep by apply u_no_hyphen. reflexivity.
Qed.
End BuildNameFacts.

(** X8. [u] replaces every hyphen by an underscore and nothing else:
    byte by byte, the result has an underscore where the argument has
    a hyphen and the byte of the argument elsewhere; it has no hyphen
    and the length of the argument, and a string without hyphen is
    returned as it is.  A build name is the four normalized names with
    a hyphen between them, so it has exactly the three hyphens of its
    format: splitting it at the hyphens gives back the four normalized
    names, and two builds share a name exactly when their normalized
    names agree, as the two at the end do. *)
Theorem buildName_splits_into_its_parts :
  (forall s,
     list_ascii_of_string (BuildName.u s) =
       map (fun c => if Ascii.eqb c "-"%char then "_"%char else c)
           (list_ascii_of_string s) /\
     BuildName.hasByte "-"%char (BuildName.u s) = false /\
     String.length (BuildName.u s) = String.length s /\
     (BuildName.hasByte "-"%char s = false -> BuildName.u s = s)) /\
  (forall d a i n,
     BuildName.buildName d a i n =
       (BuildName.u d ++ "-" ++ BuildName.u a ++ "-" ++ BuildName.u i ++ "-"
          ++ BuildName.u n)%string /\
     BuildName.split "-"%char (BuildName.buildName d a i n) =
       [BuildName.u d; BuildName.u a; BuildName.u i; BuildName.u n]) /\
  (forall d a i n d' a' i' n',
     BuildName.buildName d a i n = BuildName.buildName d' a' i' n' <->
     BuildName.u d = BuildName.u d' /\ BuildName.u a = BuildName.u a' /\
     BuildName.u i = BuildName.u i' /\ BuildName.u n = BuildName.u n') /\
  BuildName.buildName "fedora-38" "x86_64" "iot-commit" "all-customizations" =
    "fedora_38-x86_64-iot_commit-all_customizations" /\
  BuildName.buildName "fedora_38" "x86_64" "iot_commit" "all_customizations" =
    "fedora_38-x86_64-iot_commit-all_customizations".
Proof.
  split; [| split; [| split]].
  - intros s. split; [| split; [apply BuildNameFacts.u_no_hyphen |]].
    + unfold BuildName.u. induction s as [|c s IH]; [reflexivity |].
      cbn [BuildName.replaceByte list_ascii_of_string map]. now rewrite IH.
    + split; [apply BuildNameFacts.u_length | apply BuildNameFacts.u_fixes_hyphenless].
  - intros d a i n. split; [reflexivity | apply BuildNameFacts.split_buildName].
  - intros d a i n d' a' i' n'. split.
    + intros H. apply (f_equal (BuildName.split BuildName.hyphen)) in H.
      rewrite !BuildNameFacts.split_buildName in H.
      injection H as -> -> -> ->. auto.
    + intros (Hd & Ha & Hi & Hn). unfold BuildName.buildName.
      now rewrite Hd, Ha, Hi, Hn.
  - split; reflexivity.
Qed.

(** Two configurations that differ only in a hyphen and an underscore
    get the same build name. *)
Example buildName_collision :
  BuildName.buildName "fedora-38" "x86_64" "iot-commit" "all-customizations" =
  BuildName.buildName "fedora_38" "x86_64" "iot_commit" "all_customizations".
Proof. reflexivity. Qed.

(** ** The steps of a build *)

Module GoMapFacts.

Lemma set_fresh {V : Type} (m : list (string * V)) (key : string) (v : V) :
  ~ In key (GoMap.keys m) -> GoMap.set m key v = m ++ [(key, v)].
Proof.
  induction m as [|[k w] m IH]; simpl; intros H; [reflexivity |].
  destruct (String.eqb_spec k key) as [-> | _]; [tauto |].
  rewrite IH by tauto. reflexivity.
Qed.

End GoMapFacts.

Section BuildStepsFacts.
Context {ext : External} {build : BuildExternal}.

Lemma resolvePipelines_Ok archName sources :
  forall acc out,
    BuildSteps.resolvePipelines sources archName acc = Ok out ->
    NoDup (GoMap.keys acc ++ GoMap.keys sources) ->
    exists added, out = acc ++ added /\ Forall2 (resolvedAs archName) sources added.
Proof.
  induction sources as [|[name srcs] rest IH]; intros acc out H Hnodup.
  - injection H as <-. exists []. rewrite app_nil_r. auto.
  - cbn [BuildSteps.resolvePipelines] in H.
    destruct (BuildSteps.resolveContainers srcs archName) as [specs| |] eqn:Hres;
      try discriminate.
    cbn [GoMap.keys map fst] in Hnodup.
    assert (Hfresh : ~ In name (GoMap.keys acc)).
    { apply NoDup_remove_2 in Hnodup. intros Hin. apply Hnodup.
      apply in_or_app. auto. }
    rewrite GoMapFacts.set_fresh in H by exact Hfresh.
    apply IH in H.
    + destruct H as (added & -> & Hall).
      exists ((name, specs) :: added). rewrite <- app_assoc. split; [reflexivity |].
      constructor; [split; [reflexivity | exact Hres] | exact Hall].
    + unfold GoMap.keys in *. rewrite map_app, <- app_assoc. exact Hnodup.
Qed.

Lemma resolvePipelines_Err archName sources :
  forall acc e,
    BuildSteps.resolvePipelines sources archName acc = Err e ->
    exists before name srcs after,
      sources = before ++ (name, srcs) :: after /\
      BuildSteps.resolveContainers srcs archName = Err e /\
      Forall (fun source =>
                exists specs, BuildSteps.resolveContainers (snd source) archName = Ok specs)
             before.
Proof.
  induction sources as [|[name srcs] rest IH]; intros acc e H; [discriminate |].
  cbn [BuildSteps.resolvePipelines] in H.
  destruct (BuildSteps.resolveContainers srcs archName) as [specs| e' |] eqn:Hres;
    try discriminate.
  - apply IH in H. destruct H as (before & n & s & after & -> & Herr & Hall).
    exists ((name, srcs) :: before), n, s, after. repeat split; auto.
    constructor; [cbn; eauto | exact Hall].
  - injection H as ->. exists [], name, srcs, rest. repeat split; auto.
Qed.

Lemma resolvePipelines_returns archName sources :
  Forall (fun source =>
            exists specs, BuildSteps.resolveContainers (snd source) archName = Ok specs)
         sources ->
  forall acc, exists out, BuildSteps.resolvePipelines sources archName acc = Ok out.
Proof.
  induction 1 as [|[name srcs] rest (specs & Hres) _ IH]; intros acc; cbn; [eauto |].
  cbn in Hres. rewrite Hres. apply IH.
Qed.

Lemma depsolveSets_not_nil packageSets :
  forall solver acc, BuildSteps.depsolveSets solver packageSets acc <> Ok None.
Proof.
  induction packageSets as [|[name pkgSet] rest IH]; intros solver acc; cbn.
  - discriminate.
  - destruct (Depsolve solver pkgSet) as [[res| |] solver']; [apply IH | |]; discriminate.
Qed.
End BuildStepsFacts.

(** X9. Container resolution is all or nothing over the pipelines: it
    returns a map exactly when every pipeline resolves, and the map
    then has the pipelines of the request, each with its resolved
    containers; when it fails, the error is the one of the first
    pipeline that fails. *)
Theorem container_resolution_is_all_or_nothing (ext : External) (build : BuildExternal) :
  forall (sources : list (string * list ContainerSourceSpec)) (archName : string),
    (forall specs,
       BuildSteps.resolvePipelineContainers sources archName = Ok specs ->
       NoDup (GoMap.keys sources) ->
       Forall2 (resolvedAs archName) sources specs) /\
    (forall e,
       BuildSteps.resolvePipelineContainers sources archName = Err e ->
       exists before name srcs after,
         sources = before ++ (name, srcs) :: after /\
         BuildSteps.resolveContainers srcs archName = Err e /\
         Forall (fun source =>
                   exists specs,
                     BuildSteps.resolveContainers (snd source) archName = Ok specs)
                before) /\
    (Forall (fun source =>
               exists specs, BuildSteps.resolveContainers (snd source) archName = Ok specs)
            sources ->
     exists specs, BuildSteps.resolvePipelineContainers sources archName = Ok specs).
Proof.
  intros sources archName. unfold BuildSteps.resolvePipelineContainers.
  split; [| split].
  - intros specs H Hnodup. apply resolvePipelines_Ok in H; [| exact Hnodup].
    destruct H as (added & -> & Hall). exact Hall.
  - intros e H. now apply resolvePipelines_Err in H.
  - intros H. now apply resolvePipelines_returns.
Qed.

(** X10. [makeManifest] serializes only what resolved completely: a
    manifest is returned only when the image type made its manifest and
    the depsolver and the container resolver both succeeded, and it is
    the serialization of their results and of the resolved commits.
    Every error carries the mark [[ERROR]].  The error "depsolve did
    not return any packages" is never returned, since [depsolve]
    returns a map whenever it returns no error. *)
Theorem makeManifest_serializes_only_resolved_content
    (ext : External) (build : BuildExternal) :
  forall imgType config distribution repos archName seedArg cacheRoot,
    let outcome :=
      snd (BuildSteps.makeManifest imgType config distribution repos archName
             seedArg cacheRoot) in
    outcome <> Err "[ERROR] depsolve did not return any packages" /\
    (forall e, outcome = Err e -> String.prefix "[ERROR] " e = true) /\
    (forall mf,
       outcome = Ok mf ->
       exists bp options manifest warnings cacheDir packageSpecs containerSpecs,
         ManifestOf imgType bp options repos seedArg = Ok (manifest, warnings) /\
         BuildSteps.depsolve cacheDir (GetPackageSetChains manifest) distribution archName =
           Ok (Some packageSpecs) /\
         BuildSteps.resolvePipelineContainers (GetContainerSourceSpecs manifest) archName =
           Ok containerSpecs /\
         Serialize manifest packageSpecs containerSpecs
           (BuildTool.resolvePipelineCommits (GetOSTreeSourceSpecs manifest)) = Ok mf).
Proof.
  intros imgType config distribution repos archName seedArg cacheRoot.
  unfold BuildSteps.makeManifest. cbv zeta.
  assert (Herror : forall (text e : string) (r : result Json.value),
             r = Err (text ++ e) ->
             String.prefix "[ERROR] " (text ++ e)%string = true ->
             (text ++ e)%string <> "[ERROR] depsolve did not return any packages" ->
             r <> Err "[ERROR] depsolve did not return any packages" /\
             (forall e', r = Err e' -> String.prefix "[ERROR] " e' = true) /\
             (forall mf,
                r = Ok mf ->
                exists bp options manifest warnings cacheDir packageSpecs containerSpecs,
                  ManifestOf imgType bp options repos seedArg = Ok (manifest, warnings) /\
                  BuildSteps.depsolve cacheDir (GetPackageSetChains manifest) distribution
                    archName = Ok (Some packageSpecs) /\
                  BuildSteps.resolvePipelineContainers (GetContainerSourceSpecs manifest)
                    archName = Ok containerSpecs /\
                  Serialize manifest packageSpecs containerSpecs
                    (BuildTool.resolvePipelineCommits (GetOSTreeSourceSpecs manifest)) =
                    Ok mf)).
  { intros text e r -> Hprefix Hother. split; [congruence |].
    split; [intros e' H; now injection H as <- | intros mf H; discriminate H]. }
  assert (Hpanic : forall (p : string) (r : result Json.value),
             r = Panic p ->
             r <> Err "[ERROR] depsolve did not return any packages" /\
             (forall e', r = Err e' -> String.prefix "[ERROR] " e' = true) /\
             (forall mf,
                r = Ok mf ->
                exists bp options manifest warnings cacheDir packageSpecs containerSpecs,
                  ManifestOf imgType bp options repos seedArg = Ok (manifest, warnings) /\
                  BuildSteps.depsolve cacheDir (GetPackageSetChains manifest) distribution
                    archName = Ok (Some packageSpecs) /\
                  BuildSteps.resolvePipelineContainers (GetContainerSourceSpecs manifest)
                    archName = Ok containerSpecs /\
                  Serialize manifest packageSpecs containerSpecs
                    (BuildTool.resolvePipelineCommits (GetOSTreeSourceSpecs manifest)) =
                    Ok mf)).
  { intros p r ->. split; [discriminate |].
    split; [intros e' H; discriminate H | intros mf H; discriminate H]. }
  destruct (ManifestOf _ _ _ _ _) as [[manifest warnings]| e0 | p0] eqn:Hm; cbn [snd];
    [| eapply Herror; [reflexivity | reflexivity | intro H; discriminate H]
     | eapply Hpanic; reflexivity].
  destruct (BuildSteps.depsolve _ _ _ _) as [[packageSpecs|]| e1 | p1] eqn:Hd; cbn [snd];
    [| exfalso; revert Hd; unfold BuildSteps.depsolve; apply depsolveSets_not_nil
     | eapply Herror; [reflexivity | reflexivity | intro H; discriminate H]
     | eapply Hpanic; reflexivity].
  destruct (BuildSteps.resolvePipelineContainers _ _) as [containerSpecs| e2 | p2] eqn:Hc;
    cbn [snd];
    [| eapply Herror; [reflexivity | reflexivity | intro H; discriminate H]
     | eapply Hpanic; reflexivity].
  destruct (Serialize _ _ _ _) as [mf| e3 | p3] eqn:Hs; cbn [snd];
    [| eapply Herror; [reflexivity | reflexivity | intro H; discriminate H]
     | eapply Hpanic; reflexivity].
  split; [discriminate |].
  split; [intros e' H; discriminate H |].
  intros mf' H. injection H as <-.
  do 7 eexists. split; [exact Hm |]. split; [exact Hd |]. split; [exact Hc | exact Hs].
Qed.

(** ** Raw images and installers *)

Lemma wrapError_Ok {A : Type} (name : string) (m : result A) (a : A) :
  wrapError name m = Ok a -> m = Ok a.
Proof. destruct m; simpl; congruence. Qed.

Lemma payload_not_Panic (options : option Ostree.ImageOptions) (defaultRef p : string) :
  Rhel9.makeOSTreePayloadCommit options defaultRef <> Panic p /\
  Fedora.makeOSTreePayloadCommit options defaultRef <> Panic p.
Proof.
  unfold Rhel9.makeOSTreePayloadCommit, Fedora.makeOSTreePayloadCommit.
  destruct options as [o|]; [destruct (nonEmpty (Ostree.URL o)) |];
    simpl; split; discriminate.
Qed.

Lemma payload_Ok_options (options : option Ostree.ImageOptions) (defaultRef : string)
    (spec : Ostree.SourceSpec) :
  Rhel9.makeOSTreePayloadCommit options defaultRef = Ok spec ->
  exists o, options = Some o /\ Ostree.URL o <> "".
Proof.
  unfold Rhel9.makeOSTreePayloadCommit.
  destruct options as [o|]; [| discriminate].
  destruct (nonEmpty (Ostree.URL o)) eqn:E; [| discriminate].
  intros _. exists o. split; [reflexivity | now apply nonEmpty_true].
Qed.

Section RawImageFacts.
Context {ext : External} {raw : RawExternal}.

Lemma appendProvisioningURL_keeps customizations l x :
  In x l -> In x (Rhel9Images.appendProvisioningURL customizations l).
Proof.
  unfold Rhel9Images.appendProvisioningURL. intros H.
  destruct (RawImages.GetIgnition customizations) as [ign|]; [| exact H].
  destruct (RawImages.FirstBoot ign) as [fb|]; [| exact H].
  destruct (nonEmpty (RawImages.ProvisioningURL fb)); [| exact H].
  apply in_or_app. auto.
Qed.

Lemma appendUserKernelOptions_keeps customizations l x :
  In x l -> In x (Rhel9Images.appendUserKernelOptions customizations l).
Proof.
  unfold Rhel9Images.appendUserKernelOptions, appendNonEmpty. intros H.
  destruct (Blueprint.GetKernel _) as [k|]; [| exact H].
  destruct (nonEmpty (Blueprint.Append k)); [| exact H].
  apply in_or_app. auto.
Qed.

Lemma appendProvisioningURL_head customizations l x :
  hd_error l = Some x ->
  hd_error (Rhel9Images.appendProvisioningURL customizations l) = Some x.
Proof.
  unfold Rhel9Images.appendProvisioningURL. intros H.
  destruct (RawImages.GetIgnition customizations) as [ign|]; [| exact H].
  destruct (RawImages.FirstBoot ign) as [fb|]; [| exact H].
  destruct (nonEmpty (RawImages.ProvisioningURL fb)); [| exact H].
  destruct l; [discriminate | exact H].
Qed.

Lemma appendUserKernelOptions_head customizations l x :
  hd_error l = Some x ->
  hd_error (Rhel9Images.appendUserKernelOptions customizations l) = Some x.
Proof.
  unfold Rhel9Images.appendUserKernelOptions, appendNonEmpty. intros H.
  destruct (Blueprint.GetKernel _) as [k|]; [| exact H].
  destruct (nonEmpty (Blueprint.Append k)); [| exact H].
  destruct l; [discriminate | exact H].
Qed.

(** The user's kernel append, when there is one, is the last kernel
    option. *)
Lemma appendUserKernelOptions_last customizations l k :
  Blueprint.GetKernel (RawImages.accessors customizations) = Some k ->
  Blueprint.Append k <> "" ->
  Rhel9Images.appendUserKernelOptions customizations l = l ++ [Blueprint.Append k].
Proof.
  unfold Rhel9Images.appendUserKernelOptions, appendNonEmpty. intros -> Hne.
  apply nonEmpty_true in Hne. now rewrite Hne.
Qed.

Lemma edgeRawImage_Ok t customizations options ps cs rng img :
  Rhel9Images.edgeRawImage t customizations options ps cs rng = Ok img ->
  exists gate o pt,
    Rhel9.since92 t = Ok gate /\
    Distro.OSTree options = Some o /\ Ostree.URL o <> "" /\
    rhel9GetPartitionTable t (RawImages.GetFilesystems customizations) options rng = Ok pt /\
    RawImages.Ignition img = gate /\
    RawImages.SysrootReadOnly img = gate /\
    RawImages.KernelOptionsAppend img = edgeKernelOptions customizations gate /\
    RawImages.remoteURL (RawImages.rawRemote img) = Ostree.URL o /\
    Ostree.srcURL (RawImages.Commit img) = Ostree.URL o.
Proof.
  unfold Rhel9Images.edgeRawImage. intros H.
  apply bind_Ok in H. destruct H as (commit & Hcommit & H).
  apply wrapError_Ok in Hcommit.
  destruct (payload_Ok_options _ _ _ Hcommit) as (o & Ho & Hurl).
  apply bind_Ok in H. destruct H as (gate & Hgate & H).
  rewrite Hgate in H. cbn [bind] in H.
  unfold Rhel9Images.edgeRemote in H. rewrite Ho in H. cbn [bind] in H.
  apply bind_Ok in H. destruct H as (pt & Hpt & H).
  injection H as <-. cbn.
  exists gate, o, pt. repeat split; auto.
  rewrite Ho in Hcommit. unfold Rhel9.makeOSTreePayloadCommit in Hcommit.
    destruct (nonEmpty (Ostree.URL o)); [| discriminate].
    now injection Hcommit as <-.
Qed.

Lemma edgeSimplifiedInstallerImage_Ok t customizations options ps cs rng img :
  Rhel9Images.edgeSimplifiedInstallerImage t customizations options ps cs rng = Ok img ->
  exists gate o pt device,
    Rhel9.since92 t = Ok gate /\
    Distro.OSTree options = Some o /\ Ostree.URL o <> "" /\
    rhel9GetPartitionTable t (RawImages.GetFilesystems customizations) options rng = Ok pt /\
    RawImages.InstallationDevice customizations = Some device /\
    RawImages.installDevice img = device /\
    RawImages.Ignition (RawImages.rawImage img) = gate /\
    RawImages.SysrootReadOnly (RawImages.rawImage img) = gate /\
    RawImages.KernelOptionsAppend (RawImages.rawImage img) =
      edgeKernelOptions customizations gate.
Proof.
  unfold Rhel9Images.edgeSimplifiedInstallerImage. intros H.
  apply bind_Ok in H. destruct H as (commit & Hcommit & H).
  apply wrapError_Ok in Hcommit.
  destruct (payload_Ok_options _ _ _ Hcommit) as (o & Ho & Hurl).
  apply bind_Ok in H. destruct H as (gate & Hgate & H).
  rewrite Hgate in H. cbn [bind] in H.
  unfold Rhel9Images.edgeRemote in H. rewrite Ho in H. cbn [bind] in H.
  apply bind_Ok in H. destruct H as (pt & Hpt & H).
  apply bind_Ok in H. destruct H as (device & Hdevice & H).
  apply bind_Ok in H. destruct H as (embedded & _ & H).
  injection H as <-. cbn.
  destruct (RawImages.InstallationDevice customizations) as [dev|]; [| discriminate].
  injection Hdevice as <-.
  exists gate, o, pt, dev. repeat split; auto.
Qed.

Lemma edgeKernelOptions_shape customizations gate :
  hd_error (edgeKernelOptions customizations gate) = Some "modprobe.blacklist=vc4" /\
  (gate = true -> In "rw" (edgeKernelOptions customizations gate)) /\
  (forall k,
     Blueprint.GetKernel (RawImages.accessors customizations) = Some k ->
     Blueprint.Append k <> "" ->
     exists before, edgeKernelOptions customizations gate = before ++ [Blueprint.Append k]).
Proof.
  unfold edgeKernelOptions. split; [| split].
  - apply appendUserKernelOptions_head, appendProvisioningURL_head. now destruct gate.
  - intros ->. apply appendUserKernelOptions_keeps, appendProvisioningURL_keeps.
    simpl. auto.
  - intros k Hk Hne. eexists. now apply appendUserKernelOptions_last.
Qed.
End RawImageFacts.

(** X11. Raw images: a sysroot mounted read-only always comes with
    the kernel option [rw].  The Fedora IoT raw image always carries
    [rw]; the RHEL 9 edge raw image and the raw image inside the
    simplified installer switch Ignition, the read-only sysroot and
    [rw] on together.  The kernel options start with
    [modprobe.blacklist=vc4], and a kernel append of the user comes
    last. *)
Theorem read_only_sysroot_comes_with_rw (ext : External) (raw : RawExternal) :
  (forall t customizations options ps cs rng img,
     FedoraImages.iotRawImage t customizations options ps cs rng = Ok img ->
     RawImages.KernelOptionsAppend img = ["modprobe.blacklist=vc4"; "rw"]) /\
  (forall t customizations options ps cs rng img,
     Rhel9Images.edgeRawImage t customizations options ps cs rng = Ok img ->
     RawImages.Ignition img = RawImages.SysrootReadOnly img /\
     (RawImages.SysrootReadOnly img = true -> In "rw" (RawImages.KernelOptionsAppend img)) /\
     hd_error (RawImages.KernelOptionsAppend img) = Some "modprobe.blacklist=vc4" /\
     (forall k,
        Blueprint.GetKernel (RawImages.accessors customizations) = Some k ->
        Blueprint.Append k <> "" ->
        exists before, RawImages.KernelOptionsAppend img = before ++ [Blueprint.Append k])) /\
  (forall t customizations options ps cs rng img,
     Rhel9Images.edgeSimplifiedInstallerImage t customizations options ps cs rng = Ok img ->
     let rawImg := RawImages.rawImage img in
     RawImages.Ignition rawImg = RawImages.SysrootReadOnly rawImg /\
     (RawImages.SysrootReadOnly rawImg = true ->
      In "rw" (RawImages.KernelOptionsAppend rawImg)) /\
     hd_error (RawImages.KernelOptionsAppend rawImg) = Some "modprobe.blacklist=vc4" /\
     (forall k,
        Blueprint.GetKernel (RawImages.accessors customizations) = Some k ->
        Blueprint.Append k <> "" ->
        exists before,
          RawImages.KernelOptionsAppend rawImg = before ++ [Blueprint.Append k])).
Proof.
  split; [| split].
  - intros t customizations options ps cs rng img H.
    unfold FedoraImages.iotRawImage in H.
    apply bind_Ok in H. destruct H as (commit & _ & H).
    apply bind_Ok in H. destruct H as (ro & _ & H).
    apply bind_Ok in H. destruct H as (dirs & _ & H).
    apply bind_Ok in H. destruct H as (files & _ & H).
    apply bind_Ok in H. destruct H as (pt & _ & H).
    now injection H as <-.
  - intros t customizations options ps cs rng img H.
    apply edgeRawImage_Ok in H.
    destruct H as (gate & o & pt & _ & _ & _ & _ & Hi & Hs & Hk & _).
    rewrite Hi, Hs, Hk.
    destruct (edgeKernelOptions_shape customizations gate) as (Hhd & Hrw & Hlast).
    auto.
  - intros t customizations options ps cs rng img H rawImg. subst rawImg.
    apply edgeSimplifiedInstallerImage_Ok in H.
    destruct H as (gate & o & pt & device & _ & _ & _ & _ & _ & _ & Hi & Hs & Hk).
    rewrite Hi, Hs, Hk.
    destruct (edgeKernelOptions_shape customizations gate) as (Hhd & Hrw & Hlast).
    auto.
Qed.

(** ** Failures of the constructions *)

Lemma payload_missing_url (options : option Ostree.ImageOptions) (defaultRef : string) :
  (forall o, options = Some o -> Ostree.URL o = "") ->
  Fedora.makeOSTreePayloadCommit options defaultRef = Err "ostree commit URL required" /\
  Rhel9.makeOSTreePayloadCommit options defaultRef = Err "ostree commit URL required".
Proof.
  intros H. unfold Fedora.makeOSTreePayloadCommit, Rhel9.makeOSTreePayloadCommit.
  destruct options as [o|]; [| split; reflexivity].
  rewrite (H o eq_refl). split; reflexivity.
Qed.

(** X12. Every construction that installs a payload commit fails
    with [<name>: ostree commit URL required] when the build options
    carry no OSTree options or an empty URL; nothing else is looked
    at before. *)
Theorem payload_images_require_commit_url (ext : External) (raw : RawExternal)
    (options : Distro.ImageOptions)
    (Hurl : forall o, Distro.OSTree options = Some o -> Ostree.URL o = "") :
  (forall t c ps cs,
     Fedora.iotInstallerImage t c options ps cs =
       Err (Fedora.name t ++ ": ostree commit URL required")%string) /\
  (forall t c ps cs,
     Rhel9.edgeInstallerImage t c options ps cs =
       Err (Rhel9.name t ++ ": ostree commit URL required")%string) /\
  (forall t c ps cs rng,
     FedoraImages.iotRawImage t c options ps cs rng =
       Err (Fedora.name t ++ ": ostree commit URL required")%string) /\
  (forall t c ps cs rng,
     Rhel9Images.edgeRawImage t c options ps cs rng =
       Err (Rhel9.name t ++ ": ostree commit URL required")%string) /\
  (forall t c ps cs rng,
     Rhel9Images.edgeSimplifiedInstallerImage t c options ps cs rng =
       Err (Rhel9.name t ++ ": ostree commit URL required")%string).
Proof.
  repeat split; intros;
    unfold Fedora.iotInstallerImage, Rhel9.edgeInstallerImage, FedoraImages.iotRawImage,
      Rhel9Images.edgeRawImage, Rhel9Images.edgeSimplifiedInstallerImage;
    match goal with
    | |- context [Fedora.makeOSTreePayloadCommit ?o ?r] =>
        rewrite (proj1 (payload_missing_url o r Hurl))
    | |- context [Rhel9.makeOSTreePayloadCommit ?o ?r] =>
        rewrite (proj2 (payload_missing_url o r Hurl))
    end; reflexivity.
Qed.

Lemma payload_images_require_commit_url_sample :
  Rhel9Images.edgeRawImage (ext := plainExternal) (raw := plainRaw plainExternal)
    (Sample.rhelType "9.2" true true false "" None)
    (RawSample.customizations plainExternal Sample.noCustomizations None)
    Sample.noOptions Sample.noPackages [] 0%N
  = Err "sample: ostree commit URL required".
Proof.
  apply (proj1 (proj2 (proj2 (proj2
    (payload_images_require_commit_url plainExternal (plainRaw plainExternal)
       Sample.noOptions
       (fun o (H : Distro.OSTree Sample.noOptions = Some o) =>
          match H in _ = x return match x with Some _ => _ | None => True end with
          | eq_refl => I
          end)))))).
Defined.

Lemma versionLessThan_not_Err a b e : Common.versionLessThan a b <> Err e.
Proof. unfold Common.versionLessThan. destruct (Common.VersionLessThan a b); discriminate. Qed.

Lemma since92_not_Err {ext : External} (t : Rhel9.imageType) e : Rhel9.since92 t <> Err e.
Proof.
  unfold Rhel9.since92. intros H. apply bind_Err in H.
  destruct H as [H | (older & _ & H)]; [| discriminate].
  now apply versionLessThan_not_Err in H.
Qed.

Lemma bind_Panic {A B : Type} (m : result A) (k : A -> result B) (p : string) :
  bind m k = Panic p -> m = Panic p \/ exists a, m = Ok a /\ k a = Panic p.
Proof.
  destruct m; simpl; intros H; try discriminate; eauto.
  injection H as ->. now left.
Qed.

Lemma wrapError_Err {A : Type} (name : string) (m : result A) (e : string) :
  wrapError name m = Err e -> exists e', m = Err e' /\ e = (name ++ ": " ++ e')%string.
Proof. destruct m; simpl; intros H; try discriminate. injection H as <-. eauto. Qed.

Lemma payload_Err_message (options : option Ostree.ImageOptions) (defaultRef e : string) :
  (Rhel9.makeOSTreePayloadCommit options defaultRef = Err e ->
   e = "ostree commit URL required") /\
  (Fedora.makeOSTreePayloadCommit options defaultRef = Err e ->
   e = "ostree commit URL required").
Proof.
  unfold Rhel9.makeOSTreePayloadCommit, Fedora.makeOSTreePayloadCommit.
  destruct options as [o|]; [destruct (nonEmpty (Ostree.URL o)) |];
    simpl; split; congruence.
Qed.

(** X13. The RHEL 9 edge raw image reads [options.OSTree] without a
    nil test, and is safe: an image that is returned has the URL of
    the options, which is not empty, as the URL of its remote and of
    its commit; a panic is one of the version comparison or of the
    partition table, an error is the missing URL or one of the
    partition table. *)
Theorem edge_raw_image_remote_is_payload_source (ext : External) (raw : RawExternal) :
  (forall t c options ps cs rng img,
     Rhel9Images.edgeRawImage t c options ps cs rng = Ok img ->
     exists o,
       Distro.OSTree options = Some o /\ Ostree.URL o <> "" /\
       RawImages.remoteURL (RawImages.rawRemote img) = Ostree.URL o /\
       Ostree.srcURL (RawImages.Commit img) = Ostree.URL o) /\
  (forall t c options ps cs rng p,
     Rhel9Images.edgeRawImage t c options ps cs rng = Panic p ->
     Rhel9.since92 t = Panic p \/
     rhel9GetPartitionTable t (RawImages.GetFilesystems c) options rng = Panic p) /\
  (forall t c options ps cs rng e,
     Rhel9Images.edgeRawImage t c options ps cs rng = Err e ->
     e = (Rhel9.name t ++ ": ostree commit URL required")%string \/
     rhel9GetPartitionTable t (RawImages.GetFilesystems c) options rng = Err e).
Proof.
  split; [| split].
  - intros t c options ps cs rng img H. apply edgeRawImage_Ok in H.
    destruct H as (gate & o & pt & _ & Ho & Hurl & _ & _ & _ & _ & Hr & Hc).
    exists o. auto.
  - intros t c options ps cs rng p H. unfold Rhel9Images.edgeRawImage in H.
    apply bind_Panic in H. destruct H as [H | (commit & Hcommit & H)].
    { destruct (Rhel9.makeOSTreePayloadCommit (Distro.OSTree options) (Rhel9.ostreeRef t))
        eqn:E; try discriminate.
      simpl in H. now apply payload_not_Panic in E. }
    apply wrapError_Ok in Hcommit.
    destruct (payload_Ok_options _ _ _ Hcommit) as (o & Ho & _).
    apply bind_Panic in H. destruct H as [H | (gate & Hgate & H)]; [now left |].
    rewrite Hgate in H. cbn [bind] in H.
    unfold Rhel9Images.edgeRemote in H. rewrite Ho in H. cbn [bind] in H.
    apply bind_Panic in H. destruct H as [H | (pt & _ & H)]; [now right | discriminate].
  - intros t c options ps cs rng e H. unfold Rhel9Images.edgeRawImage in H.
    apply bind_Err in H. destruct H as [H | (commit & Hcommit & H)].
    { apply wrapError_Err in H. destruct H as (e' & He' & ->).
      apply payload_Err_message in He'. subst e'. now left. }
    apply wrapError_Ok in Hcommit.
    destruct (payload_Ok_options _ _ _ Hcommit) as (o & Ho & _).
    apply bind_Err in H. destruct H as [H | (gate & Hgate & H)];
      [now apply since92_not_Err in H |].
    rewrite Hgate in H. cbn [bind] in H.
    unfold Rhel9Images.edgeRemote in H. rewrite Ho in H. cbn [bind] in H.
    apply bind_Err in H. destruct H as [H | (pt & _ & H)]; [now right | discriminate].
Qed.

(** X14. The simplified installer reads the field
    [InstallationDevice] of the customizations without a nil test: an
    installer that is returned carries the device of the
    customizations, and with nil customizations the construction
    panics as soon as the commit, the version comparison and the
    partition table went through. *)
Theorem simplified_installer_needs_customizations (ext : External) (raw : RawExternal) :
  (forall t c options ps cs rng img,
     Rhel9Images.edgeSimplifiedInstallerImage t c options ps cs rng = Ok img ->
     RawImages.InstallationDevice c = Some (RawImages.installDevice img)) /\
  (forall t c options ps cs rng o gate pt,
     Distro.OSTree options = Some o -> Ostree.URL o <> "" ->
     Rhel9.since92 t = Ok gate ->
     rhel9GetPartitionTable t (RawImages.GetFilesystems c) options rng = Ok pt ->
     RawImages.InstallationDevice c = None ->
     Rhel9Images.edgeSimplifiedInstallerImage t c options ps cs rng = Panic nilDereference).
Proof.
  split.
  - intros t c options ps cs rng img H. apply edgeSimplifiedInstallerImage_Ok in H.
    destruct H as (gate & o & pt & device & _ & _ & _ & _ & Hd & Hi & _).
    now rewrite Hd, Hi.
  - intros t c options ps cs rng o gate pt Ho Hurl Hgate Hpt Hnil.
    unfold Rhel9Images.edgeSimplifiedInstallerImage, Rhel9Images.edgeRemote,
      Rhel9.makeOSTreePayloadCommit.
    apply nonEmpty_true in Hurl.
    rewrite Ho, Hurl, Hgate. cbn [negb wrapError bind].
    rewrite Hpt, Hnil. reflexivity.
Qed.

(** X15. A directory or file customization that does not convert is
    returned as an error by the Fedora IoT raw image, whereas the merge
    of the OS customizations panics on it. *)
Theorem iot_raw_image_returns_conversion_errors (ext : External) (raw : RawExternal) :
  (forall t c options ps cs rng e,
     FedoraImages.iotRawImage t c options ps cs rng = Err e ->
     e = (Fedora.name t ++ ": ostree commit URL required")%string \/
     DirectoryCustomizationsToFsNodeDirectories
       (Blueprint.GetDirectories (RawImages.accessors c)) = Err e \/
     FileCustomizationsToFsNodeFiles
       (Blueprint.GetFiles (RawImages.accessors c)) = Err e \/
     fedoraGetPartitionTable t (RawImages.GetFilesystems c) options rng = Err e) /\
  (forall t c options ps cs rng o sysroot e,
     Distro.OSTree options = Some o -> Ostree.URL o <> "" ->
     (if Strings.HasPrefix (Fedora.distroName (Fedora.distro t)) "fedora"
      then Common.versionLessThan (Fedora.releasever (Fedora.distro t)) "37"
      else Ok false) = Ok sysroot ->
     DirectoryCustomizationsToFsNodeDirectories
       (Blueprint.GetDirectories (RawImages.accessors c)) = Err e ->
     FedoraImages.iotRawImage t c options ps cs rng = Err e /\
     exists p, Fedora.osCustomizations t (ps osPkgsKey) cs (RawImages.accessors c) = Panic p).
Proof.
  split.
  - intros t c options ps cs rng e H. unfold FedoraImages.iotRawImage in H.
    apply bind_Err in H. destruct H as [H | (commit & _ & H)].
    { apply wrapError_Err in H. destruct H as (e' & He' & ->).
      apply payload_Err_message in He'. subst e'. now left. }
    apply bind_Err in H. destruct H as [H | (ro & _ & H)].
    { exfalso. destruct (Strings.HasPrefix _ _); [| discriminate].
      apply bind_Err in H. destruct H as [H | (older & _ & H)]; [| discriminate].
      now apply versionLessThan_not_Err in H. }
    apply bind_Err in H. destruct H as [H | (dirs & _ & H)]; [now right; left |].
    apply bind_Err in H. destruct H as [H | (files & _ & H)]; [now right; right; left |].
    apply bind_Err in H. destruct H as [H | (pt & _ & H)]; [| discriminate].
    now right; right; right.
  - intros t c options ps cs rng o sysroot e Ho Hurl Hgate Hdir. split.
    + unfold FedoraImages.iotRawImage, Fedora.makeOSTreePayloadCommit.
      apply nonEmpty_true in Hurl. rewrite Ho, Hurl. cbn [negb wrapError bind].
      destruct (Strings.HasPrefix _ _).
      * rewrite Hgate. cbn [bind]. now rewrite Hdir.
      * cbn [bind]. now rewrite Hdir.
    + destruct (Fedora.osCustomizations t (ps osPkgsKey) cs (RawImages.accessors c))
        as [osc | e' | p] eqn:E.
      * apply fedora_merge_fields in E. cbv zeta in E.
        destruct E as (_ & _ & _ & _ & _ & _ & _ & dirs & files & repos & yum & keys & E & _).
        congruence.
      * now apply fedora_merge_not_Err in E.
      * eauto.
Qed.

Lemma simplified_installer_needs_customizations_sample :
  Rhel9Images.edgeSimplifiedInstallerImage (ext := plainExternal)
    (raw := plainRaw plainExternal)
    (Sample.rhelType "9.2" true true false "" None)
    (RawSample.customizations plainExternal Sample.noCustomizations None)
    (Sample.ostreeOptions "https://ostree.example.org/repo") Sample.noPackages [] 0%N
  = Panic nilDereference.
Proof.
  apply (proj2 (simplified_installer_needs_customizations plainExternal
                  (plainRaw plainExternal))
           (Sample.rhelType "9.2" true true false "" None)
           (RawSample.customizations plainExternal Sample.noCustomizations None)
           (Sample.ostreeOptions "https://ostree.example.org/repo") Sample.noPackages
           [] 0%N (Ostree.mkImageOptions "" "" "https://ostree.example.org/repo" "" false)
           true ["/"]);
    [reflexivity | discriminate | reflexivity | reflexivity | reflexivity].
Defined.

Lemma iot_raw_image_returns_conversion_errors_sample :
  FedoraImages.iotRawImage (ext := strictExternal) (raw := plainRaw strictExternal)
    (RawSample.strictFedoraType "38")
    (RawSample.customizations strictExternal (RawSample.withDirectory "etc/custom") None)
    (RawSample.strictOptions "https://ostree.example.org/repo")
    RawSample.strictPackages [] 0%N
  = Err "path must be absolute" /\
  exists p,
    Fedora.osCustomizations (ext := strictExternal) (RawSample.strictFedoraType "38")
      (RawSample.strictPackages "os") [] (RawSample.withDirectory "etc/custom") = Panic p.
Proof.
  apply (proj2 (iot_raw_image_returns_conversion_errors strictExternal
                  (plainRaw strictExternal))
           (RawSample.strictFedoraType "38")
           (RawSample.customizations strictExternal (RawSample.withDirectory "etc/custom") None)
           (RawSample.strictOptions "https://ostree.example.org/repo")
           RawSample.strictPackages [] 0%N
           (Ostree.mkImageOptions "" "" "https://ostree.example.org/repo" "" false)
           false "path must be absolute");
    [reflexivity | discriminate | reflexivity | reflexivity].
Defined.

(** X16. The images built around the merged OS customizations
    report an error only for the partition table: the live images
    return the error of [getPartitionTable], the container, tar and
    OSTree container images never return one. *)
Theorem disk_images_report_only_partition_errors (ext : External) (raw : RawExternal) :
  (forall t c options ps cs rng e,
     FedoraImages.liveImage t c options ps cs rng = Err e ->
     fedoraGetPartitionTable t (RawImages.GetFilesystems c) options rng = Err e) /\
  (forall t c options ps cs rng e,
     Rhel9Images.liveImage t c options ps cs rng = Err e ->
     rhel9GetPartitionTable t (RawImages.GetFilesystems c) options rng = Err e) /\
  (forall t c options ps cs rng e,
     FedoraImages.containerImage t c options ps cs rng <> Err e /\
     FedoraImages.iotContainerImage t c options ps cs rng <> Err e) /\
  (forall t c options ps cs rng e,
     Rhel9Images.tarImage t c options ps cs rng <> Err e /\
     Rhel9Images.edgeContainerImage t c options ps cs rng <> Err e).
Proof.
  split; [| split; [| split]].
  - intros t c options ps cs rng e H. unfold FedoraImages.liveImage in H.
    apply bind_Err in H. destruct H as [H | (osc & _ & H)];
      [now apply fedora_merge_not_Err in H |].
    apply bind_Err in H. destruct H as [H | (pt & _ & H)]; [exact H | discriminate].
  - intros t c options ps cs rng e H. unfold Rhel9Images.liveImage in H.
    apply bind_Err in H. destruct H as [H | (osc & _ & H)];
      [now apply rhel9_merge_not_Err in H |].
    apply bind_Err in H. destruct H as [H | (pt & _ & H)]; [exact H | discriminate].
  - intros t c options ps cs rng e. split; intros H.
    + unfold FedoraImages.containerImage in H.
      apply bind_Err in H. destruct H as [H | (osc & _ & H)];
        [now apply fedora_merge_not_Err in H | discriminate].
    + unfold FedoraImages.iotContainerImage in H.
      destruct (Fedora.makeOSTreeParentCommit _ _) as [parent ref].
      apply bind_Err in H. destruct H as [H | (osc & _ & H)];
        [now apply fedora_merge_not_Err in H | discriminate].
  - intros t c options ps cs rng e. split; intros H.
    + unfold Rhel9Images.tarImage in H.
      apply bind_Err in H. destruct H as [H | (osc & _ & H)];
        [now apply rhel9_merge_not_Err in H | discriminate].
    + unfold Rhel9Images.edgeContainerImage in H.
      destruct (Rhel9.makeOSTreeParentCommit _ _) as [parent ref].
      apply bind_Err in H. destruct H as [H | (osc & _ & H)];
        [now apply rhel9_merge_not_Err in H |].
      apply bind_Err in H. destruct H as [H | (gate & _ & H)];
        [now apply since92_not_Err in H | discriminate].
Qed.

(** X17. The OSTree container image serves the commit that the
    commit image builds: for the same input the two constructions
    succeed together and carry the same OS customizations, the same
    ref and the same parent commit; the language of the container is
    the language of the OS. *)
Theorem container_image_serves_the_commit_image (ext : External) (raw : RawExternal) :
  (forall t c options ps cs rng a,
     Rhel9.edgeCommitImage t (RawImages.accessors c) options ps cs = Ok a ->
     exists b,
       Rhel9Images.edgeContainerImage t c options ps cs rng = Ok b /\
       RawImages.containerOSCustomizations b = Image.OSTreeArchive.OSCustomizations a /\
       RawImages.CommitRef b = Image.OSTreeArchive.CommitRef a /\
       RawImages.OSTreeParent b = Image.OSTreeArchive.OSTreeParent a /\
       RawImages.ContainerLanguage b =
         Manifest.Language (Image.OSTreeArchive.OSCustomizations a)) /\
  (forall t c options ps cs rng b,
     Rhel9Images.edgeContainerImage t c options ps cs rng = Ok b ->
     exists a, Rhel9.edgeCommitImage t (RawImages.accessors c) options ps cs = Ok a) /\
  (forall t c options ps cs rng a,
     Fedora.iotCommitImage t (RawImages.accessors c) options ps cs = Ok a ->
     exists b,
       FedoraImages.iotContainerImage t c options ps cs rng = Ok b /\
       RawImages.containerOSCustomizations b = Image.OSTreeArchive.OSCustomizations a /\
       RawImages.CommitRef b = Image.OSTreeArchive.CommitRef a /\
       RawImages.OSTreeParent b = Image.OSTreeArchive.OSTreeParent a /\
       RawImages.ContainerLanguage b =
         Manifest.Language (Image.OSTreeArchive.OSCustomizations a)) /\
  (forall t c options ps cs rng b,
     FedoraImages.iotContainerImage t c options ps cs rng = Ok b ->
     exists a, Fedora.iotCommitImage t (RawImages.accessors c) options ps cs = Ok a).
Proof.
  split; [| split; [| split]].
  - intros t c options ps cs rng a H.
    unfold Rhel9.edgeCommitImage in H. unfold Rhel9Images.edgeContainerImage.
    destruct (Rhel9.makeOSTreeParentCommit _ _) as [parent ref].
    apply bind_Ok in H. destruct H as (osc & Hosc & H).
    apply bind_Ok in H. destruct H as (gate & Hgate & H).
    injection H as <-. rewrite Hosc. cbn [bind]. rewrite Hgate. cbn [bind].
    eexists. split; [reflexivity |]. cbn.
    repeat split. now destruct gate.
  - intros t c options ps cs rng b H.
    unfold Rhel9Images.edgeContainerImage in H. unfold Rhel9.edgeCommitImage.
    destruct (Rhel9.makeOSTreeParentCommit _ _) as [parent ref].
    apply bind_Ok in H. destruct H as (osc & Hosc & H).
    apply bind_Ok in H. destruct H as (gate & Hgate & H).
    rewrite Hosc. cbn [bind]. rewrite Hgate. cbn [bind]. eauto.
  - intros t c options ps cs rng a H.
    unfold Fedora.iotCommitImage in H. unfold FedoraImages.iotContainerImage.
    destruct (Fedora.makeOSTreeParentCommit _ _) as [parent ref].
    apply bind_Ok in H. destruct H as (osc & Hosc & H).
    injection H as <-. rewrite Hosc. cbn [bind].
    eexists. split; [reflexivity |]. cbn. repeat split.
  - intros t c options ps cs rng b H.
    unfold FedoraImages.iotContainerImage in H. unfold Fedora.iotCommitImage.
    destruct (Fedora.makeOSTreeParentCommit _ _) as [parent ref].
    apply bind_Ok in H. destruct H as (osc & Hosc & H).
    rewrite Hosc. cbn [bind]. eauto.
Qed.

(** ** The Python serialiser against the Go one *)

Module AgreementFacts.
Import Json JsonLayout JsonFacts JsonAgreement.
Local Open Scope N_scope.

Lemma apart_app_same (p a b : list ascii) : Apart a b -> Apart (p ++ a) (p ++ b).
Proof.
  intros H k1 k2 E. rewrite <- !app_assoc in E. apply app_inv_head in E.
  now apply H in E.
Qed.

Lemma apart_app (a b x y : list ascii) : Apart a b -> Apart (a ++ x) (b ++ y).
Proof. intros H k1 k2 E. rewrite <- !app_assoc in E. now apply H in E. Qed.

Lemma rel_app (o1 o2 : bool) (a b x y : list ascii) :
  Rel o1 a b -> Rel o2 x y -> Rel (o1 && o2) (a ++ x) (b ++ y).
Proof.
  destruct o1; simpl.
  - intros ->. destruct o2; simpl.
    + now intros ->.
    + apply apart_app_same.
  - intros H _. now apply apart_app.
Qed.

Lemma rel_same (p : list ascii) : Rel true p p.
Proof. reflexivity. Qed.

Lemma rel_prefix (o : bool) (p a b : list ascii) : Rel o a b -> Rel o (p ++ a) (p ++ b).
Proof. intros H. apply (rel_app true o p p a b (rel_same p) H). Qed.

Lemma rel_suffix (o : bool) (s a b : list ascii) : Rel o a b -> Rel o (a ++ s) (b ++ s).
Proof.
  intros H. rewrite <- (andb_true_r o). apply (rel_app o true a b s s H (rel_same s)).
Qed.

Lemma rel_cons (o : bool) (c : ascii) (a b : list ascii) :
  Rel o a b -> Rel o (c :: a) (c :: b).
Proof. apply (rel_prefix o [c]). Qed.

Lemma differEarly_apart (a b : list ascii) : differEarly a b = true -> Apart a b.
Proof.
  unfold differEarly. intros H k1 k2 E.
  destruct a as [|x a], b as [|y b]; try discriminate.
  simpl in E. injection E as Exy E.
  destruct (Ascii.eqb x y) eqn:Hxy.
  - destruct a as [|x2 a], b as [|y2 b]; try discriminate.
    simpl in E. injection E as E2 _. subst y2.
    now rewrite Ascii.eqb_refl in H.
  - apply Ascii.eqb_neq in Hxy. contradiction.
Qed.

Lemma angles_app (a b : list ascii) : angles (a ++ b) = angles a ++ angles b.
Proof. unfold angles, PyJson.replace. now rewrite !flat_map_app. Qed.

Lemma angles_cons (c : ascii) (a : list ascii) : angles (c :: a) = angles [c] ++ angles a.
Proof. apply (angles_app [c] a). Qed.

Lemma angles_notAngle (l : list ascii) : Forall notAngle l -> angles l = l.
Proof.
  induction 1 as [|c l [Hlt Hgt] _ IH]; [reflexivity |].
  rewrite angles_cons, IH. unfold angles, PyJson.replace.
  apply Ascii.eqb_neq in Hlt, Hgt.
  cbn [flat_map]. rewrite Hlt. cbn [flat_map app]. now rewrite Hgt.
Qed.

Lemma bytes_checked (tc : Toolchain) : forallb (byteChecked (tc := tc)) (seq 0 128) = true.
Proof. destruct tc as [[] []]; vm_compute; reflexivity. Qed.

Lemma string_of_list_ascii_inj (a b : list ascii) :
  string_of_list_ascii a = string_of_list_ascii b -> a = b.
Proof.
  intros H. rewrite <- (list_ascii_of_string_of_list_ascii a),
    <- (list_ascii_of_string_of_list_ascii b). now rewrite H.
Qed.

Section WithToolchain.
Context {tc : Toolchain}.

Lemma byte_rel (b : N) :
  asciiByte b = true -> Rel (sharedByte b) (angles (PyJson.escapeChar b)) (goByte b).
Proof.
  unfold asciiByte. intros Hb. apply N.ltb_lt in Hb.
  assert (Hin : In (N.to_nat b) (seq 0 128)) by (apply in_seq; lia).
  pose proof (proj1 (forallb_forall _ _) (bytes_checked tc) _ Hin) as H.
  unfold byteChecked in H. rewrite N2Nat.id in H. unfold Rel.
  destruct (sharedByte b).
  - apply String.eqb_eq in H. now apply string_of_list_ascii_inj.
  - now apply differEarly_apart.
Qed.

Lemma encodeBytes_ascii (b : N) (rest : list N) :
  asciiByte b = true -> encodeBytes 0 (b :: rest) = goByte b ++ encodeBytes 0 rest.
Proof. unfold asciiByte, goByte. intros Hb. simpl. now rewrite Hb. Qed.

Lemma bytes_rel (l : list N) :
  forallb asciiByte l = true ->
  Rel (forallb sharedByte l) (angles (flat_map PyJson.escapeChar l)) (encodeBytes 0 l).
Proof.
  induction l as [|b l IH]; [reflexivity |].
  intros H. cbn [forallb] in H. apply andb_true_iff in H as [Hb Hl].
  cbn [forallb flat_map]. rewrite angles_app, (encodeBytes_ascii b l Hb).
  apply rel_app; [now apply byte_rel | now apply IH].
Qed.

Lemma angles_quote : angles [quote] = [quote].
Proof. reflexivity. Qed.

Lemma string_rel (s : string) :
  forallb asciiByte (codePoints s) = true ->
  Rel (forallb sharedByte (codePoints s))
      (angles (PyJson.encode_basestring_ascii (codePoints s))) (encodeString s).
Proof.
  intros H. unfold PyJson.encode_basestring_ascii, encodeString.
  rewrite angles_cons, angles_app, angles_quote.
  apply (rel_prefix _ [quote]). apply rel_suffix. now apply bytes_rel.
Qed.

Lemma key_rel (k : string) :
  forallb asciiByte (codePoints k) = true ->
  Rel (forallb sharedByte (codePoints k))
      (angles (PyJson.encode_basestring_ascii (codePoints k) ++ [":"%char; space]))
      (keyColon k).
Proof.
  intros H. unfold keyColon. rewrite angles_app.
  change (angles [":"%char; space]) with [":"%char; space].
  apply rel_suffix. now apply string_rel.
Qed.

Lemma newline_indent_lineStart (d : nat) :
  PyJson.newline_indent (list_ascii_of_string "  ") d = lineStart "" "  " d.
Proof. reflexivity. Qed.

Lemma angles_lineStart (d : nat) : angles (lineStart "" "  " d) = lineStart "" "  " d.
Proof. apply angles_notAngle, lineStart_notAngle. Qed.

Lemma angles_separator (d : nat) :
  angles (","%char :: PyJson.newline_indent (list_ascii_of_string "  ") d)
  = ","%char :: lineStart "" "  " d.
Proof.
  rewrite angles_cons, newline_indent_lineStart, angles_lineStart. reflexivity.
Qed.

Lemma list_rest_rel (d : nat) (es : list value) :
  Forall related es ->
  forallb asciiOnly es = true ->
  Rel (forallb sharedOnly es)
    (angles
       ((fix rest (l : list PyJson.value) : list ascii :=
           match l with
           | [] => []
           | y :: l' =>
               (","%char :: PyJson.newline_indent ind (S d))
                 ++ PyJson.iterencode ind (S d) y ++ rest l'
           end) (map load es)))
    ((fix tail (l : list value) : list ascii :=
        match l with
        | [] => []
        | x :: l' =>
            ","%char :: lineStart "" "  " (S d)
              ++ encodeIndent "" "  " (S d) x ++ tail l'
        end) es).
Proof.
  induction 1 as [|e es He _ IH]; [reflexivity |].
  intros H. cbn [forallb] in H. apply andb_true_iff in H as [Ha Hes].
  cbn [forallb map]. rewrite angles_app, angles_app.
  unfold ind at 1. rewrite angles_separator.
  change (","%char :: lineStart "" "  " (S d) ++ ?x)
    with ((","%char :: lineStart "" "  " (S d)) ++ x).
  apply rel_prefix. apply rel_app; [now apply He | now apply IH].
Qed.

Lemma dict_rest_rel (d : nat) (ms : list (string * value)) :
  Forall (fun kv => related (snd kv)) ms ->
  forallb (fun kv => forallb asciiByte (codePoints (fst kv)) && asciiOnly (snd kv)) ms
    = true ->
  Rel (forallb (fun kv => forallb sharedByte (codePoints (fst kv)) && sharedOnly (snd kv)) ms)
    (angles
       ((fix rest (l : list (list N * PyJson.value)) : list ascii :=
           match l with
           | [] => []
           | (k', y) :: l' =>
               (","%char :: PyJson.newline_indent ind (S d))
                 ++ PyJson.encode_basestring_ascii k' ++ [":"%char; space]
                 ++ PyJson.iterencode ind (S d) y ++ rest l'
           end) (map (fun kv => (codePoints (fst kv), load (snd kv))) ms)))
    ((fix tail (l : list (string * value)) : list ascii :=
        match l with
        | [] => []
        | (k', x) :: l' =>
            ","%char :: lineStart "" "  " (S d)
              ++ keyColon k'
              ++ encodeIndent "" "  " (S d) x ++ tail l'
        end) ms).
Proof.
  induction 1 as [|[k e] ms He _ IH]; [reflexivity |].
  intros H. cbn [forallb fst snd] in H.
  apply andb_true_iff in H as [Ha Hms]. apply andb_true_iff in Ha as [Hk Ha].
  cbn [forallb map fst snd]. rewrite angles_app.
  unfold ind at 1. rewrite angles_separator.
  change (","%char :: lineStart "" "  " (S d) ++ ?x)
    with ((","%char :: lineStart "" "  " (S d)) ++ x).
  apply rel_prefix.
  rewrite (app_assoc (PyJson.encode_basestring_ascii (codePoints k))).
  rewrite angles_app. rewrite <- andb_assoc.
  apply rel_app; [now apply key_rel |].
  rewrite angles_app.
  apply rel_app; [now apply He | now apply IH].
Qed.

Lemma related_all (v : value) : related v.
Proof.
  induction v as [| b | n | s | es IH | ms IH] using value_nested_ind; intros d Ha.
  - reflexivity.
  - destruct b; reflexivity.
  - cbn. unfold Rel. change (PyJson.intstr n) with (encodeInt n).
    apply angles_notAngle, plain_notAngle, encodeInt_plain.
  - cbn [load PyJson.iterencode encodeIndent sharedOnly allStrings].
    now apply string_rel.
  - destruct es as [|e es]; [reflexivity |].
    inversion IH as [|? ? He Hes]; subst.
    unfold asciiOnly in Ha. cbn [allStrings forallb] in Ha.
    apply andb_true_iff in Ha as [Ha Has].
    unfold sharedOnly. cbn [allStrings forallb load map PyJson.iterencode encodeIndent].
    rewrite angles_cons. change (angles ["["%char]) with ["["%char].
    change ("["%char :: ?x) with (["["%char] ++ x). apply rel_prefix.
    rewrite angles_app. unfold ind at 1.
    rewrite newline_indent_lineStart, angles_lineStart. apply rel_prefix.
    rewrite angles_app. apply rel_app; [now apply He |].
    rewrite angles_app. rewrite <- (andb_true_r (forallb _ es)).
    apply rel_app; [now apply list_rest_rel |].
    rewrite angles_app. unfold ind. rewrite newline_indent_lineStart, angles_lineStart.
    reflexivity.
  - destruct ms as [|[k e] ms]; [reflexivity |].
    inversion IH as [|? ? He Hes]; subst.
    unfold asciiOnly in Ha. cbn [allStrings forallb fst snd] in Ha.
    apply andb_true_iff in Ha as [Ha Has]. apply andb_true_iff in Ha as [Hk Ha].
    unfold sharedOnly.
    cbn [allStrings forallb load map PyJson.iterencode encodeIndent fst snd].
    rewrite angles_cons. change (angles ["{"%char]) with ["{"%char].
    change ("{"%char :: ?x) with (["{"%char] ++ x). apply rel_prefix.
    rewrite angles_app. unfold ind at 1.
    rewrite newline_indent_lineStart, angles_lineStart. apply rel_prefix.
    rewrite (app_assoc (PyJson.encode_basestring_ascii (codePoints k))).
    rewrite angles_app. rewrite <- andb_assoc.
    apply rel_app; [now apply key_rel |].
    rewrite angles_app. apply rel_app; [now apply He |].
    rewrite angles_app. rewrite <- (andb_true_r (forallb _ ms)).
    apply rel_app; [now apply dict_rest_rel |].
    rewrite angles_app. unfold ind. rewrite newline_indent_lineStart, angles_lineStart.
    reflexivity.
Qed.

Lemma serialise_rel (v : value) :
  asciiOnly v = true ->
  Rel (sharedOnly v)
      (list_ascii_of_string (BuildConfig.serialise (load v)))
      (encodeIndent "" "  " 0%nat v ++ [newline]).
Proof.
  intros Ha. unfold BuildConfig.serialise.
  rewrite list_ascii_of_string_of_list_ascii.
  fold (angles (PyJson.dumps (load v) "  " ++ [newline])).
  rewrite angles_app. change (angles [newline]) with [newline].
  apply rel_suffix. now apply (related_all v 0%nat).
Qed.

End WithToolchain.

End AgreementFacts.

Lemma save_writes (tc : Json.Toolchain) (ms : Json.value) (fpath : string) :
  BuildTool.save ms fpath (BuildTool.mkOsAnswers None None) =
    ([BuildTool.Create fpath;
      BuildTool.WriteBytes fpath
        (string_of_list_ascii (Json.encodeIndent "" "  " 0 ms ++ [Json.newline]));
      BuildTool.Close fpath], None).
Proof.
  unfold BuildTool.save, Json.MarshalIndent.
  cbn [BuildTool.createError BuildTool.writeError].
  now rewrite JsonFacts.string_of_list_ascii_snoc.
Qed.

(** X18. The Python [serialise] of the test generator against the
    Go [save], on a manifest whose strings are ASCII, for every release
    of the Go encoder: the text that [serialise] computes is the file
    that [save] writes exactly when every byte of every string of the
    manifest, key or value, is one that the two encoders write alike.
    These are the ASCII bytes other than the ampersand and the delete
    character, and other than backspace and form feed when the tool is
    built with a Go before 1.22.  The hash that [filter_builds]
    computes is then the SHA-256 of the file. *)
Theorem serialise_matches_save_on_shared_bytes
    (tc : Json.Toolchain) (ms : Json.value) (fpath : string) :
  JsonAgreement.asciiOnly ms = true ->
  let data := JsonAgreement.load ms in
  (BuildTool.save ms fpath (BuildTool.mkOsAnswers None None) =
     ([BuildTool.Create fpath;
       BuildTool.WriteBytes fpath (BuildConfig.serialise data);
       BuildTool.Close fpath], None)
   <-> JsonAgreement.sharedOnly ms = true) /\
  (JsonAgreement.sharedOnly ms = true ->
   forall b,
     In (BuildTool.WriteBytes fpath b)
        (fst (BuildTool.save ms fpath (BuildTool.mkOsAnswers None None))) ->
     BuildConfig.manifest_hash data = hexString (Sha256.Sum256 b)) /\
  (forall b : N,
     JsonAgreement.sharedByte b = true <->
     (b < 0x7F)%N /\ b <> 0x26%N /\
     (Json.shortControlEscapes = false -> b <> 0x08%N /\ b <> 0x0C%N)).
Proof.
  intros Ha data. subst data.
  pose proof (AgreementFacts.serialise_rel ms Ha) as Hrel.
  rewrite save_writes.
  assert (Hshared : JsonAgreement.sharedOnly ms = true ->
            BuildConfig.serialise (JsonAgreement.load ms) =
            string_of_list_ascii (Json.encodeIndent "" "  " 0 ms ++ [Json.newline])).
  { intros Hs. rewrite Hs in Hrel. cbn [JsonAgreement.Rel] in Hrel.
    rewrite <- Hrel. now rewrite string_of_list_ascii_of_string. }
  split; [split | split].
  - intros E. injection E as E.
    destruct (JsonAgreement.sharedOnly ms); [reflexivity | exfalso].
    cbn [JsonAgreement.Rel] in Hrel. apply (Hrel [] []). rewrite !app_nil_r.
    rewrite <- E. now rewrite list_ascii_of_string_of_list_ascii.
  - intros Hs. now rewrite (Hshared Hs).
  - intros Hs b Hin. cbn [fst In] in Hin.
    destruct Hin as [Hin | [Hin | [Hin | []]]]; try discriminate.
    injection Hin as <-. unfold BuildConfig.manifest_hash. now rewrite (Hshared Hs).
  - intros b. unfold JsonAgreement.sharedByte.
    rewrite !andb_true_iff, orb_true_iff, !negb_true_iff, orb_false_iff.
    rewrite N.ltb_lt, !N.eqb_neq.
    destruct Json.shortControlEscapes; split.
    + intros ((Hlt & Hamp) & _). repeat split; auto; discriminate.
    + intros (Hlt & Hamp & _). auto.
    + intros ((Hlt & Hamp) & [H | H]); [discriminate | auto].
    + intros (Hlt & Hamp & H). auto.
Qed.

(** On a sample: a manifest with an angle bracket and a form feed,
    written by a Go from 1.22 on. *)
Lemma serialise_matches_save_sample :
  BuildTool.save (tc := Json.go122)
    (Json.Object [("version", Json.Str "2");
                  ("comment", Json.Str (String (Json.chr 12) "a<b> c"))])
    "manifest.json" (BuildTool.mkOsAnswers None None) =
    ([BuildTool.Create "manifest.json";
      BuildTool.WriteBytes "manifest.json"
        (BuildConfig.serialise
           (JsonAgreement.load
              (Json.Object [("version", Json.Str "2");
                            ("comment", Json.Str (String (Json.chr 12) "a<b> c"))])));
      BuildTool.Close "manifest.json"], None).
Proof.
  apply (proj2 (proj1 (serialise_matches_save_on_shared_bytes Json.go122
    (Json.Object [("version", Json.Str "2");
                  ("comment", Json.Str (String (Json.chr 12) "a<b> c"))])
    "manifest.json" eq_refl))).
  reflexivity.
Defined.

(** A query string in a URL is enough for the two texts to differ:
    every Go encoder writes the ampersand as the escape [u0026] after a
    backslash, Python keeps it. *)
Example ampersand_is_written_differently (tc : Json.Toolchain) :
  BuildConfig.serialise (JsonAgreement.load (Json.Str "repo=fedora&arch=x86_64"))
  <> string_of_list_ascii
       (Json.encodeIndent "" "  " 0 (Json.Str "repo=fedora&arch=x86_64") ++ [Json.newline]).
Proof. intros E. vm_compute in E. discriminate E. Qed.

(** A backspace: written as [u0008] after a backslash by a Go up to
    1.21, and as [b] after a backslash by Python and by a Go from 1.22
    on. *)
Example backspace_depends_on_the_release :
  Json.encodeString (tc := Json.go121) (String (Json.chr 8) "")
    = Json.quote :: Json.backslash :: list_ascii_of_string "u0008" ++ [Json.quote] /\
  Json.encodeString (tc := Json.go122) (String (Json.chr 8) "")
    = [Json.quote; Json.backslash; "b"%char; Json.quote] /\
  PyJson.encode_basestring_ascii [8%N]
    = [Json.quote; Json.backslash; "b"%char; Json.quote].
Proof. repeat split; vm_compute; reflexivity. Qed.

(** A byte that is no valid UTF-8: the escape [ufffd] after a
    backslash, or the three bytes of U+FFFD. *)
Example invalid_byte_depends_on_the_release :
  Json.encodeString (tc := Json.go122) (String (Json.chr 0xFF) "")
    = Json.quote :: Json.backslash :: list_ascii_of_string "ufffd" ++ [Json.quote] /\
  Json.encodeString (tc := Json.goJsonV2) (String (Json.chr 0xFF) "")
    = [Json.quote; Json.chr 0xEF; Json.chr 0xBF; Json.chr 0xBD; Json.quote].
Proof. repeat split; vm_compute; reflexivity. Qed.

(** A character outside ASCII is written as its UTF-8 bytes by Go and
    as a [u] escape by Python. *)
Example non_ascii_is_written_differently (tc : Json.Toolchain) :
  BuildConfig.serialise (PyJson.PyStr [0xE9%N])
  = string_of_list_ascii
      ([Json.quote; Json.backslash] ++ list_ascii_of_string "u00e9"
         ++ [Json.quote; Json.newline]) /\
  Json.encodeIndent "" "  " 0
    (Json.Str (String (Json.chr 0xC3) (String (Json.chr 0xA9) "")))
  = [Json.quote; Json.chr 0xC3; Json.chr 0xA9; Json.quote].
Proof. split; vm_compute; reflexivity. Qed.

(** ** The selection of the builds *)

Module FilterFacts.
Import FilterBuilds.






End FilterFacts.



(** A directory in the place of a result ends the run, also after a
    manifest was scheduled; so does an entry of the manifest directory
    that does not load. *)
Example uncaught_exceptions_end_the_run :
  FilterBuilds.filter_builds "/cache/s3configs" FilterSample.synced
    (Ok [FilterBuilds.Loaded FilterSample.ami; FilterBuilds.Loaded FilterSample.vmdk;
         FilterBuilds.Loaded FilterSample.qcow2])
  = Err "IsADirectoryError" /\
  FilterBuilds.filter_builds "/cache/s3configs" FilterSample.synced
    (Ok [FilterBuilds.Loaded FilterSample.iotRaw;
         FilterBuilds.Unloadable "JSONDecodeError"])
  = Err "JSONDecodeError".
Proof. split; vm_compute; reflexivity. Qed.

(** ** The properties on the sample inputs *)

(** Settles a goal about the outcome of a run of the model that is
    known not to be the one at hand. *)
Ltac other_outcome E := exfalso; vm_compute in E; discriminate E.

Lemma oscap_on_ostree_type_sample :
  Fedora.osCustomizations (ext := plainExternal)
    (Sample.fedoraType "38" true true false "" None) (Sample.noPackages "os") []
    BuildSample.oscapCustomizations
  = Panic "unexpected oscap options for ostree image type".
Proof.
  apply (proj2 (proj1 (oscap_on_ostree_type_panics plainExternal)
                  (Sample.fedoraType "38" true true false "" None) (Sample.noPackages "os")
                  [] BuildSample.oscapCustomizations
                  (Blueprint.mkOpenSCAP "" "xccdf_org.ssgproject.content_profile_ospp")
                  eq_refl eq_refl)).
  discriminate.
Defined.

Lemma user_ntp_servers_sample :
  match
    Fedora.osCustomizations (ext := plainExternal)
      (Sample.fedoraType "38" true false false "" None) (Sample.noPackages "os") []
      BuildSample.localeCustomizations
  with
  | Ok osc =>
      map Osbuild.Hostname (Manifest.NTPServers osc) = ["ntp1.example.org"; "ntp2.example.org"]
  | _ => False
  end.
Proof.
  destruct (Fedora.osCustomizations (ext := plainExternal)
              (Sample.fedoraType "38" true false false "" None) (Sample.noPackages "os") []
              BuildSample.localeCustomizations) as [osc | e | p] eqn:E;
    [| other_outcome E | other_outcome E].
  apply (proj1 (user_ntp_servers_replace_defaults plainExternal) _ _ _ _ _ E).
  discriminate.
Defined.

(** On a sample: two user files and two repositories with a key file
    each. *)
Lemma gpg_key_files_sample :
  match
    Fedora.osCustomizations (ext := strictExternal)
      (RawSample.strictFedoraType "38") (RawSample.strictPackages "os") []
      RawSample.withRepositories
  with
  | Ok osc =>
      Manifest.Files osc =
        ["/etc/motd"; "/etc/issue";
         "/etc/pki/rpm-gpg/RPM-GPG-KEY-custom"; "/etc/pki/rpm-gpg/RPM-GPG-KEY-extra"]
  | _ => False
  end.
Proof.
  destruct (Fedora.osCustomizations (ext := strictExternal)
              (RawSample.strictFedoraType "38") (RawSample.strictPackages "os") []
              RawSample.withRepositories) as [osc | e | p] eqn:E;
    [| other_outcome E | other_outcome E].
  destruct (proj1 (gpg_key_files_follow_user_files strictExternal) _ _ _ _ _ E)
    as (files & repos & yum & keys & Hfiles & Hrepos & Hkeys & ->).
  cbn in Hfiles. injection Hfiles as <-.
  cbn in Hrepos. injection Hrepos as <-.
  cbn in Hkeys. injection Hkeys as <- <-.
  reflexivity.
Defined.

Lemma user_locale_settings_sample :
  match
    Rhel9.osCustomizations (ext := plainExternal)
      (Sample.rhelType "9.2" true false false "" None) (Sample.noPackages "os")
      Sample.noOptions [] BuildSample.localeCustomizations
  with
  | Ok osc => Manifest.Language osc = "de_DE.UTF-8" /\ Manifest.Hostname osc = "edge-01"
  | _ => False
  end.
Proof.
  destruct (Rhel9.osCustomizations (ext := plainExternal)
              (Sample.rhelType "9.2" true false false "" None) (Sample.noPackages "os")
              Sample.noOptions [] BuildSample.localeCustomizations) as [osc | e | p] eqn:E;
    [| other_outcome E | other_outcome E].
  pose proof (proj2 (user_locale_settings_win plainExternal) _ _ _ _ _ _ E)
    as (Hl & _ & _ & Hh & _).
  split; [apply Hl | apply Hh]; reflexivity.
Defined.

Lemma payload_and_parent_commits_sample :
  exists spec,
    Fedora.makeOSTreePayloadCommit
      (Some (Ostree.mkImageOptions "" "" "https://ostree.example.org/repo" "" false))
      "fedora/stable/x86_64/iot" = Ok spec /\
    Ostree.srcRef spec = "fedora/stable/x86_64/iot" /\
    fst (Fedora.makeOSTreeParentCommit
           (Some (Ostree.mkImageOptions "" "" "https://ostree.example.org/repo" "" false))
           "fedora/stable/x86_64/iot") = Some spec.
Proof.
  destruct (proj1 (proj2 (payload_and_parent_commits_agree
              (Ostree.mkImageOptions "" "" "https://ostree.example.org/repo" "" false)
              "fedora/stable/x86_64/iot")))
    as (spec & Hspec & Href & Hparent); [discriminate |].
  exists spec. split; [exact Hspec |]. split; [exact Href | now apply Hparent].
Defined.

Lemma container_resolution_sample :
  BuildSteps.resolvePipelineContainers (ext := plainExternal) (build := plainBuild)
    [("os", ["a"; "b"]); ("payload", [""]); ("other", [""; "c"])] "x86_64"
  = Err "empty container source" /\
  exists before name srcs after,
    [("os", ["a"; "b"]); ("payload", [""]); ("other", [""; "c"])]
      = before ++ (name, srcs) :: after /\
    BuildSteps.resolveContainers (ext := plainExternal) (build := plainBuild) srcs "x86_64"
      = Err "empty container source" /\
    Forall (fun source =>
              exists specs,
                BuildSteps.resolveContainers (ext := plainExternal) (build := plainBuild)
                  (snd source) "x86_64" = Ok specs)
           before.
Proof.
  split; [reflexivity |].
  apply (proj1 (proj2 (container_resolution_is_all_or_nothing plainExternal plainBuild
                         [("os", ["a"; "b"]); ("payload", [""]); ("other", [""; "c"])]
                         "x86_64"))).
  reflexivity.
Defined.

Lemma makeManifest_sample :
  exists bp options manifest warnings cacheDir packageSpecs containerSpecs,
    ManifestOf (ext := plainExternal) (BuildExternal := plainBuild)
      "qcow2" bp options [] 0%Z = Ok (manifest, warnings) /\
    BuildSteps.depsolve (ext := plainExternal) (build := plainBuild) cacheDir
      (GetPackageSetChains manifest) BuildSample.fedora38 "x86_64" = Ok (Some packageSpecs) /\
    BuildSteps.resolvePipelineContainers (ext := plainExternal) (build := plainBuild)
      (GetContainerSourceSpecs manifest) "x86_64" = Ok containerSpecs /\
    Serialize manifest packageSpecs containerSpecs
      (BuildTool.resolvePipelineCommits (GetOSTreeSourceSpecs manifest)) =
      Ok (Json.Object
            [("packages", Json.Array [Json.Str "qcow2"]);
             ("containers", Json.Array [Json.Str "registry.example.org/app@x86_64"])]).
Proof.
  apply (proj2 (proj2 (makeManifest_serializes_only_resolved_content plainExternal plainBuild
                         "qcow2" (BuildSample.config (Some "registry.example.org/app"))
                         BuildSample.fedora38 [] "x86_64" 0%Z "/var/cache"))).
  reflexivity.
Defined.

Lemma read_only_sysroot_sample :
  match
    Rhel9Images.edgeRawImage (ext := plainExternal) (raw := plainRaw plainExternal)
      (Sample.rhelType "9.2" true true false "" None) BuildSample.ignitionCustomizations
      (Sample.ostreeOptions "https://ostree.example.org/repo") Sample.noPackages [] 0%N
  with
  | Ok img =>
      RawImages.SysrootReadOnly img = true /\
      RawImages.Ignition img = RawImages.SysrootReadOnly img /\
      In "rw" (RawImages.KernelOptionsAppend img) /\
      exists before, RawImages.KernelOptionsAppend img = before ++ ["debug"]
  | _ => False
  end.
Proof.
  destruct (Rhel9Images.edgeRawImage (ext := plainExternal) (raw := plainRaw plainExternal)
              (Sample.rhelType "9.2" true true false "" None)
              BuildSample.ignitionCustomizations
              (Sample.ostreeOptions "https://ostree.example.org/repo") Sample.noPackages
              [] 0%N) as [img | e | p] eqn:E;
    [| other_outcome E | other_outcome E].
  pose proof (proj1 (proj2 (read_only_sysroot_comes_with_rw plainExternal
                              (plainRaw plainExternal))) _ _ _ _ _ _ _ E)
    as (Hi & Hrw & _ & Hlast).
  assert (Hro : RawImages.SysrootReadOnly img = true).
  { vm_compute in E. injection E as <-. reflexivity. }
  split; [exact Hro |]. split; [exact Hi |]. split; [exact (Hrw Hro) |].
  apply (Hlast (Blueprint.mkKernel "kernel-rt" "debug")); [reflexivity | discriminate].
Defined.

Lemma edge_raw_image_remote_sample :
  match
    Rhel9Images.edgeRawImage (ext := plainExternal) (raw := plainRaw plainExternal)
      (Sample.rhelType "9.2" true true false "" None) BuildSample.ignitionCustomizations
      (Sample.ostreeOptions "https://ostree.example.org/repo") Sample.noPackages [] 0%N
  with
  | Ok img =>
      exists o,
        Distro.OSTree (Sample.ostreeOptions "https://ostree.example.org/repo") = Some o /\
        Ostree.URL o <> "" /\
        RawImages.remoteURL (RawImages.rawRemote img) = Ostree.URL o /\
        Ostree.srcURL (RawImages.Commit img) = Ostree.URL o
  | _ => False
  end.
Proof.
  destruct (Rhel9Images.edgeRawImage (ext := plainExternal) (raw := plainRaw plainExternal)
              (Sample.rhelType "9.2" true true false "" None)
              BuildSample.ignitionCustomizations
              (Sample.ostreeOptions "https://ostree.example.org/repo") Sample.noPackages
              [] 0%N) as [img | e | p] eqn:E;
    [| other_outcome E | other_outcome E].
  exact (proj1 (edge_raw_image_remote_is_payload_source plainExternal
                  (plainRaw plainExternal)) _ _ _ _ _ _ _ E).
Defined.

Lemma disk_image_partition_error_sample :
  rhel9GetPartitionTable (ext := plainExternal) (RawExternal := plainRaw plainExternal)
    (Sample.rhelType "9.1" true false false "" None)
    (RawImages.GetFilesystems (BuildSample.badFilesystem Sample.noCustomizations))
    Sample.noOptions 0%N
  = Err "invalid mountpoint".
Proof.
  apply (proj1 (proj2 (disk_images_report_only_partition_errors plainExternal
                         (plainRaw plainExternal)))
           (Sample.rhelType "9.1" true false false "" None)
           (BuildSample.badFilesystem Sample.noCustomizations)
           Sample.noOptions Sample.noPackages [] 0%N).
  reflexivity.
Defined.

Lemma container_image_serves_commit_sample :
  exists b,
    Rhel9Images.edgeContainerImage (ext := plainExternal) (raw := plainRaw plainExternal)
      (Sample.rhelType "9.2" true true false "" None)
      (RawSample.customizations plainExternal BuildSample.localeCustomizations None)
      (Sample.ostreeOptions "https://ostree.example.org/repo") Sample.noPackages [] 0%N
    = Ok b /\
    RawImages.ContainerLanguage b = "de_DE.UTF-8".
Proof.
  destruct (Rhel9.edgeCommitImage (ext := plainExternal)
              (Sample.rhelType "9.2" true true false "" None)
              BuildSample.localeCustomizations
              (Sample.ostreeOptions "https://ostree.example.org/repo") Sample.noPackages [])
    as [a | e | p] eqn:E; [| other_outcome E | other_outcome E].
  destruct (proj1 (container_image_serves_the_commit_image plainExternal
                     (plainRaw plainExternal))
              (Sample.rhelType "9.2" true true false "" None)
              (RawSample.customizations plainExternal BuildSample.localeCustomizations None)
              (Sample.ostreeOptions "https://ostree.example.org/repo") Sample.noPackages
              [] 0%N a E) as (b & Hb & _ & _ & _ & Hlang).
  exists b. split; [exact Hb |]. rewrite Hlang.
  vm_compute in E. injection E as <-. reflexivity.
Defined.
